(** * VaultPass authentication core: a shallow embedding and its properties

    The development follows the TypeScript sources of the repository:
    the Mongoose models (User, Session, Device, SecurityLog), the
    utilities (passwordStrength, deviceParser, geolocation,
    suspiciousActivity), the middleware (auth) and the controllers (auth,
    password, email verification, device, session, two-factor).

    Conventions.
    - A JavaScript [Date] is its millisecond time stamp, an integer [Z].
      A handler reads the clock once: every [new Date()] / [Date.now()]
      of one request is the [now] of its environment.
    - A MongoDB collection is a list of documents in insertion order;
      [findOne] returns the first match, [updateMany] maps over the list.
    - External collaborators (bcrypt, speakeasy, jsonwebtoken, crypto,
      the mail transport) are fields of an environment record [Env].
    - An optional field ([x?: T], or a schema path without default) is an
      [option].
    - A handler sees the paths that its query loads: a path that the
      schema declares [select: false] reads as [undefined] unless the
      query names it ([.select('+path')]).  Where a handler reads only
      paths that it has loaded, it is modelled on the stored document. *)

From Stdlib Require Import ZArith NArith List String Ascii Bool Lia DecimalString.
From Stdlib Require Strings.Byte.
Import ListNotations.

Open Scope string_scope.
Open Scope list_scope.
Open Scope Z_scope.

(* ================================================================== *)
(** ** JavaScript strings as UTF-16 code units (used where the code
       looks inside a string: [length], regular expressions,
       [toLowerCase]) *)
(* ================================================================== *)

Module JS.

Definition jsstring := list N.

(** The code units of an ASCII literal. *)
Definition units (s : string) : jsstring :=
  map N_of_ascii (list_ascii_of_string s).

Fixpoint eqb (a b : jsstring) : bool :=
  match a, b with
  | [], [] => true
  | x :: a', y :: b' => N.eqb x y && eqb a' b'
  | _, _ => false
  end.

(** [s.length] *)
Definition length (s : jsstring) : Z := Z.of_nat (List.length s).

Definition inRange (lo hi c : N) : bool := (N.leb lo c && N.leb c hi)%N.

(** [String.prototype.toLowerCase], code unit by code unit.  The only code
    units whose lower-case mapping is an ASCII character are [A]-[Z] and
    U+212A (KELVIN SIGN, mapped to [k]); every other code unit is kept, which
    is exact as far as equality of the result with an all-ASCII string goes
    (the one expanding mapping, U+0130, yields a non-ASCII unit as well). *)
Definition lowerUnit (c : N) : N :=
  if inRange 65 90 c then (c + 32)%N
  else if N.eqb c 8490 then 107%N
  else c.

Definition toLowerCase (s : jsstring) : jsstring := map lowerUnit s.

(** [array.includes(x)] on an array of strings *)
Definition includes (l : list jsstring) (x : jsstring) : bool :=
  existsb (eqb x) l.

End JS.

(* ================================================================== *)
(** ** utils/passwordStrength.ts *)
(* ================================================================== *)

Module passwordStrength.
Import JS.

Inductive Strength := weak | fair | good | strong | very_strong.

Record Requirements := mkRequirements {
  req_length : bool;
  req_uppercase : bool;
  req_lowercase : bool;
  req_number : bool;
  req_special : bool;
  req_common : bool
}.

Record PasswordStrength := mkPasswordStrength {
  score : Z;
  strength : Strength;
  feedback : list string;
  requirements : Requirements
}.

Definition commonPasswords : list jsstring :=
  map units
    [ "password"; "12345678"; "123456789"; "1234567890"; "qwerty"; "abc123";
      "password123"; "admin"; "letmein"; "welcome"; "monkey"; "1234567";
      "sunshine"; "princess"; "football"; "iloveyou" ].

Definition isCommonPassword (password : jsstring) : bool :=
  includes commonPasswords (toLowerCase password).

(** [/[A-Z]/], [/[a-z]/], [/\d/] *)
Definition isUpper (c : N) : bool := inRange 65 90 c.
Definition isLower (c : N) : bool := inRange 97 122 c.
Definition isDigit (c : N) : bool := inRange 48 57 c.

(** The members of the character class of the [special] requirement: the
    double quote (code unit 34) and the characters of the literal below
    (the class escapes the hyphen, the brackets, the backslash and the
    slash). *)
Definition specialChars : list N :=
  34%N :: units "!@#$%^&*()_+-=[]{};':\|,.<>/?".

Definition isSpecial (c : N) : bool := existsb (N.eqb c) specialChars.

(** [regex.test(password)] for a one-character class *)
Definition test (cls : N -> bool) (password : jsstring) : bool :=
  existsb cls password.

(** [if (c) score += k] *)
Definition addIf (c : bool) (k : Z) (score : Z) : Z :=
  if c then score + k else score.

(** [if (c) feedback.push(msg)] *)
Definition pushIf (c : bool) (msg : string) (feedback : list string) :=
  if c then feedback ++ [msg] else feedback.

Definition band (score : Z) : Strength :=
  if score <? 40 then weak
  else if score <? 60 then fair
  else if score <? 80 then good
  else if score <? 90 then strong
  else very_strong.

Definition checkPasswordStrength (password : jsstring) : PasswordStrength :=
  let feedback : list string := [] in
  let requirements :=
    {| req_length := 8 <=? length password;
       req_uppercase := test isUpper password;
       req_lowercase := test isLower password;
       req_number := test isDigit password;
       req_special := test isSpecial password;
       req_common := negb (isCommonPassword password) |} in
  let score := 0 in
  (* Length scoring *)
  let score := addIf (8 <=? length password) 20 score in
  let score := addIf (12 <=? length password) 10 score in
  let score := addIf (16 <=? length password) 10 score in
  (* Character variety scoring *)
  let score := addIf (req_uppercase requirements) 15 score in
  let score := addIf (req_lowercase requirements) 15 score in
  let score := addIf (req_number requirements) 15 score in
  let score := addIf (req_special requirements) 15 score in
  (* Bonus for uncommon passwords *)
  let score := addIf (req_common requirements) 10 score in
  (* Penalties *)
  let feedback :=
    pushIf (length password <? 8)
           "Password should be at least 8 characters long" feedback in
  let feedback :=
    pushIf (negb (req_uppercase requirements)) "Add uppercase letters" feedback in
  let feedback :=
    pushIf (negb (req_lowercase requirements)) "Add lowercase letters" feedback in
  let feedback :=
    pushIf (negb (req_number requirements)) "Add numbers" feedback in
  let feedback :=
    pushIf (negb (req_special requirements)) "Add special characters" feedback in
  let feedback :=
    pushIf (negb (req_common requirements)) "Avoid common passwords" feedback in
  {| score := score;
     strength := band score;
     feedback := feedback;
     requirements := requirements |}.

End passwordStrength.

(* ================================================================== *)
(** ** Opaque strings (identifiers, tokens, addresses, messages) *)
(* ================================================================== *)

Definition Time := Z.

(** [a === b] on strings *)
Definition streq (a b : string) : bool := String.eqb a b.

(** [set.has(x)] / [array.includes(x)] on strings *)
Definition has (l : list string) (x : string) : bool := existsb (streq x) l.

(** A JavaScript string is truthy when it is not empty. *)
Definition truthy (s : string) : bool := negb (streq s "").

(** [s.startsWith(p)] *)
Definition startsWith (s p : string) : bool := String.prefix p s.

(** [s.includes(sub)] *)
Fixpoint includes (s sub : string) : bool :=
  String.prefix sub s ||
  match s with
  | EmptyString => false
  | String _ s' => includes s' sub
  end.

(** [parts.join(sep)] *)
Definition join (sep : string) (parts : list string) : string :=
  String.concat sep parts.

(* ================================================================== *)
(** ** models/User.ts *)
(* ================================================================== *)

Module User.

(** The paths of [IUser] that the modelled operations read or write
    ([username], [lastName], [profilePicture] and the Mongoose time stamps
    are carried along untouched by all of them and left out). *)
Record IUser := mkUser {
  _id : string;
  email : string;
  password : string;
  firstName : option string;
  isEmailVerified : bool;
  emailVerificationToken : option string;
  emailVerificationExpires : option Time;
  passwordResetToken : option string;
  passwordResetExpires : option Time;
  loginAttempts : Z;
  lockUntil : option Time;
  isLocked : bool;           (* a missing path reads as the default [false] *)
  twoFactorEnabled : bool;
  twoFactorSecret : option string;
  backupCodes : option (list string);
  role : string;
  lastLogin : option Time;
  lastLoginIP : option string
}.

(** Writes to groups of paths that the code always writes together. *)
Definition setLockout (n : Z) (l : option Time) (b : bool) (u : IUser) : IUser :=
  mkUser (_id u) (email u) (password u) (firstName u) (isEmailVerified u)
         (emailVerificationToken u) (emailVerificationExpires u)
         (passwordResetToken u) (passwordResetExpires u)
         n l b
         (twoFactorEnabled u) (twoFactorSecret u) (backupCodes u) (role u)
         (lastLogin u) (lastLoginIP u).

Definition setBackupCodes (codes : option (list string)) (u : IUser) : IUser :=
  mkUser (_id u) (email u) (password u) (firstName u) (isEmailVerified u)
         (emailVerificationToken u) (emailVerificationExpires u)
         (passwordResetToken u) (passwordResetExpires u)
         (loginAttempts u) (lockUntil u) (isLocked u)
         (twoFactorEnabled u) (twoFactorSecret u) codes (role u)
         (lastLogin u) (lastLoginIP u).

Definition setLastLogin (t : option Time) (ip : option string) (u : IUser) : IUser :=
  mkUser (_id u) (email u) (password u) (firstName u) (isEmailVerified u)
         (emailVerificationToken u) (emailVerificationExpires u)
         (passwordResetToken u) (passwordResetExpires u)
         (loginAttempts u) (lockUntil u) (isLocked u)
         (twoFactorEnabled u) (twoFactorSecret u) (backupCodes u) (role u)
         t ip.

Definition setPasswordReset (tok : option string) (exp : option Time)
    (u : IUser) : IUser :=
  mkUser (_id u) (email u) (password u) (firstName u) (isEmailVerified u)
         (emailVerificationToken u) (emailVerificationExpires u)
         tok exp
         (loginAttempts u) (lockUntil u) (isLocked u)
         (twoFactorEnabled u) (twoFactorSecret u) (backupCodes u) (role u)
         (lastLogin u) (lastLoginIP u).

Definition setEmailVerification (tok : option string) (exp : option Time)
    (u : IUser) : IUser :=
  mkUser (_id u) (email u) (password u) (firstName u) (isEmailVerified u)
         tok exp
         (passwordResetToken u) (passwordResetExpires u)
         (loginAttempts u) (lockUntil u) (isLocked u)
         (twoFactorEnabled u) (twoFactorSecret u) (backupCodes u) (role u)
         (lastLogin u) (lastLoginIP u).

(** [parseInt(process.env.MAX_LOGIN_ATTEMPTS || '5')] and
    [parseInt(process.env.LOCKOUT_TIME || '30')] with the variables unset. *)
Definition defaultMaxAttempts : Z := 5.
Definition defaultLockoutMinutes : Z := 30.

(** [isAccountLocked]: [!!(this.lockUntil && this.lockUntil > new Date())] *)
Definition isAccountLocked (now : Time) (this : IUser) : bool :=
  match lockUntil this with
  | Some l => now <? l
  | None => false
  end.

(** The guard of the first branch of [incrementLoginAttempts]:
    [this.lockUntil && this.lockUntil < new Date()] *)
Definition lockExpired (now : Time) (this : IUser) : bool :=
  match lockUntil this with
  | Some l => l <? now
  | None => false
  end.

(** [incrementLoginAttempts]: the update that [this.updateOne] sends, as a
    function on the stored document.  The update is chosen from the fields
    of the document in memory ([this]); [$inc] and [$set] act on the stored
    one. *)
Definition incrementLoginAttemptsWith (maxAttempts lockoutMinutes : Z)
    (now : Time) (this : IUser) : IUser -> IUser :=
  let lockTime := lockoutMinutes * 60 * 1000 in
  if lockExpired now this then
    (* $set: { loginAttempts: 1 }, $unset: { lockUntil: 1, isLocked: 1 } *)
    fun stored => setLockout 1 None false stored
  else if (maxAttempts <=? loginAttempts this + 1) && negb (isLocked this) then
    (* $inc: { loginAttempts: 1 }, $set: { lockUntil, isLocked: true } *)
    fun stored => setLockout (loginAttempts stored + 1) (Some (now + lockTime)) true stored
  else
    (* $inc: { loginAttempts: 1 } *)
    fun stored => setLockout (loginAttempts stored + 1) (lockUntil stored) (isLocked stored) stored.

Definition incrementLoginAttempts : Time -> IUser -> IUser -> IUser :=
  incrementLoginAttemptsWith defaultMaxAttempts defaultLockoutMinutes.

(** [resetLoginAttempts]:
    [$set: { loginAttempts: 0 }, $unset: { lockUntil: 1, isLocked: 1 }] *)
Definition resetLoginAttempts (stored : IUser) : IUser :=
  setLockout 0 None false stored.

(** A failed attempt recorded on a freshly loaded document: the document in
    memory is the stored one. *)
Definition recordFailure (now : Time) (u : IUser) : IUser :=
  incrementLoginAttempts now u u.

(** Failures recorded one after the other at the given times. *)
Fixpoint recordFailures (times : list Time) (u : IUser) : IUser :=
  match times with
  | [] => u
  | t :: rest => recordFailures rest (recordFailure t u)
  end.

(** Further writes: the two-factor paths, the password (the hash that the
    pre-save hook stores) and the verification of the address. *)
Definition setTwoFactor (enabled : bool) (secret : option string)
    (codes : option (list string)) (u : IUser) : IUser :=
  mkUser (_id u) (email u) (password u) (firstName u) (isEmailVerified u)
         (emailVerificationToken u) (emailVerificationExpires u)
         (passwordResetToken u) (passwordResetExpires u)
         (loginAttempts u) (lockUntil u) (isLocked u)
         enabled secret codes (role u)
         (lastLogin u) (lastLoginIP u).

Definition setPassword (hash : string) (u : IUser) : IUser :=
  mkUser (_id u) (email u) hash (firstName u) (isEmailVerified u)
         (emailVerificationToken u) (emailVerificationExpires u)
         (passwordResetToken u) (passwordResetExpires u)
         (loginAttempts u) (lockUntil u) (isLocked u)
         (twoFactorEnabled u) (twoFactorSecret u) (backupCodes u) (role u)
         (lastLogin u) (lastLoginIP u).

(** The document that a query with [.select('+password')] returns: the
    password joins the default projection, while [twoFactorSecret] and
    [backupCodes], which the schema declares [select: false], are left out
    and read as [undefined]. *)
Definition selectPassword (u : IUser) : IUser :=
  setTwoFactor (twoFactorEnabled u) None None u.

Definition setVerified (u : IUser) : IUser :=
  mkUser (_id u) (email u) (password u) (firstName u) true
         None None
         (passwordResetToken u) (passwordResetExpires u)
         (loginAttempts u) (lockUntil u) (isLocked u)
         (twoFactorEnabled u) (twoFactorSecret u) (backupCodes u) (role u)
         (lastLogin u) (lastLoginIP u).

End User.

(* ================================================================== *)
(** ** utils/deviceParser.ts *)
(* ================================================================== *)

Module deviceParser.

Record DeviceInfo := mkDeviceInfo {
  userAgent : string;
  ipAddress : string;
  deviceType : string;
  browser : string;
  os : string
}.

(** What [parseDeviceInfo] reads from the request once the header
    fallbacks are resolved: the user agent ([req.get('user-agent') ||
    'Unknown']) and the client address (first forwarded address, real-ip
    header, socket address or ['Unknown']). *)
Record Request := mkRequest {
  req_userAgent : string;
  req_ipAddress : string
}.

Definition parseDeviceInfo (req : Request) : DeviceInfo :=
  let userAgent := req_userAgent req in
  let ipAddress := req_ipAddress req in
  (* Parse browser *)
  let browser :=
    if includes userAgent "Chrome" && negb (includes userAgent "Edg") then "Chrome"
    else if includes userAgent "Firefox" then "Firefox"
    else if includes userAgent "Safari" && negb (includes userAgent "Chrome") then "Safari"
    else if includes userAgent "Edg" then "Edge"
    else if includes userAgent "Opera" then "Opera"
    else "Unknown" in
  (* Parse OS *)
  let os :=
    if includes userAgent "Windows" then "Windows"
    else if includes userAgent "Mac OS" then "macOS"
    else if includes userAgent "Linux" then "Linux"
    else if includes userAgent "Android" then "Android"
    else if includes userAgent "iOS" then "iOS"
    else "Unknown" in
  (* Parse device type: /Mobile|Android|iPhone|iPad/ then /iPad|Tablet/ *)
  let deviceType :=
    if includes userAgent "Mobile" || includes userAgent "Android"
       || includes userAgent "iPhone" || includes userAgent "iPad"
    then
      if includes userAgent "iPad" || includes userAgent "Tablet"
      then "tablet" else "mobile"
    else "desktop" in
  mkDeviceInfo userAgent ipAddress deviceType browser os.

(** [generateDeviceId]: the first 32 hex digits of the SHA-256 of
    [`${userAgent}-${ipAddress}`]; the digest is a collaborator. *)
Definition generateDeviceId (sha256hex32 : string -> string)
    (deviceInfo : DeviceInfo) : string :=
  let deviceString :=
    String.append (userAgent deviceInfo)
                  (String.append "-" (ipAddress deviceInfo)) in
  sha256hex32 deviceString.

End deviceParser.

(* ================================================================== *)
(** ** utils/geolocation.ts *)
(* ================================================================== *)

Module geolocation.

Record LocationInfo := mkLocation {
  country : option string;
  city : option string
}.

Definition getLocationFromIP (ipAddress : string) : option LocationInfo :=
  if streq ipAddress "127.0.0.1"
     || streq ipAddress "::1"
     || startsWith ipAddress "192.168."
     || startsWith ipAddress "10."
     || startsWith ipAddress "172.16."
  then Some (mkLocation (Some "Local") (Some "Local Network"))
  else None.

Definition getLocationFromRequest (req : deviceParser.Request)
    : option LocationInfo :=
  let deviceInfo := deviceParser.parseDeviceInfo req in
  getLocationFromIP (deviceParser.ipAddress deviceInfo).

(** [location?.country] when it is truthy *)
Definition countryOf (location : option LocationInfo) : option string :=
  match location with
  | Some l =>
      match country l with
      | Some c => if truthy c then Some c else None
      | None => None
      end
  | None => None
  end.

End geolocation.

(* ================================================================== *)
(** ** models/Session.ts, models/Device.ts, models/SecurityLog.ts *)
(* ================================================================== *)

Module Session.

(** The time-to-live index on [expiresAt] lets the store drop a session
    after its expiry; no query of the handlers returns such a session, and
    the sessions are kept in the list. *)
Record ISession := mkSession {
  userId : string;
  refreshToken : string;
  deviceInfo : deviceParser.DeviceInfo;
  isActive : bool;
  lastActivity : Time;
  expiresAt : Time;
  createdAt : Time
}.

Definition setIsActive (b : bool) (s : ISession) : ISession :=
  mkSession (userId s) (refreshToken s) (deviceInfo s) b
            (lastActivity s) (expiresAt s) (createdAt s).

(** [session.refreshToken = tok; session.lastActivity = t] *)
Definition rotate (tok : string) (t : Time) (s : ISession) : ISession :=
  mkSession (userId s) tok (deviceInfo s) (isActive s)
            t (expiresAt s) (createdAt s).

End Session.

Module Device.

Record IDevice := mkDevice {
  userId : string;
  deviceId : string;
  deviceName : string;
  deviceType : string;
  browser : string;
  os : string;
  ipAddress : string;
  lastUsed : Time;
  isTrusted : bool
}.

End Device.

Module SecurityLog.

Inductive Status := success | failure | warning.

Definition status_eqb (a b : Status) : bool :=
  match a, b with
  | success, success | failure, failure | warning, warning => true
  | _, _ => false
  end.

Record ISecurityLog := mkLog {
  userId : option string;
  email : option string;
  action : string;
  ipAddress : string;
  userAgent : string;
  status : Status;
  details : option string;
  location : option geolocation.LocationInfo;
  createdAt : Time
}.

(** The [enum] of the [action] path; a document with another action fails
    validation and is not stored. *)
Definition actionEnum : list string :=
  [ "login"; "logout"; "register"; "password_change"; "password_reset";
    "email_verification"; "2fa_enabled"; "2fa_disabled"; "2fa_verified";
    "session_created"; "session_revoked"; "suspicious_activity";
    "account_locked"; "profile_update" ].

(** [userId] in a query filter *)
Definition ofUser (uid : string) (l : ISecurityLog) : bool :=
  match userId l with
  | Some u => streq u uid
  | None => false
  end.

(** [.sort({ createdAt: -1 })]: most recent first (documents with equal
    time stamps keep their insertion order). *)
Fixpoint insertDesc (x : ISecurityLog) (l : list ISecurityLog) : list ISecurityLog :=
  match l with
  | [] => [x]
  | y :: l' =>
      if createdAt y <=? createdAt x then x :: l else y :: insertDesc x l'
  end.

Fixpoint sortDesc (l : list ISecurityLog) : list ISecurityLog :=
  match l with
  | [] => []
  | x :: l' => insertDesc x (sortDesc l')
  end.

(** [.limit(n)] *)
Definition limit (n : nat) (l : list ISecurityLog) : list ISecurityLog := firstn n l.

(** [countDocuments(filter)] *)
Definition countDocuments (f : ISecurityLog -> bool) (l : list ISecurityLog) : Z :=
  Z.of_nat (List.length (filter f l)).

End SecurityLog.

(* ================================================================== *)
(** ** The database and the collaborators of a request *)
(* ================================================================== *)

Record DB := mkDB {
  users : list User.IUser;
  sessions : list Session.ISession;
  devices : list Device.IDevice;
  securityLogs : list SecurityLog.ISecurityLog
}.

Definition withUsers (us : list User.IUser) (db : DB) : DB :=
  mkDB us (sessions db) (devices db) (securityLogs db).
Definition withSessions (ss : list Session.ISession) (db : DB) : DB :=
  mkDB (users db) ss (devices db) (securityLogs db).
Definition withDevices (ds : list Device.IDevice) (db : DB) : DB :=
  mkDB (users db) (sessions db) ds (securityLogs db).
Definition withLogs (ls : list SecurityLog.ISecurityLog) (db : DB) : DB :=
  mkDB (users db) (sessions db) (devices db) ls.

(** [User.findOne({ email })], [User.findById(id)] *)
Definition findUserByEmail (e : string) (db : DB) : option User.IUser :=
  find (fun u => streq (User.email u) e) (users db).
Definition findUserById (id : string) (db : DB) : option User.IUser :=
  find (fun u => streq (User._id u) id) (users db).

(** A write to the stored document of one user ([updateOne], or [save] of
    the modified paths). *)
Definition updateUser (id : string) (f : User.IUser -> User.IUser) (db : DB) : DB :=
  withUsers (map (fun u => if streq (User._id u) id then f u else u) (users db)) db.

(** utils/jwt.ts: the shapes of the payload and of the pair; signing and
    verification are collaborators. *)
Module jwt.

Record TokenPayload := mkPayload {
  userId : string;
  email : string;
  role : string
}.

Record TokenPair := mkTokenPair {
  accessToken : string;
  refreshToken : string
}.

End jwt.

Record Env := mkEnv {
  now : Time;                                   (* the clock of the request *)
  getHours : Time -> Z;                         (* Date.prototype.getHours *)
  plusDays : Time -> Z -> Time;                 (* d.setDate(d.getDate() + n) *)
  toLowerCase : string -> string;               (* String.prototype.toLowerCase *)
  bcryptCompare : string -> string -> bool;     (* candidate, stored hash *)
  totpVerify : option string -> string -> Time -> bool;
                                                (* speakeasy.totp.verify, window 2,
                                                   for the secret as the document
                                                   at hand has it *)
  generateTokenPair : User.IUser -> Time -> jwt.TokenPair;
  verifyRefreshToken : string -> option jwt.TokenPayload;
  randomBytesHex : string;                      (* crypto.randomBytes(32) in hex *)
  sha256hex32 : string -> string;
  mailDelivered : bool                          (* the transport did not throw *)
}.

(* ================================================================== *)
(** ** middleware/auth.ts: logSecurityEvent, authenticate, authorize *)
(* ================================================================== *)

Module auth.
Import deviceParser.

(** [logSecurityEvent]: builds the entry and stores it; a failure of
    [SecurityLog.create] (here: an action outside the schema's enum) is
    caught and only printed.  The detached location look-up that may later
    attach a [location] to a recent entry is not part of the request's own
    transition and is left out: entries are created without location. *)
Definition logSecurityEvent (env : Env) (userId : option string)
    (email : option string) (action : string) (req : Request)
    (status : SecurityLog.Status) (details : option string) (db : DB) : DB :=
  let deviceInfo := parseDeviceInfo req in
  let logEntry :=
    SecurityLog.mkLog
      (match userId with
       | Some u => if truthy u then Some u else None
       | None => None
       end)
      email action (ipAddress deviceInfo) (userAgent deviceInfo)
      status details None (now env) in
  if has SecurityLog.actionEnum action
  then withLogs (securityLogs db ++ [logEntry]) db
  else db.

(** What [verifyAccessToken] does with a token: the payload, a
    [TokenExpiredError], or another error. *)
Inductive AccessCheck :=
| TokenValid (decoded : jwt.TokenPayload)
| TokenExpired
| TokenInvalid.

(** A middleware either calls [next()] with [req.user] set or answers. *)
Inductive Passage :=
| Next (user : jwt.TokenPayload)
| Stop (statusCode : Z) (message : string).

(** [authenticate]; [token] is [authHeader.substring(7)], and the id in
    the payload of a verified token is an object id, so that the look-up
    either finds the user or finds none. *)
Definition authenticate (env : Env) (verifyAccessToken : string -> AccessCheck)
    (authorization : option string) (db : DB) : Passage :=
  match authorization with
  | None => Stop 401 "No token provided. Please authenticate."
  | Some authHeader =>
      if negb (truthy authHeader) || negb (startsWith authHeader "Bearer ") then
        Stop 401 "No token provided. Please authenticate."
      else
        let token := String.substring 7 (String.length authHeader - 7) authHeader in
        match verifyAccessToken token with
        | TokenValid decoded =>
            (* Verify user still exists *)
            match findUserById (jwt.userId decoded) db with
            | None => Stop 401 "User not found. Token invalid."
            | Some user =>
                (* Check if account is locked *)
                if User.isAccountLocked (now env) user then
                  Stop 403 "Account is locked. Please contact support."
                else Next decoded
            end
        | TokenExpired => Stop 401 "Token expired. Please refresh your token."
        | TokenInvalid => Stop 401 "Invalid token. Please authenticate."
        end
  end.

(** [authorize(...roles)] on the [req.user] that the request carries. *)
Definition authorize (roles : list string) (user : option jwt.TokenPayload)
    : Passage :=
  match user with
  | None => Stop 401 "Authentication required"
  | Some u =>
      if negb (has roles (jwt.role u)) then
        Stop 403 "Insufficient permissions. Access denied."
      else Next u
  end.

End auth.

(* ================================================================== *)
(** ** utils/suspiciousActivity.ts *)
(* ================================================================== *)

Module suspiciousActivity.
Import deviceParser.

Record SuspiciousActivityCheck := mkCheck {
  isSuspicious : bool;
  reasons : list string;
  riskScore : Z
}.

(** [if (c) { reasons.push(reason); riskScore += k }] *)
Definition flag (c : bool) (reason : string) (k : Z)
    (acc : list string * Z) : list string * Z :=
  if c then (fst acc ++ [reason], snd acc + k) else acc.

(** The [countDocuments] query of [checkSuspiciousLogin]: failed logins of
    the user in the last 15 minutes. *)
Definition recentFailures (env : Env) (userId : string) (db : DB) : Z :=
  SecurityLog.countDocuments
    (fun l => SecurityLog.ofUser userId l
              && streq (SecurityLog.action l) "login"
              && SecurityLog.status_eqb (SecurityLog.status l) SecurityLog.failure
              && (now env - 15 * 60 * 1000 <=? SecurityLog.createdAt l))
    (securityLogs db).

(** The [find] query of [checkSuspiciousLogin]: the 10 most recent
    successful logins of the user in the last 30 days. *)
Definition recentSuccessfulLogins (env : Env) (userId : string) (db : DB)
    : list SecurityLog.ISecurityLog :=
  SecurityLog.limit 10
    (SecurityLog.sortDesc
       (filter
          (fun l => SecurityLog.ofUser userId l
                    && streq (SecurityLog.action l) "login"
                    && SecurityLog.status_eqb (SecurityLog.status l) SecurityLog.success
                    && (now env - 30 * 24 * 60 * 60 * 1000 <=? SecurityLog.createdAt l))
          (securityLogs db))).

(** [hourDifference > 6] where
    [hourDifference = Math.abs(currentHour - sum / n)]: on hours in 0..23
    and at most 10 entries the floating-point comparison agrees with the
    exact one, written here without division. *)
Definition outsideNormalHours (currentHour : Z) (loginHours : list Z) : bool :=
  let n := Z.of_nat (List.length loginHours) in
  let sum := fold_left Z.add loginHours 0 in
  6 * n <? Z.abs (currentHour * n - sum).

Definition checkSuspiciousLogin (env : Env) (userId : string) (req : Request)
    (db : DB) : SuspiciousActivityCheck * DB :=
  let deviceInfo := parseDeviceInfo req in
  match findUserById userId db with
  | None => (mkCheck false [] 0, db)
  | Some user =>
      let acc : list string * Z := ([], 0) in
      (* Check recent failed login attempts *)
      let recentFailures := recentFailures env userId db in
      let acc :=
        flag (3 <=? recentFailures)
             "Multiple failed login attempts in short time" 30 acc in
      (* Check for new IP address *)
      let recentSuccessfulLogins := recentSuccessfulLogins env userId db in
      let knownIPs := map SecurityLog.ipAddress recentSuccessfulLogins in
      let acc :=
        flag (negb (has knownIPs (ipAddress deviceInfo))
              && (0 <? Z.of_nat (List.length recentSuccessfulLogins)))
             "Login from new IP address" 25 acc in
      (* Check for new device/browser *)
      let knownUserAgents := map SecurityLog.userAgent recentSuccessfulLogins in
      let acc :=
        flag (negb (has knownUserAgents (userAgent deviceInfo))
              && (0 <? Z.of_nat (List.length recentSuccessfulLogins)))
             "Login from new device or browser" 20 acc in
      (* Check for login from different country *)
      let location := geolocation.getLocationFromRequest req in
      let acc :=
        match geolocation.countryOf location with
        | Some country =>
            let recentCountries :=
              flat_map
                (fun l => match geolocation.countryOf (SecurityLog.location l) with
                          | Some c => [c]
                          | None => []
                          end)
                recentSuccessfulLogins in
            flag (negb (has recentCountries country)
                  && (0 <? Z.of_nat (List.length recentCountries)))
                 (String.append "Login from new country: " country) 30 acc
        | None => acc
        end in
      (* Check for login outside normal hours *)
      let acc :=
        if 5 <? Z.of_nat (List.length recentSuccessfulLogins) then
          let currentHour := getHours env (now env) in
          let loginHours :=
            map (fun l => getHours env (SecurityLog.createdAt l))
                recentSuccessfulLogins in
          flag (outsideNormalHours currentHour loginHours)
               "Login outside normal hours" 15 acc
        else acc in
      (* Check if account was recently locked *)
      let acc :=
        flag (User.isLocked user
              || match User.lockUntil user with Some _ => true | None => false end)
             "Account was recently locked" 20 acc in
      let reasons := fst acc in
      let riskScore := snd acc in
      let isSuspicious := 50 <=? riskScore in
      (* Log suspicious activity (the alert e-mail that follows changes no
         state and its failure is caught) *)
      let db :=
        if isSuspicious then
          withLogs
            (securityLogs db ++
             [SecurityLog.mkLog (Some userId) (Some (User.email user))
                "suspicious_activity" (ipAddress deviceInfo) (userAgent deviceInfo)
                SecurityLog.warning
                (Some (String.append "Suspicious login detected: "
                                     (join ", " reasons)))
                location (now env)])
            db
        else db in
      (mkCheck isSuspicious reasons riskScore, db)
  end.

(** The [find] query of [checkSuspiciousPasswordChange]: the 5 most recent
    successful logins or password changes of the user in the last 7 days. *)
Definition recentActivity (env : Env) (userId : string) (db : DB)
    : list SecurityLog.ISecurityLog :=
  SecurityLog.limit 5
    (SecurityLog.sortDesc
       (filter
          (fun l => SecurityLog.ofUser userId l
                    && has ["login"; "password_change"] (SecurityLog.action l)
                    && SecurityLog.status_eqb (SecurityLog.status l) SecurityLog.success
                    && (now env - 7 * 24 * 60 * 60 * 1000 <=? SecurityLog.createdAt l))
          (securityLogs db))).

(** The [countDocuments] query of [checkSuspiciousPasswordChange]:
    [password_change] entries of the user (of any status) in the last 24
    hours. *)
Definition recentPasswordChanges (env : Env) (userId : string) (db : DB) : Z :=
  SecurityLog.countDocuments
    (fun l => SecurityLog.ofUser userId l
              && streq (SecurityLog.action l) "password_change"
              && (now env - 24 * 60 * 60 * 1000 <=? SecurityLog.createdAt l))
    (securityLogs db).

Definition checkSuspiciousPasswordChange (env : Env) (userId : string)
    (req : Request) (db : DB) : SuspiciousActivityCheck * DB :=
  let deviceInfo := parseDeviceInfo req in
  let acc : list string * Z := ([], 0) in
  (* Check if password change is from new IP *)
  let recentActivity := recentActivity env userId db in
  let knownIPs := map SecurityLog.ipAddress recentActivity in
  let acc :=
    flag (negb (has knownIPs (ipAddress deviceInfo))
          && (0 <? Z.of_nat (List.length recentActivity)))
         "Password change from new IP address" 40 acc in
  (* Check if password was changed recently *)
  let recentPasswordChanges := recentPasswordChanges env userId db in
  let acc :=
    flag (0 <? recentPasswordChanges)
         "Password changed multiple times recently" 30 acc in
  let reasons := fst acc in
  let riskScore := snd acc in
  let isSuspicious := 40 <=? riskScore in
  let db :=
    if isSuspicious then
      match findUserById userId db with
      | Some user =>
          withLogs
            (securityLogs db ++
             [SecurityLog.mkLog (Some userId) (Some (User.email user))
                "suspicious_activity" (ipAddress deviceInfo) (userAgent deviceInfo)
                SecurityLog.warning
                (Some (String.append "Suspicious password change: "
                                     (join ", " reasons)))
                None (now env)])
            db
      | None => db
      end
    else db in
  (mkCheck isSuspicious reasons riskScore, db).

End suspiciousActivity.

(* ================================================================== *)
(** ** Responses *)
(* ================================================================== *)

(** [res.status(c).json({ success, message, requires2FA, data })]; of the
    [data] of a successful login or refresh the token pair is kept. *)
Record Response := mkResponse {
  statusCode : Z;
  success : bool;
  message : option string;
  requires2FA : bool;
  data : option jwt.TokenPair
}.

Definition reply (c : Z) (ok : bool) (msg : string) : Response :=
  mkResponse c ok (Some msg) false None.

(** A request field that is present and truthy. *)
Definition present (x : option string) : option string :=
  match x with
  | Some s => if truthy s then Some s else None
  | None => None
  end.

(* ================================================================== *)
(** ** controllers/passwordController.ts: forgotPassword, resetPassword,
       changePassword *)
(* ================================================================== *)

Module passwordController.
Import deviceParser.

Definition forgotPassword (env : Env) (email : string) (req : Request)
    (db : DB) : Response * DB :=
  match findUserByEmail (toLowerCase env email) db with
  | None =>
      (* Always return success to prevent email enumeration *)
      (reply 200 true "If the email exists, a password reset link has been sent.", db)
  | Some user =>
      (* Generate reset token *)
      let passwordResetToken := randomBytesHex env in
      let passwordResetExpires := now env + 60 * 60 * 1000 in
      let db :=
        updateUser (User._id user)
          (User.setPasswordReset (Some passwordResetToken) (Some passwordResetExpires))
          db in
      (* Send reset email *)
      if negb (mailDelivered env) then
        (reply 500 false "Failed to send password reset email", db)
      else
        let db :=
          auth.logSecurityEvent env (Some (User._id user)) (Some (User.email user))
            "password_reset" req SecurityLog.success
            (Some "Password reset email sent") db in
        (reply 200 true "If the email exists, a password reset link has been sent.", db)
  end.

(** [passwordStrength.strength === 'weak'] *)
Definition isWeak (p : passwordStrength.PasswordStrength) : bool :=
  match passwordStrength.strength p with
  | passwordStrength.weak => true
  | _ => false
  end.

(** [user.password = password; ... await user.save()] on the loaded
    document [this]: assigning the value it already holds modifies nothing;
    a modified password must pass the schema's [minlength: 8] validator
    before the pre-save hook replaces it by its bcrypt hash ([bcryptHash],
    salted by the library). *)
Definition passwordModified (password : string) (this : User.IUser) : bool :=
  negb (streq password (User.password this)).

Definition passwordValidates (password : string) (this : User.IUser) : bool :=
  negb (passwordModified password this)
  || (8 <=? Z.of_nat (String.length password)).

Definition savePassword (bcryptHash : string -> string) (password : string)
    (this : User.IUser) : User.IUser -> User.IUser :=
  if passwordModified password this
  then fun stored => User.setPassword (bcryptHash password) stored
  else fun stored => stored.

(** [User.findOne({ passwordResetToken: token,
                    passwordResetExpires: { $gt: new Date() } })] *)
Definition holdsResetToken (token : string) (t : Time) (u : User.IUser) : bool :=
  match User.passwordResetToken u, User.passwordResetExpires u with
  | Some tok, Some expires => streq tok token && (t <? expires)
  | _, _ => false
  end.

(** [resetPassword].  The password is given by its code units (below 256),
    which [checkPasswordStrength] inspects. *)
Definition resetPassword (env : Env) (bcryptHash : string -> string)
    (token password : string) (req : Request) (db : DB) : Response * DB :=
  match find (holdsResetToken token (now env)) (users db) with
  | None => (reply 400 false "Invalid or expired reset token", db)
  | Some user =>
      (* Check password strength *)
      let passwordStrength := passwordStrength.checkPasswordStrength (JS.units password) in
      if isWeak passwordStrength then
        (reply 400 false "Password is too weak", db)
      (* Check if new password is same as old *)
      else if bcryptCompare env password (User.password user) then
        (reply 400 false "New password must be different from the current password", db)
      else
        (* Update password; reset lockout on password reset *)
        let db := updateUser (User._id user) User.resetLoginAttempts db in
        if negb (passwordValidates password user) then
          (* user.save() throws *)
          (reply 500 false "Password reset failed", db)
        else
        let db :=
          updateUser (User._id user)
            (fun u => User.setPasswordReset None None
                        (savePassword bcryptHash password user u))
            db in
        (* The confirmation mail and the alert change no state; their
           failures are caught *)
        let db :=
          auth.logSecurityEvent env (Some (User._id user)) (Some (User.email user))
            "password_reset" req SecurityLog.success
            (Some "Password reset successfully") db in
        (reply 200 true "Password reset successfully", db)
  end.

(** [changePassword] *)
Definition changePassword (env : Env) (bcryptHash : string -> string)
    (userId : option string) (currentPassword newPassword : string)
    (req : Request) (db : DB) : Response * DB :=
  match present userId with
  | None => (reply 401 false "Authentication required", db)
  | Some userId =>
      match findUserById userId db with
      | None => (reply 404 false "User not found", db)
      | Some user =>
          (* Verify current password *)
          if negb (bcryptCompare env currentPassword (User.password user)) then
            let db :=
              auth.logSecurityEvent env (Some userId) (Some (User.email user))
                "password_change" req SecurityLog.failure
                (Some "Invalid current password") db in
            (reply 401 false "Current password is incorrect", db)
          (* Check password strength *)
          else if isWeak (passwordStrength.checkPasswordStrength (JS.units newPassword)) then
            (reply 400 false "New password is too weak", db)
          (* Check if new password is same as old *)
          else if bcryptCompare env newPassword (User.password user) then
            (reply 400 false "New password must be different from the current password", db)
          else
            (* Check for suspicious activity *)
            let db := snd (suspiciousActivity.checkSuspiciousPasswordChange env userId req db) in
            (* Update password *)
            if negb (passwordValidates newPassword user) then
              (* user.save() throws *)
              (reply 500 false "Password change failed", db)
            else
            let db :=
              updateUser (User._id user) (savePassword bcryptHash newPassword user) db in
            let db :=
              auth.logSecurityEvent env (Some userId) (Some (User.email user))
                "password_change" req SecurityLog.success
                (Some "Password changed successfully") db in
            (reply 200 true "Password changed successfully", db)
      end
  end.

End passwordController.

(* ================================================================== *)
(** ** controllers/emailVerificationController.ts: resendVerificationEmail,
       verifyEmail *)
(* ================================================================== *)

Module emailVerificationController.
Import deviceParser.

Definition resendVerificationEmail (env : Env) (email : string) (req : Request)
    (db : DB) : Response * DB :=
  match findUserByEmail (toLowerCase env email) db with
  | None =>
      (* Don't reveal if email exists for security *)
      (reply 200 true "If the email exists, a verification link has been sent.", db)
  | Some user =>
      if User.isEmailVerified user then
        (reply 400 false "Email is already verified", db)
      else
        (* Generate new verification token *)
        let emailVerificationToken := randomBytesHex env in
        let emailVerificationExpires := now env + 24 * 60 * 60 * 1000 in
        let db :=
          updateUser (User._id user)
            (User.setEmailVerification (Some emailVerificationToken)
                                       (Some emailVerificationExpires))
            db in
        (* Send verification email *)
        if negb (mailDelivered env) then
          (reply 500 false "Failed to send verification email", db)
        else
          let db :=
            auth.logSecurityEvent env (Some (User._id user)) (Some (User.email user))
              "email_verification" req SecurityLog.success
              (Some "Verification email resent") db in
          (reply 200 true "Verification email sent successfully", db)
  end.

(** [User.findOne({ emailVerificationToken: token,
                    emailVerificationExpires: { $gt: new Date() } })] *)
Definition holdsVerificationToken (token : string) (t : Time) (u : User.IUser)
    : bool :=
  match User.emailVerificationToken u, User.emailVerificationExpires u with
  | Some tok, Some expires => streq tok token && (t <? expires)
  | _, _ => false
  end.

(** [verifyEmail]; [token] is the query parameter when it is a string. *)
Definition verifyEmail (env : Env) (token : option string) (req : Request)
    (db : DB) : Response * DB :=
  match present token with
  | None => (reply 400 false "Verification token is required", db)
  | Some token =>
      match find (holdsVerificationToken token (now env)) (users db) with
      | None => (reply 400 false "Invalid or expired verification token", db)
      | Some user =>
          if User.isEmailVerified user then
            (reply 200 true "Email already verified", db)
          else
            (* Verify email *)
            let db := updateUser (User._id user) User.setVerified db in
            let db :=
              auth.logSecurityEvent env (Some (User._id user)) (Some (User.email user))
                "email_verification" req SecurityLog.success
                (Some "Email verified successfully") db in
            (reply 200 true "Email verified successfully", db)
      end
  end.

End emailVerificationController.

(* ================================================================== *)
(** ** controllers/deviceController.ts: revokeDevice, trustDevice,
       revokeAllDevices *)
(* ================================================================== *)

Module deviceController.
Import deviceParser.

(** [Device.findOne({ userId, deviceId })] *)
Definition isDevice (userId deviceId : string) (d : Device.IDevice) : bool :=
  streq (Device.userId d) userId && streq (Device.deviceId d) deviceId.

(** The filter of the [Session.updateMany] of [revokeDevice] *)
Definition sessionOfDevice (userId : string) (device : Device.IDevice)
    (s : Session.ISession) : bool :=
  streq (Session.userId s) userId
  && streq (deviceType (Session.deviceInfo s)) (Device.deviceType device)
  && streq (ipAddress (Session.deviceInfo s)) (Device.ipAddress device).

(** [device.deleteOne()]: the found document leaves the collection. *)
Fixpoint deleteOne (p : Device.IDevice -> bool) (l : list Device.IDevice)
    : list Device.IDevice :=
  match l with
  | [] => []
  | d :: l' => if p d then l' else d :: deleteOne p l'
  end.

Definition revokeDevice (env : Env) (userId : option string) (deviceId : string)
    (userEmail : option string) (req : Request) (db : DB) : Response * DB :=
  match present userId with
  | None => (reply 401 false "Authentication required", db)
  | Some userId =>
      match find (isDevice userId deviceId) (devices db) with
      | None => (reply 404 false "Device not found", db)
      | Some device =>
          (* Also revoke all sessions for this device *)
          let db :=
            withSessions
              (map (fun s => if sessionOfDevice userId device s
                             then Session.setIsActive false s else s)
                   (sessions db))
              db in
          let db := withDevices (deleteOne (isDevice userId deviceId) (devices db)) db in
          let db :=
            auth.logSecurityEvent env (Some userId) userEmail "device_revoked" req
              SecurityLog.success
              (Some (String.append "Device "
                       (String.append (Device.deviceName device) " revoked")))
              db in
          (reply 200 true "Device revoked successfully", db)
      end
  end.

(** [device.isTrusted = true; await device.save()] on the found device *)
Fixpoint trustFirst (p : Device.IDevice -> bool) (l : list Device.IDevice)
    : list Device.IDevice :=
  match l with
  | [] => []
  | d :: l' =>
      if p d then
        Device.mkDevice (Device.userId d) (Device.deviceId d) (Device.deviceName d)
          (Device.deviceType d) (Device.browser d) (Device.os d)
          (Device.ipAddress d) (Device.lastUsed d) true :: l'
      else d :: trustFirst p l'
  end.

(** [trustDevice] *)
Definition trustDevice (env : Env) (userId : option string) (deviceId : string)
    (userEmail : option string) (req : Request) (db : DB) : Response * DB :=
  match present userId with
  | None => (reply 401 false "Authentication required", db)
  | Some userId =>
      match find (isDevice userId deviceId) (devices db) with
      | None => (reply 404 false "Device not found", db)
      | Some device =>
          let db := withDevices (trustFirst (isDevice userId deviceId) (devices db)) db in
          let db :=
            auth.logSecurityEvent env (Some userId) userEmail "device_trusted" req
              SecurityLog.success
              (Some (String.append "Device "
                       (String.append (Device.deviceName device) " marked as trusted")))
              db in
          (reply 200 true "Device trusted successfully", db)
      end
  end.

(** [revokeAllDevices], for a request whose body carries
    [currentRefreshToken]. *)
Definition revokeAllDevices (env : Env) (userId : option string)
    (currentRefreshToken : string) (userEmail : option string) (req : Request)
    (db : DB) : Response * DB :=
  let deviceInfo := parseDeviceInfo req in
  let currentDeviceId := generateDeviceId (sha256hex32 env) deviceInfo in
  match present userId with
  | None => (reply 401 false "Authentication required", db)
  | Some userId =>
      (* Delete all devices except current *)
      let db :=
        withDevices
          (filter (fun d => negb (streq (Device.userId d) userId
                                  && negb (streq (Device.deviceId d) currentDeviceId)))
                  (devices db))
          db in
      (* Revoke all sessions except current *)
      let db :=
        withSessions
          (map (fun s => if streq (Session.userId s) userId
                            && negb (streq (Session.refreshToken s) currentRefreshToken)
                         then Session.setIsActive false s else s)
               (sessions db))
          db in
      let db :=
        auth.logSecurityEvent env (Some userId) userEmail "all_devices_revoked" req
          SecurityLog.success (Some "All devices revoked except current") db in
      (reply 200 true "All devices revoked successfully", db)
  end.

End deviceController.

(* ================================================================== *)
(** ** controllers/sessionController.ts: revokeSession, revokeAllSessions *)
(* ================================================================== *)

Module sessionController.
Import deviceParser.

(** [session.isActive = false; await session.save()] for the session at
    position [i] *)
Fixpoint deactivateAt (i : nat) (l : list Session.ISession) : list Session.ISession :=
  match l, i with
  | [], _ => []
  | s :: l', O => Session.setIsActive false s :: l'
  | s :: l', S i' => s :: deactivateAt i' l'
  end.

(** [req.params.sessionId], as the query [{ _id: sessionId, userId }]
    reads it.  The route puts no validation before the handler.  The [_id]
    of a stored session is its position in the collection: a string that is
    a well-formed object id names a position (one beyond the collection
    when no session has that [_id]); for any other string the cast of the
    query fails and [findOne] throws. *)
Inductive SessionIdParam : Type :=
| ObjectId (position : nat)
| NotAnObjectId.

(** [revokeSession] *)
Definition revokeSession (env : Env) (userId : option string)
    (sessionId : SessionIdParam) (userEmail : option string) (req : Request)
    (db : DB) : Response * DB :=
  match present userId with
  | None => (reply 401 false "Authentication required", db)
  | Some userId =>
      (* Session.findOne({ _id: sessionId, userId }) *)
      match sessionId with
      | NotAnObjectId =>
          (* catch (error) *)
          (reply 500 false "Failed to revoke session", db)
      | ObjectId position =>
          match nth_error (sessions db) position with
          | Some session =>
              if streq (Session.userId session) userId then
                let db := withSessions (deactivateAt position (sessions db)) db in
                let db :=
                  auth.logSecurityEvent env (Some userId) userEmail "session_revoked"
                    req SecurityLog.success (Some "Session revoked") db in
                (reply 200 true "Session revoked successfully", db)
              else (reply 404 false "Session not found", db)
          | None => (reply 404 false "Session not found", db)
          end
      end
  end.

(** [revokeAllSessions], for a request whose body carries
    [currentRefreshToken]. *)
Definition revokeAllSessions (env : Env) (userId : option string)
    (currentRefreshToken : string) (userEmail : option string) (req : Request)
    (db : DB) : Response * DB :=
  match present userId with
  | None => (reply 401 false "Authentication required", db)
  | Some userId =>
      let db :=
        withSessions
          (map (fun s => if streq (Session.userId s) userId
                            && negb (streq (Session.refreshToken s) currentRefreshToken)
                            && Session.isActive s
                         then Session.setIsActive false s else s)
               (sessions db))
          db in
      let db :=
        auth.logSecurityEvent env (Some userId) userEmail "all_sessions_revoked" req
          SecurityLog.success (Some "All sessions revoked except current") db in
      (reply 200 true "All sessions revoked successfully", db)
  end.

End sessionController.

(* ================================================================== *)
(** ** controllers/authController.ts: login, refreshToken *)
(* ================================================================== *)

Module authController.
Import deviceParser.

(** [array.findIndex(p)], with [None] for [-1] *)
Fixpoint findIndex {A : Type} (p : A -> bool) (l : list A) : option nat :=
  match l with
  | [] => None
  | x :: l' => if p x then Some 0%nat else option_map S (findIndex p l')
  end.

(** [array.splice(i, 1)]: the array without its element at index [i] *)
Fixpoint splice1 {A : Type} (i : nat) (l : list A) : list A :=
  match l, i with
  | [], _ => []
  | _ :: l', O => l'
  | x :: l', S i' => x :: splice1 i' l'
  end.

(** [Device.findOneAndUpdate(filter, update, { upsert: true })]: the first
    matching device takes the fields of the update and keeps [isTrusted];
    without a match a device is inserted with the default [isTrusted]. *)
Fixpoint updateFirstDevice (p : Device.IDevice -> bool)
    (upd : Device.IDevice -> Device.IDevice) (l : list Device.IDevice)
    : option (list Device.IDevice) :=
  match l with
  | [] => None
  | d :: l' =>
      if p d then Some (upd d :: l')
      else option_map (cons d) (updateFirstDevice p upd l')
  end.

Definition upsertDevice (userId deviceId : string) (deviceInfo : DeviceInfo)
    (t : Time) (l : list Device.IDevice) : list Device.IDevice :=
  let fields (trusted : bool) :=
    Device.mkDevice userId deviceId
      (String.append (browser deviceInfo) (String.append " on " (os deviceInfo)))
      (deviceType deviceInfo) (browser deviceInfo) (os deviceInfo)
      (ipAddress deviceInfo) t trusted in
  match updateFirstDevice (deviceController.isDevice userId deviceId)
                          (fun d => fields (Device.isTrusted d)) l with
  | Some l' => l'
  | None => l ++ [fields false]
  end.

(** [Session.create(doc)]: the unique index on [refreshToken] refuses a
    token that a stored session already carries ([None]: the call throws). *)
Definition createSession (s : Session.ISession) (l : list Session.ISession)
    : option (list Session.ISession) :=
  if existsb (fun s' => streq (Session.refreshToken s') (Session.refreshToken s)) l
  then None
  else Some (l ++ [s]).

(** What a run of [login] leaves behind: the response, the database and
    the final value of the local variable [backupCodeUsed]. *)
Record LoginRun := mkRun {
  response : Response;
  backupCodeUsed : bool;
  database : DB
}.

(** The second half of [login], after the credential checks. *)
Definition completeLogin (env : Env) (user : User.IUser) (req : Request)
    (backupCodeUsed : bool) (db : DB) : LoginRun :=
  let deviceInfo := parseDeviceInfo req in
  (* Reset login attempts on successful login *)
  let db := updateUser (User._id user) User.resetLoginAttempts db in
  (* Update last login info *)
  let db :=
    updateUser (User._id user)
      (User.setLastLogin (Some (now env)) (Some (ipAddress deviceInfo))) db in
  (* Check for suspicious activity *)
  let db := snd (suspiciousActivity.checkSuspiciousLogin env (User._id user) req db) in
  (* Generate tokens *)
  let tokens := generateTokenPair env user (now env) in
  (* Create or update device *)
  let deviceId := generateDeviceId (sha256hex32 env) deviceInfo in
  let db :=
    withDevices (upsertDevice (User._id user) deviceId deviceInfo (now env) (devices db))
                db in
  (* Create session *)
  let sessionExpiry := plusDays env (now env) 7 in
  match createSession
          (Session.mkSession (User._id user) (jwt.refreshToken tokens) deviceInfo
             true (now env) sessionExpiry (now env))
          (sessions db) with
  | None =>
      mkRun (reply 500 false "Login failed. Please try again.") backupCodeUsed db
  | Some sessions' =>
      let db := withSessions sessions' db in
      (* Log successful login *)
      let db :=
        auth.logSecurityEvent env (Some (User._id user)) (Some (User.email user))
          "login" req SecurityLog.success (Some "User logged in successfully") db in
      mkRun (mkResponse 200 true (Some "Login successful") false (Some tokens))
            backupCodeUsed db
  end.

(** [login].  The query is [User.findOne({ email }).select('+password')]:
    the handler works on [User.selectPassword user], where [user] is the
    stored document.  The two reads of the second-factor block,
    [user.twoFactorSecret] and [user.backupCodes], are reads of paths that
    were not loaded; the other fields read are those of the stored
    document. *)
Definition loginRun (env : Env) (email password : string)
    (twoFactorToken : option string) (req : Request) (db : DB) : LoginRun :=
  (* Find user with password field *)
  match findUserByEmail (toLowerCase env email) db with
  | None =>
      let db :=
        auth.logSecurityEvent env None (Some email) "login" req
          SecurityLog.failure (Some "User not found") db in
      mkRun (reply 401 false "Invalid email or password") false db
  | Some user =>
      (* Check if account is locked *)
      if User.isAccountLocked (now env) user then
        let db :=
          auth.logSecurityEvent env (Some (User._id user)) (Some (User.email user))
            "login" req SecurityLog.failure
            (Some "Account locked due to too many failed attempts") db in
        mkRun (reply 403 false
                 "Account is locked. Please try again later or reset your password.")
              false db
      (* Verify password *)
      else if negb (bcryptCompare env password (User.password user)) then
        let db :=
          updateUser (User._id user) (User.incrementLoginAttempts (now env) user) db in
        let db :=
          auth.logSecurityEvent env (Some (User._id user)) (Some (User.email user))
            "login" req SecurityLog.failure (Some "Invalid password") db in
        mkRun (reply 401 false "Invalid email or password") false db
      (* Check 2FA if enabled *)
      else if User.twoFactorEnabled user then
        match present twoFactorToken with
        | None =>
            mkRun (mkResponse 200 false (Some "Two-factor authentication required")
                              true None)
                  false db
        | Some twoFactorToken =>
            let loaded := User.selectPassword user in
            let isValidToken :=
              totpVerify env (User.twoFactorSecret loaded) twoFactorToken (now env) in
            (* Check backup codes if TOTP fails *)
            let codeIndex :=
              if negb isValidToken then
                match User.backupCodes loaded with
                | Some codes =>
                    match findIndex (fun code => streq code twoFactorToken) codes with
                    | Some i => Some (i, codes)
                    | None => None
                    end
                | None => None
                end
              else None in
            match codeIndex with
            | Some (i, codes) =>
                (* backupCodeUsed = true; splice; save *)
                let remaining := splice1 i codes in
                let db :=
                  updateUser (User._id user) (User.setBackupCodes (Some remaining)) db in
                completeLogin env (User.setBackupCodes (Some remaining) user) req true db
            | None =>
                if negb isValidToken then
                  let db :=
                    auth.logSecurityEvent env (Some (User._id user))
                      (Some (User.email user)) "login" req SecurityLog.failure
                      (Some "Invalid 2FA token") db in
                  mkRun (reply 401 false "Invalid two-factor authentication code")
                        false db
                else completeLogin env user req false db
            end
        end
      else completeLogin env user req false db
  end.

Definition login (env : Env) (email password : string)
    (twoFactorToken : option string) (req : Request) (db : DB) : Response * DB :=
  let run := loginRun env email password twoFactorToken req db in
  (response run, database run).

(** [Session.findOne({ refreshToken, isActive: true,
                       expiresAt: { $gt: new Date() } })] *)
Definition activeWithToken (tok : string) (t : Time) (s : Session.ISession) : bool :=
  streq (Session.refreshToken s) tok
  && Session.isActive s
  && (t <? Session.expiresAt s).

Definition findActiveByRefreshToken (tok : string) (t : Time)
    (l : list Session.ISession) : option Session.ISession :=
  find (activeWithToken tok t) l.

(** [session.save()] after [session.refreshToken = tok;
    session.lastActivity = t], for the session at position [i]: the unique
    index refuses a token that another stored session carries. *)
Fixpoint saveRotated (i : nat) (tok : string) (t : Time) (l : list Session.ISession)
    : option (list Session.ISession) :=
  match l, i with
  | [], _ => Some []
  | s :: l', O =>
      if existsb (fun s' => streq (Session.refreshToken s') tok) l'
      then None else Some (Session.rotate tok t s :: l')
  | s :: l', S i' =>
      if streq (Session.refreshToken s) tok then None
      else option_map (cons s) (saveRotated i' tok t l')
  end.

Definition refreshToken (env : Env) (refreshToken : option string) (db : DB)
    : Response * DB :=
  match present refreshToken with
  | None => (reply 400 false "Refresh token is required", db)
  | Some refreshToken =>
      (* Verify refresh token *)
      match verifyRefreshToken env refreshToken with
      | None => (reply 401 false "Invalid or expired refresh token", db)
      | Some decoded =>
          (* Check if session exists and is active *)
          match findIndex (activeWithToken refreshToken (now env)) (sessions db) with
          | None => (reply 401 false "Session expired or invalid", db)
          | Some i =>
              (* Get user *)
              match findUserById (jwt.userId decoded) db with
              | None => (reply 401 false "User not found", db)
              | Some user =>
                  (* Check if account is locked *)
                  if User.isAccountLocked (now env) user then
                    (reply 403 false "Account is locked", db)
                  else
                    (* Generate new token pair *)
                    let tokens := generateTokenPair env user (now env) in
                    (* Update session with new refresh token *)
                    match saveRotated i (jwt.refreshToken tokens) (now env)
                                      (sessions db) with
                    | None => (reply 500 false "Token refresh failed", db)
                    | Some sessions' =>
                        (mkResponse 200 true None false (Some tokens),
                         withSessions sessions' db)
                    end
              end
          end
      end
  end.

End authController.

(* ================================================================== *)
(** ** controllers/twoFactorController.ts *)
(* ================================================================== *)

Module twoFactorController.
Import deviceParser.

(** [crypto.randomBytes(4)]: four bytes. *)
Definition Bytes4 : Type := Byte.byte * Byte.byte * Byte.byte * Byte.byte.

(** [buffer.toString('hex')]: two lower-case hexadecimal digits per byte. *)
Definition hexDigit (n : N) : ascii :=
  nth (N.to_nat n) (list_ascii_of_string "0123456789abcdef") "0"%char.

Definition hexOfByte (b : Byte.byte) : string :=
  String (hexDigit (Byte.to_N b / 16))
         (String (hexDigit (Byte.to_N b mod 16)) EmptyString).

Definition toHex (b : Bytes4) : string :=
  let '(b0, b1, b2, b3) := b in
  String.append (hexOfByte b0)
    (String.append (hexOfByte b1) (String.append (hexOfByte b2) (hexOfByte b3))).

(** [s.toUpperCase()] on ASCII characters *)
Definition upperChar (c : ascii) : ascii :=
  let n := N_of_ascii c in
  if (N.leb 97 n && N.leb n 122)%N then ascii_of_N (n - 32) else c.

Fixpoint toUpperCase (s : string) : string :=
  match s with
  | EmptyString => EmptyString
  | String c s' => String (upperChar c) (toUpperCase s')
  end.

(** [Array.from({ length: 10 }, () =>
       crypto.randomBytes(4).toString('hex').toUpperCase())];
    [randomBytes i] is the draw of the i-th call. *)
Definition generateBackupCodes (randomBytes : nat -> Bytes4) : list string :=
  map (fun i => toUpperCase (toHex (randomBytes i))) (seq 0 10).

(** The answer of a two-factor handler: the response and, of its [data],
    the secret and the backup codes. *)
Record Reply := mkReply {
  response : Response;
  secret : option string;
  backupCodes : option (list string)
}.

Definition answer (c : Z) (ok : bool) (msg : string) : Reply :=
  mkReply (reply c ok msg) None None.

(** [setup2FA]; [secretBase32] is [speakeasy.generateSecret(...).base32]. *)
Definition setup2FA (env : Env) (secretBase32 : string)
    (randomBytes : nat -> Bytes4) (userId : option string) (db : DB)
    : Reply * DB :=
  match present userId with
  | None => (answer 401 false "Authentication required", db)
  | Some userId =>
      match findUserById userId db with
      | None => (answer 404 false "User not found", db)
      | Some user =>
          if User.twoFactorEnabled user then
            (answer 400 false "Two-factor authentication is already enabled", db)
          else
            (* Generate backup codes *)
            let backupCodes := generateBackupCodes randomBytes in
            (* Store secret and backup codes temporarily (not enabled yet) *)
            let db :=
              updateUser (User._id user)
                (fun u => User.setTwoFactor (User.twoFactorEnabled u)
                            (Some secretBase32) (Some backupCodes) u)
                db in
            (mkReply (reply 200 true
                        "2FA setup initiated. Scan QR code and verify with a code.")
                     (Some secretBase32) (Some backupCodes),
             db)
      end
  end.

(** [verify2FA] *)
Definition verify2FA (env : Env) (userId : option string) (token : string)
    (req : Request) (db : DB) : Reply * DB :=
  match present userId with
  | None => (answer 401 false "Authentication required", db)
  | Some userId =>
      match findUserById userId db with
      | None => (answer 404 false "User not found", db)
      | Some user =>
          match present (User.twoFactorSecret user) with
          | None =>
              (answer 400 false "2FA setup not initiated. Please setup 2FA first.", db)
          | Some twoFactorSecret =>
              if User.twoFactorEnabled user then
                (answer 400 false "Two-factor authentication is already enabled", db)
              (* Verify token *)
              else if negb (totpVerify env (Some twoFactorSecret) token (now env)) then
                (answer 400 false "Invalid verification code", db)
              else
                (* Enable 2FA *)
                let db :=
                  updateUser (User._id user)
                    (fun u => User.setTwoFactor true (User.twoFactorSecret u)
                                (User.backupCodes u) u)
                    db in
                let db :=
                  auth.logSecurityEvent env (Some userId) (Some (User.email user))
                    "2fa_enabled" req SecurityLog.success
                    (Some "Two-factor authentication enabled") db in
                (mkReply (reply 200 true
                            "Two-factor authentication enabled successfully")
                         None (User.backupCodes user),
                 db)
          end
      end
  end.

(** [disable2FA] *)
Definition disable2FA (env : Env) (userId : option string)
    (password token : string) (req : Request) (db : DB) : Reply * DB :=
  match present userId with
  | None => (answer 401 false "Authentication required", db)
  | Some userId =>
      match findUserById userId db with
      | None => (answer 404 false "User not found", db)
      | Some user =>
          if negb (User.twoFactorEnabled user) then
            (answer 400 false "Two-factor authentication is not enabled", db)
          (* Verify password *)
          else if negb (bcryptCompare env password (User.password user)) then
            (answer 401 false "Invalid password", db)
          (* Verify 2FA token *)
          else if negb (totpVerify env (User.twoFactorSecret user) token (now env)) then
            (answer 401 false "Invalid 2FA code", db)
          else
            (* Disable 2FA *)
            let db :=
              updateUser (User._id user) (User.setTwoFactor false None None) db in
            let db :=
              auth.logSecurityEvent env (Some userId) (Some (User.email user))
                "2fa_disabled" req SecurityLog.success
                (Some "Two-factor authentication disabled") db in
            (answer 200 true "Two-factor authentication disabled successfully", db)
      end
  end.

(** [regenerateBackupCodes] *)
Definition regenerateBackupCodes (env : Env) (randomBytes : nat -> Bytes4)
    (userId : option string) (password : string) (req : Request) (db : DB)
    : Reply * DB :=
  match present userId with
  | None => (answer 401 false "Authentication required", db)
  | Some userId =>
      match findUserById userId db with
      | None => (answer 404 false "User not found", db)
      | Some user =>
          if negb (User.twoFactorEnabled user) then
            (answer 400 false "Two-factor authentication is not enabled", db)
          (* Verify password *)
          else if negb (bcryptCompare env password (User.password user)) then
            (answer 401 false "Invalid password", db)
          else
            (* Generate new backup codes *)
            let backupCodes := generateBackupCodes randomBytes in
            let db :=
              updateUser (User._id user)
                (fun u => User.setTwoFactor (User.twoFactorEnabled u)
                            (User.twoFactorSecret u) (Some backupCodes) u)
                db in
            let db :=
              auth.logSecurityEvent env (Some userId) (Some (User.email user))
                "2fa_backup_codes_regenerated" req SecurityLog.success
                (Some "Backup codes regenerated") db in
            (mkReply (reply 200 true "Backup codes regenerated successfully")
                     None (Some backupCodes),
             db)
      end
  end.

End twoFactorController.

(* ================================================================== *)
(** ** Fixtures: concrete collaborators, users and requests *)
(* ================================================================== *)

Module Fixtures.

(** Object ids of the two stored users. *)
Definition aliceId : string := "65a1b2c3d4e5f60718293a4b".
Definition bobId : string := "65a1b2c3d4e5f60718293a4c".

(** The pair signed for a user at a time: the user id and the time in
    decimal stand for the two signatures. *)
Definition tokensFor (u : User.IUser) (d : Time) : jwt.TokenPair :=
  let stamp :=
    String.append (User._id u)
                  (String.append "-" (NilEmpty.string_of_int (Z.to_int d))) in
  jwt.mkTokenPair (String.append "access-" stamp) (String.append "refresh-" stamp).

(** A clock at [t], UTC hours, 24-hour days, identity lower-casing (the
    addresses used are in lower case), plain-text password comparison, a
    TOTP that accepts the code ["000000"] for a secret and no code without
    one, [tokensFor] as signer, a verifier
    that accepts the refresh tokens of Alice, and the device string standing
    for its own digest. *)
Definition envAt (t : Time) (mail : bool) : Env :=
  mkEnv t
        (fun d => (d / 3600000) mod 24)
        (fun d n => d + n * 24 * 60 * 60 * 1000)
        (fun s => s)
        (fun candidate hash => streq candidate hash)
        (fun secret token _ =>
           match secret with
           | Some _ => streq token "000000"
           | None => false
           end)
        tokensFor
        (fun tok =>
           if String.prefix (String.append "refresh-" aliceId) tok
           then Some (jwt.mkPayload aliceId "alice@example.com" "user")
           else None)
        "9f8e7d6c"
        (fun s => s)
        mail.

(** A registered, verified user without second factor. *)
Definition alice : User.IUser :=
  User.mkUser aliceId "alice@example.com" "correct horse" (Some "Alice") true
              None None None None 0 None false false None None "user" None None.

(** The same user with two-factor authentication enabled. *)
Definition alice2FA (codes : list string) : User.IUser :=
  User.mkUser aliceId "alice@example.com" "correct horse" (Some "Alice") true
              None None None None 0 None false true (Some "JBSWY3DPEHPK3PXP")
              (Some codes) "user" None None.

(** A registered user who has not verified the address yet. *)
Definition bob : User.IUser :=
  User.mkUser bobId "bob@example.com" "battery staple" (Some "Bob") false
              (Some "a1b2") (Some 1000) None None 0 None false false None None
              "user" None None.

Definition emptyDB : DB := mkDB [] [] [] [].
Definition dbOf (us : list User.IUser) : DB := mkDB us [] [] [].

Definition chromeDesktop : deviceParser.Request :=
  deviceParser.mkRequest
    "Mozilla/5.0 (Windows NT 10.0; Win64; x64) AppleWebKit/537.36 Chrome/120.0 Safari/537.36"
    "203.0.113.7".

Definition firefoxDesktop : deviceParser.Request :=
  deviceParser.mkRequest
    "Mozilla/5.0 (Windows NT 10.0; Win64; x64; rv:121.0) Gecko/20100101 Firefox/121.0"
    "203.0.113.7".

Definition otherAddress : deviceParser.Request :=
  deviceParser.mkRequest
    "Mozilla/5.0 (Windows NT 10.0; Win64; x64) AppleWebKit/537.36 Chrome/120.0 Safari/537.36"
    "198.51.100.23".

End Fixtures.

(* ================================================================== *)
(** ** Vocabulary of the statements *)
(* ================================================================== *)

(** The points of one scoring rule. *)
Definition points (c : bool) (k : Z) : Z := if c then k else 0.

(** The unique index on [refreshToken]: no two stored sessions carry the
    same token. *)
Definition uniqueTokens (db : DB) : Prop :=
  NoDup (map Session.refreshToken (sessions db)).

(** Two versions of a session that agree on everything but the refresh
    token and the last-activity time stamp. *)
Definition sameButRotation (s s' : Session.ISession) : Prop :=
  Session.userId s' = Session.userId s
  /\ Session.deviceInfo s' = Session.deviceInfo s
  /\ Session.isActive s' = Session.isActive s
  /\ Session.expiresAt s' = Session.expiresAt s
  /\ Session.createdAt s' = Session.createdAt s.

(** Requests served one after the other. *)
Definition RefreshCall : Type := Env * option string.

Fixpoint refreshes (calls : list RefreshCall) (db : DB) : DB :=
  match calls with
  | [] => db
  | (env, tok) :: rest => refreshes rest (snd (authController.refreshToken env tok db))
  end.

Record LoginCall := mkLoginCall {
  call_env : Env;
  call_email : string;
  call_password : string;
  call_twoFactorToken : option string;
  call_req : deviceParser.Request
}.

Definition runLogin (c : LoginCall) (db : DB) : authController.LoginRun :=
  authController.loginRun (call_env c) (call_email c) (call_password c)
                          (call_twoFactorToken c) (call_req c) db.

Fixpoint logins (calls : list LoginCall) (db : DB) : DB :=
  match calls with
  | [] => db
  | c :: rest => logins rest (authController.database (runLogin c db))
  end.

(** The session that a successful login creates. *)
Definition sessionOfLogin (env : Env) (user : User.IUser)
    (req : deviceParser.Request) : Session.ISession :=
  Session.mkSession (User._id user)
    (jwt.refreshToken (generateTokenPair env user (now env)))
    (deviceParser.parseDeviceInfo req) true (now env)
    (plusDays env (now env) 7) (now env).

(** The branches of [login], one constructor per exit that a request can
    take.  The exit through a backup code is none of them: the handler
    looks the code up in [user.backupCodes] of the loaded document, which
    is [undefined]. *)
Inductive LoginOutcome (env : Env) (email password : string)
    (twoFactorToken : option string) (req : deviceParser.Request) (db : DB)
    : authController.LoginRun -> Prop :=
| login_unknown :
    findUserByEmail (toLowerCase env email) db = None ->
    LoginOutcome env email password twoFactorToken req db
      (authController.mkRun (reply 401 false "Invalid email or password") false
         (auth.logSecurityEvent env None (Some email) "login" req
            SecurityLog.failure (Some "User not found") db))
| login_locked (user : User.IUser) :
    findUserByEmail (toLowerCase env email) db = Some user ->
    User.isAccountLocked (now env) user = true ->
    LoginOutcome env email password twoFactorToken req db
      (authController.mkRun
         (reply 403 false
            "Account is locked. Please try again later or reset your password.")
         false
         (auth.logSecurityEvent env (Some (User._id user)) (Some (User.email user))
            "login" req SecurityLog.failure
            (Some "Account locked due to too many failed attempts") db))
| login_wrong_password (user : User.IUser) :
    findUserByEmail (toLowerCase env email) db = Some user ->
    User.isAccountLocked (now env) user = false ->
    bcryptCompare env password (User.password user) = false ->
    LoginOutcome env email password twoFactorToken req db
      (authController.mkRun (reply 401 false "Invalid email or password") false
         (auth.logSecurityEvent env (Some (User._id user)) (Some (User.email user))
            "login" req SecurityLog.failure (Some "Invalid password")
            (updateUser (User._id user)
               (User.incrementLoginAttempts (now env) user) db)))
| login_token_required (user : User.IUser) :
    findUserByEmail (toLowerCase env email) db = Some user ->
    User.isAccountLocked (now env) user = false ->
    bcryptCompare env password (User.password user) = true ->
    User.twoFactorEnabled user = true ->
    present twoFactorToken = None ->
    LoginOutcome env email password twoFactorToken req db
      (authController.mkRun
         (mkResponse 200 false (Some "Two-factor authentication required") true None)
         false db)
| login_token_rejected (user : User.IUser) (token : string) :
    findUserByEmail (toLowerCase env email) db = Some user ->
    User.isAccountLocked (now env) user = false ->
    bcryptCompare env password (User.password user) = true ->
    User.twoFactorEnabled user = true ->
    present twoFactorToken = Some token ->
    totpVerify env (User.twoFactorSecret (User.selectPassword user)) token (now env)
    = false ->
    LoginOutcome env email password twoFactorToken req db
      (authController.mkRun
         (reply 401 false "Invalid two-factor authentication code") false
         (auth.logSecurityEvent env (Some (User._id user)) (Some (User.email user))
            "login" req SecurityLog.failure (Some "Invalid 2FA token") db))
| login_accepted (user : User.IUser) :
    findUserByEmail (toLowerCase env email) db = Some user ->
    User.isAccountLocked (now env) user = false ->
    bcryptCompare env password (User.password user) = true ->
    (User.twoFactorEnabled user = false
     \/ exists token, present twoFactorToken = Some token
                      /\ totpVerify env
                           (User.twoFactorSecret (User.selectPassword user)) token
                           (now env) = true) ->
    LoginOutcome env email password twoFactorToken req db
      (authController.completeLogin env user req false db).

(** A login request with the right password of a user with two-factor
    authentication whose code is missing, or neither a valid time-based code
    nor one of the backup codes, both read from the document that the
    handler has loaded. *)
Definition failedSecondFactor (c : LoginCall) (db : DB) : Prop :=
  exists user,
    findUserByEmail (toLowerCase (call_env c) (call_email c)) db = Some user
    /\ User.twoFactorEnabled user = true
    /\ bcryptCompare (call_env c) (call_password c) (User.password user) = true
    /\ (present (call_twoFactorToken c) = None
        \/ exists token,
             present (call_twoFactorToken c) = Some token
             /\ totpVerify (call_env c)
                   (User.twoFactorSecret (User.selectPassword user)) token
                   (now (call_env c)) = false
             /\ forall codes,
                  User.backupCodes (User.selectPassword user) = Some codes ->
                  ~ In token codes).

(** The lockout fields of a user. *)
Definition lockoutState (u : User.IUser) : Z * option Time * bool :=
  (User.loginAttempts u, User.lockUntil u, User.isLocked u).

(** The lockout fields after a write are those before it, or cleared. *)
Definition keptOrReset (u u' : User.IUser) : Prop :=
  lockoutState u' = lockoutState u \/ lockoutState u' = (0, None, false).

(** Readings of the specification's wording that differ from the queries
    of the code; they are compared with the code below. *)
Module AsStated.

(** "The last 10 successful logins" of a user. *)
Definition lastSuccessfulLogins (userId : string) (db : DB)
    : list SecurityLog.ISecurityLog :=
  SecurityLog.limit 10
    (SecurityLog.sortDesc
       (filter
          (fun l => SecurityLog.ofUser userId l
                    && streq (SecurityLog.action l) "login"
                    && SecurityLog.status_eqb (SecurityLog.status l) SecurityLog.success)
          (securityLogs db))).

(** "Successful login/password-change events in the trailing 7 days". *)
Definition weekActivity (env : Env) (userId : string) (db : DB)
    : list SecurityLog.ISecurityLog :=
  filter
    (fun l => SecurityLog.ofUser userId l
              && has ["login"; "password_change"] (SecurityLog.action l)
              && SecurityLog.status_eqb (SecurityLog.status l) SecurityLog.success
              && (now env - 7 * 24 * 60 * 60 * 1000 <=? SecurityLog.createdAt l))
    (securityLogs db).

(** "Password changes that occurred in the trailing 24 hours": the
    successful [password_change] entries of the user. *)
Definition passwordChanges (env : Env) (userId : string) (db : DB) : Z :=
  SecurityLog.countDocuments
    (fun l => SecurityLog.ofUser userId l
              && streq (SecurityLog.action l) "password_change"
              && SecurityLog.status_eqb (SecurityLog.status l) SecurityLog.success
              && (now env - 24 * 60 * 60 * 1000 <=? SecurityLog.createdAt l))
    (securityLogs db).

(** The password-change score as worded: 40 when the current address is
    absent from the addresses of a non-empty [weekActivity], 30 when more
    than one password change occurred in the trailing 24 hours, the change
    being requested counted as one of them. *)
Definition passwordChangeScore (env : Env) (userId : string)
    (req : deviceParser.Request) (db : DB) : Z :=
  points (negb (has (map SecurityLog.ipAddress (weekActivity env userId db))
                    (deviceParser.ipAddress (deviceParser.parseDeviceInfo req)))
          && negb (Nat.eqb (List.length (weekActivity env userId db)) 0)) 40
  + points (1 <? passwordChanges env userId db + 1) 30.

End AsStated.

(** Scenarios built from the fixtures. *)
Module Scenario.
Import Fixtures.

(** A security-log entry of user [u1]. *)
Definition entry (action ip : string) (st : SecurityLog.Status) (t : Time)
    : SecurityLog.ISecurityLog :=
  SecurityLog.mkLog (Some aliceId) (Some "alice@example.com") action ip
                    "Mozilla/5.0" st None None t.

(** Three logins with a wrong password, one second apart. *)
Definition threeFailures : DB :=
  let wrong (t : Time) (db : DB) :=
    authController.database
      (authController.loginRun (envAt t true) "alice@example.com" "guess" None
                               chromeDesktop db) in
  wrong 3000 (wrong 2000 (wrong 1000 (dbOf [alice]))).

(** The same three failures after an earlier successful login from another
    address. *)
Definition failuresAfterLogin : DB :=
  let wrong (t : Time) (db : DB) :=
    authController.database
      (authController.loginRun (envAt t true) "alice@example.com" "guess" None
                               chromeDesktop db) in
  wrong 3000 (wrong 2000 (wrong 1000
    (authController.database
       (authController.loginRun (envAt 500 true) "alice@example.com" "correct horse"
                                None otherAddress (dbOf [alice]))))).

(** Six successful logins within a week: the oldest from 198.51.100.23, the
    five that follow from 203.0.113.7. *)
Definition sixLogins : DB :=
  mkDB [alice] [] []
       [ entry "login" "198.51.100.23" SecurityLog.success 1000;
         entry "login" "203.0.113.7" SecurityLog.success 2000;
         entry "login" "203.0.113.7" SecurityLog.success 3000;
         entry "login" "203.0.113.7" SecurityLog.success 4000;
         entry "login" "203.0.113.7" SecurityLog.success 5000;
         entry "login" "203.0.113.7" SecurityLog.success 6000 ].

(** One login and one rejected password change (wrong current password),
    both from 203.0.113.7. *)
Definition oneFailedAttempt : DB :=
  mkDB [alice] [] []
       [ entry "login" "203.0.113.7" SecurityLog.success 1000;
         entry "password_change" "203.0.113.7" SecurityLog.failure 2000 ].

(** A login request of Alice from Chrome with the right password. *)
Definition aliceCall (t : Time) (token : option string) : LoginCall :=
  mkLoginCall (envAt t true) "alice@example.com" "correct horse" token chromeDesktop.

(** One login with Chrome at 5 seconds. *)
Definition loggedIn : DB :=
  authController.database
    (authController.loginRun (envAt 5000 true) "alice@example.com"
       "correct horse" None chromeDesktop (dbOf [alice])).

(** The refresh token handed out by that login. *)
Definition firstToken : string := jwt.refreshToken (tokensFor alice 5000).

(** Two logins of the same user from the same address, first with Chrome
    and then with Firefox. *)
Definition twoBrowsers : DB :=
  authController.database
    (authController.loginRun (envAt 9000 true) "alice@example.com" "correct horse"
       None firefoxDesktop
       (authController.database
          (authController.loginRun (envAt 5000 true) "alice@example.com"
             "correct horse" None chromeDesktop (dbOf [alice])))).

(** The device ids of the two browsers under [envAt]. *)
Definition chromeId : string :=
  deviceParser.generateDeviceId (sha256hex32 (envAt 0 true))
    (deviceParser.parseDeviceInfo chromeDesktop).
Definition firefoxId : string :=
  deviceParser.generateDeviceId (sha256hex32 (envAt 0 true))
    (deviceParser.parseDeviceInfo firefoxDesktop).

End Scenario.

(* ================================================================== *)
(** ** Vocabulary of the further properties *)
(* ================================================================== *)

(** The number of requirements of the breakdown that are not met. *)
Definition unmet (r : passwordStrength.Requirements) : nat :=
  List.length
    (filter negb
       [ passwordStrength.req_length r; passwordStrength.req_uppercase r;
         passwordStrength.req_lowercase r; passwordStrength.req_number r;
         passwordStrength.req_special r; passwordStrength.req_common r ]).

(** The lockout fields of a stored user fit together: the counter is not
    negative, the flag [isLocked] is set exactly when [lockUntil] is, and
    then at least five failures have been counted. *)
Definition lockoutConsistent (u : User.IUser) : Prop :=
  0 <= User.loginAttempts u
  /\ (User.isLocked u = true <-> User.lockUntil u <> None)
  /\ (User.isLocked u = true -> 5 <= User.loginAttempts u).

(** What login does to the lockout fields: a failure recorded at a time, or
    the reset of a successful login. *)
Inductive LockoutEvent :=
| FailedAt (t : Time)
| Succeeded.

Fixpoint lockoutEvents (events : list LockoutEvent) (u : User.IUser) : User.IUser :=
  match events with
  | [] => u
  | FailedAt t :: rest => lockoutEvents rest (User.recordFailure t u)
  | Succeeded :: rest => lockoutEvents rest (User.resetLoginAttempts u)
  end.

(** Two versions of a device row with the same owner, id and trust flag. *)
Definition sameTrust (d d' : Device.IDevice) : Prop :=
  Device.userId d' = Device.userId d
  /\ Device.deviceId d' = Device.deviceId d
  /\ Device.isTrusted d' = Device.isTrusted d.

(** A user locked until a given time after five counted failures. *)
Definition lockedAlice (until : Time) : User.IUser :=
  User.setLockout 5 (Some until) true Fixtures.alice.

(** The check that [login] runs for a user: [checkSuspiciousLogin] at the
    database that the handler has reached by then, after the reset of the
    failure counter and the stamp of the login. *)
Definition loginCheck (env : Env) (user : User.IUser) (req : deviceParser.Request)
    (db : DB) : suspiciousActivity.SuspiciousActivityCheck * DB :=
  suspiciousActivity.checkSuspiciousLogin env (User._id user) req
    (updateUser (User._id user)
       (User.setLastLogin (Some (now env))
          (Some (deviceParser.ipAddress (deviceParser.parseDeviceInfo req))))
       (updateUser (User._id user) User.resetLoginAttempts db)).

(** The number of reasons of a check. *)
Definition reasonCount (r : suspiciousActivity.SuspiciousActivityCheck) : Z :=
  Z.of_nat (List.length (suspiciousActivity.reasons r)).

(** A stored location that the look-up of utils/geolocation.ts can have
    produced. *)
Definition fromLookup (l : SecurityLog.ISecurityLog) : Prop :=
  SecurityLog.location l = None
  \/ exists ip, SecurityLog.location l = geolocation.getLocationFromIP ip.

(** A request to one of the handlers, named after its route, with what
    the handler reads from the body, the query, the parameters and
    [req.user]. *)
Inductive Call :=
| PostLogin (email password : string) (twoFactorToken : option string)
| PostRefreshToken (refreshToken : option string)
| PostForgotPassword (email : string)
| PostResetPassword (token password : string)
| PostChangePassword (userId : option string) (currentPassword newPassword : string)
| PostResendVerification (email : string)
| GetVerifyEmail (token : option string)
| PostTrustDevice (userId : option string) (deviceId : string)
    (userEmail : option string)
| DeleteDevice (userId : option string) (deviceId : string)
    (userEmail : option string)
| DeleteDevices (userId : option string) (currentRefreshToken : string)
    (userEmail : option string)
| DeleteSession (userId : option string) (sessionId : sessionController.SessionIdParam)
    (userEmail : option string)
| DeleteSessions (userId : option string) (currentRefreshToken : string)
    (userEmail : option string)
| PostSetup2FA (userId : option string)
| PostVerify2FA (userId : option string) (token : string)
| PostDisable2FA (userId : option string) (password token : string)
| PostRegenerateBackupCodes (userId : option string) (password : string).

(** A call as it arrives: with the clock and the collaborators of its
    run, the draws of the random sources included. *)
Record Arrival := mkArrival {
  at_env : Env;
  at_bcryptHash : string -> string;
  at_secretBase32 : string;
  at_randomBytes : nat -> twoFactorController.Bytes4;
  at_req : deviceParser.Request;
  at_call : Call
}.

Definition serve (a : Arrival) (db : DB) : Response * DB :=
  let env := at_env a in
  let req := at_req a in
  let plain (out : twoFactorController.Reply * DB) :=
    (twoFactorController.response (fst out), snd out) in
  match at_call a with
  | PostLogin email password twoFactorToken =>
      authController.login env email password twoFactorToken req db
  | PostRefreshToken refreshToken =>
      authController.refreshToken env refreshToken db
  | PostForgotPassword email =>
      passwordController.forgotPassword env email req db
  | PostResetPassword token password =>
      passwordController.resetPassword env (at_bcryptHash a) token password req db
  | PostChangePassword userId currentPassword newPassword =>
      passwordController.changePassword env (at_bcryptHash a) userId
        currentPassword newPassword req db
  | PostResendVerification email =>
      emailVerificationController.resendVerificationEmail env email req db
  | GetVerifyEmail token =>
      emailVerificationController.verifyEmail env token req db
  | PostTrustDevice userId deviceId userEmail =>
      deviceController.trustDevice env userId deviceId userEmail req db
  | DeleteDevice userId deviceId userEmail =>
      deviceController.revokeDevice env userId deviceId userEmail req db
  | DeleteDevices userId currentRefreshToken userEmail =>
      deviceController.revokeAllDevices env userId currentRefreshToken userEmail req db
  | DeleteSession userId sessionId userEmail =>
      sessionController.revokeSession env userId sessionId userEmail req db
  | DeleteSessions userId currentRefreshToken userEmail =>
      sessionController.revokeAllSessions env userId currentRefreshToken userEmail req db
  | PostSetup2FA userId =>
      plain (twoFactorController.setup2FA env (at_secretBase32 a) (at_randomBytes a)
               userId db)
  | PostVerify2FA userId token =>
      plain (twoFactorController.verify2FA env userId token req db)
  | PostDisable2FA userId password token =>
      plain (twoFactorController.disable2FA env userId password token req db)
  | PostRegenerateBackupCodes userId password =>
      plain (twoFactorController.regenerateBackupCodes env (at_randomBytes a)
               userId password req db)
  end.

(** Calls served one after the other. *)
Fixpoint serveAll (arrivals : list Arrival) (db : DB) : DB :=
  match arrivals with
  | [] => db
  | a :: rest => serveAll rest (snd (serve a db))
  end.

(** A later version of a stored session: same owner, device, expiry and
    creation time; not active unless it was; and with the same refresh
    token if it was revoked. *)
Definition sessionKept (s s' : Session.ISession) : Prop :=
  Session.userId s' = Session.userId s
  /\ Session.deviceInfo s' = Session.deviceInfo s
  /\ Session.expiresAt s' = Session.expiresAt s
  /\ Session.createdAt s' = Session.createdAt s
  /\ (Session.isActive s' = true -> Session.isActive s = true)
  /\ (Session.isActive s = false -> Session.refreshToken s' = Session.refreshToken s).

(** A later version of the session collection: every session is kept, in
    its place; sessions may have been added behind them. *)
Definition sessionsGrow (l l' : list Session.ISession) : Prop :=
  exists front tail, l' = front ++ tail /\ Forall2 sessionKept l front.

(** Object ids are unique in the users collection. *)
Definition uniqueIds (db : DB) : Prop := NoDup (map User._id (users db)).

(** A stored user whose fields fit together: the lockout fields are
    consistent, two-factor authentication is enabled only with a secret,
    and a verified address has no pending verification token. *)
Definition wellFormed (u : User.IUser) : Prop :=
  lockoutConsistent u
  /\ (User.twoFactorEnabled u = true -> User.twoFactorSecret u <> None)
  /\ (User.isEmailVerified u = true -> User.emailVerificationToken u = None).

(** A later version of a stored user: same id, address and role, and
    well-formed if the earlier one was. *)
Definition userKept (u u' : User.IUser) : Prop :=
  User._id u' = User._id u
  /\ User.email u' = User.email u
  /\ User.role u' = User.role u
  /\ (wellFormed u -> wellFormed u').

(** A call arriving at time [t] from Chrome, with a working mail
    transport, a hash that prefixes its input, and fixed random draws. *)
Definition arrival (t : Time) (call : Call) : Arrival :=
  mkArrival (Fixtures.envAt t true) (fun p => String.append "bcrypt:" p)
            "JBSWY3DPEHPK3PXP"
            (fun _ => (Byte.xde, Byte.xad, Byte.xbe, Byte.xef))
            Fixtures.chromeDesktop call.

(** The session of [Scenario.loggedIn], and the database after its owner
    has revoked it. *)
Definition firstSession : Session.ISession :=
  sessionOfLogin (Fixtures.envAt 5000 true) Fixtures.alice Fixtures.chromeDesktop.

Definition revokedFirst : DB :=
  snd (serve (arrival 6000
                (DeleteSession (Some Fixtures.aliceId) (sessionController.ObjectId 0)
                   (Some "alice@example.com")))
             Scenario.loggedIn).

(** What one served call does to one stored user: one constructor per
    write of a handler, with the tests that the handler has passed before
    the write. *)
Inductive UserStep (a : Arrival) (u : User.IUser) : User.IUser -> Prop :=
| step_none : UserStep a u u
| step_failed_login (email password : string) (twoFactorToken : option string) :
    at_call a = PostLogin email password twoFactorToken ->
    User.isAccountLocked (now (at_env a)) u = false ->
    bcryptCompare (at_env a) password (User.password u) = false ->
    UserStep a u (User.recordFailure (now (at_env a)) u)
| step_login (email password : string) (twoFactorToken : option string) :
    at_call a = PostLogin email password twoFactorToken ->
    User.isAccountLocked (now (at_env a)) u = false ->
    bcryptCompare (at_env a) password (User.password u) = true ->
    UserStep a u
      (User.setLastLogin (Some (now (at_env a)))
         (Some (deviceParser.req_ipAddress (at_req a)))
         (User.resetLoginAttempts u))
| step_forgot_password (email : string) :
    at_call a = PostForgotPassword email ->
    UserStep a u
      (User.setPasswordReset (Some (randomBytesHex (at_env a)))
         (Some (now (at_env a) + 60 * 60 * 1000)) u)
| step_reset_refused_on_save (token password : string) :
    at_call a = PostResetPassword token password ->
    passwordController.holdsResetToken token (now (at_env a)) u = true ->
    passwordController.passwordValidates password u = false ->
    UserStep a u (User.resetLoginAttempts u)
| step_reset_password (token password : string) :
    at_call a = PostResetPassword token password ->
    passwordController.holdsResetToken token (now (at_env a)) u = true ->
    passwordController.isWeak
      (passwordStrength.checkPasswordStrength (JS.units password)) = false ->
    bcryptCompare (at_env a) password (User.password u) = false ->
    passwordController.passwordValidates password u = true ->
    UserStep a u
      (User.setPasswordReset None None
         (passwordController.savePassword (at_bcryptHash a) password u
            (User.resetLoginAttempts u)))
| step_change_password (userId : option string) (currentPassword newPassword : string) :
    at_call a = PostChangePassword userId currentPassword newPassword ->
    present userId = Some (User._id u) ->
    bcryptCompare (at_env a) currentPassword (User.password u) = true ->
    passwordController.isWeak
      (passwordStrength.checkPasswordStrength (JS.units newPassword)) = false ->
    bcryptCompare (at_env a) newPassword (User.password u) = false ->
    passwordController.passwordValidates newPassword u = true ->
    UserStep a u (passwordController.savePassword (at_bcryptHash a) newPassword u u)
| step_new_verification_token (email : string) :
    at_call a = PostResendVerification email ->
    User.isEmailVerified u = false ->
    UserStep a u
      (User.setEmailVerification (Some (randomBytesHex (at_env a)))
         (Some (now (at_env a) + 24 * 60 * 60 * 1000)) u)
| step_verify_email (token : string) :
    at_call a = GetVerifyEmail (Some token) ->
    emailVerificationController.holdsVerificationToken token (now (at_env a)) u = true ->
    User.isEmailVerified u = false ->
    UserStep a u (User.setVerified u)
| step_setup_2fa (userId : option string) :
    at_call a = PostSetup2FA userId ->
    present userId = Some (User._id u) ->
    User.twoFactorEnabled u = false ->
    UserStep a u
      (User.setTwoFactor (User.twoFactorEnabled u) (Some (at_secretBase32 a))
         (Some (twoFactorController.generateBackupCodes (at_randomBytes a))) u)
| step_enable_2fa (userId : option string) (token : string) :
    at_call a = PostVerify2FA userId token ->
    present userId = Some (User._id u) ->
    User.twoFactorEnabled u = false ->
    User.twoFactorSecret u <> None ->
    totpVerify (at_env a) (User.twoFactorSecret u) token (now (at_env a)) = true ->
    UserStep a u
      (User.setTwoFactor true (User.twoFactorSecret u) (User.backupCodes u) u)
| step_disable_2fa (userId : option string) (password token : string) :
    at_call a = PostDisable2FA userId password token ->
    present userId = Some (User._id u) ->
    User.twoFactorEnabled u = true ->
    bcryptCompare (at_env a) password (User.password u) = true ->
    totpVerify (at_env a) (User.twoFactorSecret u) token (now (at_env a)) = true ->
    UserStep a u (User.setTwoFactor false None None u)
| step_regenerate_codes (userId : option string) (password : string) :
    at_call a = PostRegenerateBackupCodes userId password ->
    present userId = Some (User._id u) ->
    User.twoFactorEnabled u = true ->
    bcryptCompare (at_env a) password (User.password u) = true ->
    UserStep a u
      (User.setTwoFactor (User.twoFactorEnabled u) (User.twoFactorSecret u)
         (Some (twoFactorController.generateBackupCodes (at_randomBytes a))) u).

(** Alice after the set-up of two-factor authentication, before its
    verification; and Alice after four counted failures. *)
Definition aliceSetUp : User.IUser :=
  User.setTwoFactor false (Some "JBSWY3DPEHPK3PXP") (Some ["DEADBEEF"]) Fixtures.alice.

Definition aliceFourFailures : User.IUser :=
  User.setLockout 4 None false Fixtures.alice.

(** The characters of an upper-case hexadecimal numeral. *)
Definition hexUpper : list ascii := list_ascii_of_string "0123456789ABCDEF".

(** A verifier of access tokens that accepts the token ["alice-access"]
    for Alice. *)
Definition verifyAlice (token : string) : auth.AccessCheck :=
  if streq token "alice-access"
  then auth.TokenValid (jwt.mkPayload Fixtures.aliceId "alice@example.com" "user")
  else auth.TokenInvalid.

(** The user agent of Chrome on an Android telephone. *)
Definition chromeAndroid : deviceParser.Request :=
  deviceParser.mkRequest
    "Mozilla/5.0 (Linux; Android 13; Pixel 7) AppleWebKit/537.36 Chrome/120.0 Mobile Safari/537.36"
    "203.0.113.7".

(* ================================================================== *)
(** * Properties *)
(* ================================================================== *)

(** ** Account lockout (models/User.ts) *)

Lemma lockExpired_reset (u : User.IUser) (t : Time) :
  User.lockExpired t (User.resetLoginAttempts u) = false.
Proof. reflexivity. Qed.

Lemma recordFailure_expired (t : Time) (u : User.IUser) :
  User.lockExpired t u = true ->
  User.recordFailure t u = User.setLockout 1 None false u.
Proof.
  intros H. unfold User.recordFailure, User.incrementLoginAttempts,
    User.incrementLoginAttemptsWith.
  now rewrite H.
Qed.

Lemma recordFailure_locking (t : Time) (u : User.IUser) :
  User.lockExpired t u = false ->
  5 <= User.loginAttempts u + 1 ->
  User.isLocked u = false ->
  User.recordFailure t u =
  User.setLockout (User.loginAttempts u + 1) (Some (t + 30 * 60 * 1000)) true u.
Proof.
  intros He Hn Hl. unfold User.recordFailure, User.incrementLoginAttempts,
    User.incrementLoginAttemptsWith, User.defaultMaxAttempts,
    User.defaultLockoutMinutes.
  rewrite He, Hl.
  destruct (Z.leb_spec 5 (User.loginAttempts u + 1)); [reflexivity | lia].
Qed.

Lemma recordFailure_counting (t : Time) (u : User.IUser) :
  User.lockExpired t u = false ->
  User.loginAttempts u + 1 < 5 \/ User.isLocked u = true ->
  User.recordFailure t u =
  User.setLockout (User.loginAttempts u + 1) (User.lockUntil u) (User.isLocked u) u.
Proof.
  intros He Hc. unfold User.recordFailure, User.incrementLoginAttempts,
    User.incrementLoginAttemptsWith, User.defaultMaxAttempts.
  rewrite He.
  destruct Hc as [Hn | Hl].
  - destruct (Z.leb_spec 5 (User.loginAttempts u + 1)); [lia | reflexivity].
  - replace (negb (User.isLocked u)) with false by now rewrite Hl.
    rewrite andb_false_r. reflexivity.
Qed.

(** The state after five failures that follow a success. *)
Lemma five_failures_after_success (u : User.IUser) (t1 t2 t3 t4 t5 : Time) :
  User.recordFailures [t1; t2; t3; t4; t5] (User.resetLoginAttempts u) =
  User.setLockout 5 (Some (t5 + 30 * 60 * 1000)) true u.
Proof. destruct u. reflexivity. Qed.

(** C1. Recording a failed login follows the lockout algorithm.  For every
    user and every time: (1) when the stored lock has expired
    ([lockUntil] is set and earlier than now) the counter becomes 1 and
    [lockUntil] and [isLocked] are cleared; (2) otherwise the counter is
    incremented by one; (3) when, in that case, the incremented count is at
    least 5 and the account is not flagged locked, [lockUntil] becomes now
    plus 30 minutes (and the flag is raised), (4) and else the lock fields
    stay as they are.  Hence (5) five failures recorded in a row after a
    success (the reset state), at any times, leave the counter at 5 and the
    account locked exactly until 30 minutes after the fifth, and (6) one
    more failure after that lock has expired sets the counter back to 1 with
    the lock cleared. *)
Theorem recordFailure_follows_lockout_algorithm :
  (forall (t : Time) (u : User.IUser),
      User.lockExpired t u = true ->
      User.loginAttempts (User.recordFailure t u) = 1
      /\ User.lockUntil (User.recordFailure t u) = None
      /\ User.isLocked (User.recordFailure t u) = false)
  /\ (forall (t : Time) (u : User.IUser),
      User.lockExpired t u = false ->
      User.loginAttempts (User.recordFailure t u) = User.loginAttempts u + 1)
  /\ (forall (t : Time) (u : User.IUser),
      User.lockExpired t u = false ->
      5 <= User.loginAttempts u + 1 ->
      User.isLocked u = false ->
      User.lockUntil (User.recordFailure t u) = Some (t + 30 * 60 * 1000)
      /\ User.isLocked (User.recordFailure t u) = true)
  /\ (forall (t : Time) (u : User.IUser),
      User.lockExpired t u = false ->
      User.loginAttempts u + 1 < 5 \/ User.isLocked u = true ->
      User.lockUntil (User.recordFailure t u) = User.lockUntil u
      /\ User.isLocked (User.recordFailure t u) = User.isLocked u)
  /\ (forall (u : User.IUser) (t1 t2 t3 t4 t5 t : Time),
      let u5 := User.recordFailures [t1; t2; t3; t4; t5] (User.resetLoginAttempts u) in
      User.loginAttempts u5 = 5
      /\ User.lockUntil u5 = Some (t5 + 30 * 60 * 1000)
      /\ User.isAccountLocked t u5 = (t <? t5 + 30 * 60 * 1000))
  /\ (forall (u : User.IUser) (t1 t2 t3 t4 t5 t6 : Time),
      t5 + 30 * 60 * 1000 < t6 ->
      let u6 := User.recordFailures [t1; t2; t3; t4; t5; t6] (User.resetLoginAttempts u) in
      User.loginAttempts u6 = 1
      /\ User.lockUntil u6 = None
      /\ User.isLocked u6 = false
      /\ User.isAccountLocked t6 u6 = false).
Proof.
  split; [| split; [| split; [| split; [| split]]]].
  - intros t u H. rewrite (recordFailure_expired t u H). repeat split.
  - intros t u He.
    unfold User.recordFailure, User.incrementLoginAttempts,
      User.incrementLoginAttemptsWith.
    rewrite He.
    destruct (_ && _); reflexivity.
  - intros t u He Hn Hl. rewrite (recordFailure_locking t u He Hn Hl). split; reflexivity.
  - intros t u He Hc. rewrite (recordFailure_counting t u He Hc). split; reflexivity.
  - intros u t1 t2 t3 t4 t5 t. cbv zeta.
    rewrite five_failures_after_success. repeat split.
  - intros u t1 t2 t3 t4 t5 t6 Hlate. cbv zeta.
    change (User.recordFailures [t1; t2; t3; t4; t5; t6] (User.resetLoginAttempts u))
      with (User.recordFailure t6
              (User.recordFailures [t1; t2; t3; t4; t5] (User.resetLoginAttempts u))).
    rewrite five_failures_after_success.
    rewrite recordFailure_expired.
    + repeat split.
    + unfold User.lockExpired. destruct u; cbn -[Z.mul Z.add].
      apply Z.ltb_lt. exact Hlate.
Qed.

(** Witness of the lockout theorem: an account locked until 1,800,005 and a
    failure recorded at 2,000,000. *)
Lemma recordFailure_follows_lockout_algorithm_witness :
  let u := User.setLockout 5 (Some 1800005) true Fixtures.alice in
  User.lockExpired 2000000 u = true
  /\ User.loginAttempts (User.recordFailure 2000000 u) = 1
  /\ User.lockUntil (User.recordFailure 2000000 u) = None
  /\ User.isLocked (User.recordFailure 2000000 u) = false.
Proof.
  split; [reflexivity |].
  exact (proj1 recordFailure_follows_lockout_algorithm 2000000
               (User.setLockout 5 (Some 1800005) true Fixtures.alice) eq_refl).
Defined.

(** Through the handler: five logins of Alice with a wrong password, one
    second apart, lock the account until 30 minutes after the fifth; a
    login with the right password is then refused with 403 before the lock
    ends, and accepted after it. *)
Lemma five_wrong_passwords_lock_the_account :
  let db5 := logins (map (fun t => mkLoginCall (Fixtures.envAt t true)
                                     "alice@example.com" "guess" None
                                     Fixtures.chromeDesktop)
                         [1000; 2000; 3000; 4000; 5000])
                    (Fixtures.dbOf [Fixtures.alice]) in
  map lockoutState (users db5) = [(5, Some (5000 + 30 * 60 * 1000), true)]
  /\ statusCode (authController.response
                   (runLogin (Scenario.aliceCall 6000 None) db5)) = 403
  /\ statusCode (authController.response
                   (runLogin (Scenario.aliceCall (5000 + 30 * 60 * 1000) None) db5)) = 200
  /\ map lockoutState
         (users (authController.database
                   (runLogin (Scenario.aliceCall (5000 + 30 * 60 * 1000) None) db5)))
     = [(0, None, false)].
Proof. cbv zeta. repeat split; vm_compute; reflexivity. Qed.

(** ** Password strength (utils/passwordStrength.ts) *)

Lemma test_exists (cls : N -> bool) (p : JS.jsstring) :
  passwordStrength.test cls p = true <-> exists c, In c p /\ cls c = true.
Proof. unfold passwordStrength.test. apply existsb_exists. Qed.

Lemma isUpper_range (c : N) :
  passwordStrength.isUpper c = true <-> (65 <= c <= 90)%N.
Proof.
  unfold passwordStrength.isUpper, JS.inRange.
  rewrite andb_true_iff, !N.leb_le. reflexivity.
Qed.

Lemma isLower_range (c : N) :
  passwordStrength.isLower c = true <-> (97 <= c <= 122)%N.
Proof.
  unfold passwordStrength.isLower, JS.inRange.
  rewrite andb_true_iff, !N.leb_le. reflexivity.
Qed.

Lemma isDigit_range (c : N) :
  passwordStrength.isDigit c = true <-> (48 <= c <= 57)%N.
Proof.
  unfold passwordStrength.isDigit, JS.inRange.
  rewrite andb_true_iff, !N.leb_le. reflexivity.
Qed.

Lemma isSpecial_member (c : N) :
  passwordStrength.isSpecial c = true <-> In c passwordStrength.specialChars.
Proof.
  unfold passwordStrength.isSpecial. rewrite existsb_exists. split.
  - intros [x [Hin Heq]]. apply N.eqb_eq in Heq. now subst.
  - intros Hin. exists c. split; [exact Hin | apply N.eqb_refl].
Qed.

Lemma JS_eqb_eq (a b : JS.jsstring) : JS.eqb a b = true <-> a = b.
Proof.
  revert b. induction a as [| x a IH]; intros [| y b]; simpl;
    try (split; [discriminate | congruence]); [tauto |].
  rewrite andb_true_iff, N.eqb_eq, IH. split; [intros [-> ->]; reflexivity |].
  intros H. injection H as -> ->. now split.
Qed.

(** The deny list is searched for the lower-cased password. *)
Lemma isCommonPassword_spec (p : JS.jsstring) :
  passwordStrength.isCommonPassword p = true <->
  In (JS.toLowerCase p) passwordStrength.commonPasswords.
Proof.
  unfold passwordStrength.isCommonPassword, JS.includes.
  rewrite existsb_exists. split.
  - intros [x [Hin Heq]]. apply JS_eqb_eq in Heq. now subst.
  - intros Hin. exists (JS.toLowerCase p). split; [exact Hin | now apply JS_eqb_eq].
Qed.

Lemma band_thresholds (s : Z) :
  (s < 40 -> passwordStrength.band s = passwordStrength.weak)
  /\ (40 <= s < 60 -> passwordStrength.band s = passwordStrength.fair)
  /\ (60 <= s < 80 -> passwordStrength.band s = passwordStrength.good)
  /\ (80 <= s < 90 -> passwordStrength.band s = passwordStrength.strong)
  /\ (90 <= s -> passwordStrength.band s = passwordStrength.very_strong).
Proof.
  unfold passwordStrength.band.
  repeat split; intros H;
    destruct (Z.ltb_spec s 40); destruct (Z.ltb_spec s 60);
    destruct (Z.ltb_spec s 80); destruct (Z.ltb_spec s 90);
    try reflexivity; lia.
Qed.

Lemma incl_by_eval (l1 l2 : list N) :
  forallb (fun x => existsb (N.eqb x) l2) l1 = true -> incl l1 l2.
Proof.
  intros H x Hin. rewrite forallb_forall in H. specialize (H x Hin).
  apply existsb_exists in H. destruct H as [y [Hy E]].
  apply N.eqb_eq in E. now subst.
Qed.

(** The character class of the [special] requirement, by code units, in
    the order in which the regular expression lists its thirty members. *)
Lemma specialChars_units (c : N) :
  In c passwordStrength.specialChars <->
  In c [33; 64; 35; 36; 37; 94; 38; 42; 40; 41; 95; 43; 45; 61; 91; 93; 123; 125;
        59; 39; 58; 34; 92; 124; 44; 46; 60; 62; 47; 63]%N.
Proof.
  split; apply incl_by_eval; vm_compute; reflexivity.
Qed.

Lemma lowerUnit_spec (c : N) :
  ((65 <= c <= 90)%N -> JS.lowerUnit c = (c + 32)%N)
  /\ (c = 8490%N -> JS.lowerUnit c = 107%N)
  /\ (~ (65 <= c <= 90)%N -> c <> 8490%N -> JS.lowerUnit c = c).
Proof.
  unfold JS.lowerUnit, JS.inRange.
  destruct (N.leb_spec 65 c), (N.leb_spec c 90); cbn [andb];
    repeat split; intros; try lia; try reflexivity;
    try (subst c; reflexivity);
    destruct (N.eqb_spec c 8490); try reflexivity; try lia; congruence.
Qed.

(** C5. For every input string the score of [checkPasswordStrength] is the
    sum of 20 for a length of at least 8, 10 more from 12, 10 more from 16,
    15 each for an upper-case letter, a lower-case letter, a digit and a
    special character occurring in it, and 10 when it is not a common
    password; the band is weak below 40, fair below 60, good below 80,
    strong below 90 and very-strong from 90.  The four character tests
    hold exactly when the string has a code unit in [A]-[Z] (65 to 90), in
    [a]-[z] (97 to 122), in [0]-[9] (48 to 57), or among the thirty
    characters of the special class; a password is common exactly when its
    lower-cased form, code unit by code unit, is one of sixteen listed
    words.  ["password"] scores 35 and is weak; ["Tr0ub4dor&3!XY"] scores
    100 and is very-strong, hence strong or better. *)
Theorem checkPasswordStrength_score_and_band :
  (forall p : JS.jsstring,
      let r := passwordStrength.checkPasswordStrength p in
      passwordStrength.score r =
        points (8 <=? JS.length p) 20
        + points (12 <=? JS.length p) 10
        + points (16 <=? JS.length p) 10
        + points (passwordStrength.test passwordStrength.isUpper p) 15
        + points (passwordStrength.test passwordStrength.isLower p) 15
        + points (passwordStrength.test passwordStrength.isDigit p) 15
        + points (passwordStrength.test passwordStrength.isSpecial p) 15
        + points (negb (passwordStrength.isCommonPassword p)) 10
      /\ (passwordStrength.score r < 40 ->
          passwordStrength.strength r = passwordStrength.weak)
      /\ (40 <= passwordStrength.score r < 60 ->
          passwordStrength.strength r = passwordStrength.fair)
      /\ (60 <= passwordStrength.score r < 80 ->
          passwordStrength.strength r = passwordStrength.good)
      /\ (80 <= passwordStrength.score r < 90 ->
          passwordStrength.strength r = passwordStrength.strong)
      /\ (90 <= passwordStrength.score r ->
          passwordStrength.strength r = passwordStrength.very_strong))
  /\ passwordStrength.strength
       (passwordStrength.checkPasswordStrength (JS.units "password"))
     = passwordStrength.weak
  /\ (let s := passwordStrength.strength
                 (passwordStrength.checkPasswordStrength (JS.units "Tr0ub4dor&3!XY")) in
      s = passwordStrength.strong \/ s = passwordStrength.very_strong)
  /\ (forall p : JS.jsstring,
         JS.length p = Z.of_nat (List.length p)
         /\ (passwordStrength.test passwordStrength.isUpper p = true <->
             exists c, In c p /\ (65 <= c <= 90)%N)
         /\ (passwordStrength.test passwordStrength.isLower p = true <->
             exists c, In c p /\ (97 <= c <= 122)%N)
         /\ (passwordStrength.test passwordStrength.isDigit p = true <->
             exists c, In c p /\ (48 <= c <= 57)%N)
         /\ (passwordStrength.test passwordStrength.isSpecial p = true <->
             exists c,
               In c p
               /\ In c [33; 64; 35; 36; 37; 94; 38; 42; 40; 41; 95; 43; 45; 61; 91;
                        93; 123; 125; 59; 39; 58; 34; 92; 124; 44; 46; 60; 62; 47;
                        63]%N)
         /\ (passwordStrength.isCommonPassword p = true <->
             In (map JS.lowerUnit p)
                (map JS.units
                   [ "password"; "12345678"; "123456789"; "1234567890"; "qwerty";
                     "abc123"; "password123"; "admin"; "letmein"; "welcome";
                     "monkey"; "1234567"; "sunshine"; "princess"; "football";
                     "iloveyou" ])))
  /\ (forall c : N,
         ((65 <= c <= 90)%N -> JS.lowerUnit c = (c + 32)%N)
         /\ (c = 8490%N -> JS.lowerUnit c = 107%N)
         /\ (~ (65 <= c <= 90)%N -> c <> 8490%N -> JS.lowerUnit c = c))
  /\ JS.units "Tr0ub4dor&3!XY"
     = [84; 114; 48; 117; 98; 52; 100; 111; 114; 38; 51; 33; 88; 89]%N
  /\ passwordStrength.score
       (passwordStrength.checkPasswordStrength (JS.units "password")) = 35
  /\ passwordStrength.score
       (passwordStrength.checkPasswordStrength (JS.units "Tr0ub4dor&3!XY")) = 100
  /\ passwordStrength.strength
       (passwordStrength.checkPasswordStrength (JS.units "Tr0ub4dor&3!XY"))
     = passwordStrength.very_strong.
Proof.
  split; [| split; [| split; [| split; [| split; [| split; [| split; [| split]]]]]]].
  - intros p r. split.
    + subst r. unfold passwordStrength.checkPasswordStrength. cbn [passwordStrength.score
        passwordStrength.req_uppercase passwordStrength.req_lowercase
        passwordStrength.req_number passwordStrength.req_special
        passwordStrength.req_common].
      unfold passwordStrength.addIf, points.
      destruct (8 <=? JS.length p), (12 <=? JS.length p), (16 <=? JS.length p),
        (passwordStrength.test passwordStrength.isUpper p),
        (passwordStrength.test passwordStrength.isLower p),
        (passwordStrength.test passwordStrength.isDigit p),
        (passwordStrength.test passwordStrength.isSpecial p),
        (negb (passwordStrength.isCommonPassword p)); reflexivity.
    + change (passwordStrength.strength r)
        with (passwordStrength.band (passwordStrength.score r)).
      apply band_thresholds.
  - vm_compute. reflexivity.
  - right. vm_compute. reflexivity.
  - intros p. split; [reflexivity |].
    split; [| split; [| split; [| split]]].
    + rewrite test_exists. split; intros [c [Hin Hc]]; exists c; split; auto;
        now apply isUpper_range.
    + rewrite test_exists. split; intros [c [Hin Hc]]; exists c; split; auto;
        now apply isLower_range.
    + rewrite test_exists. split; intros [c [Hin Hc]]; exists c; split; auto;
        now apply isDigit_range.
    + rewrite test_exists. split; intros [c [Hin Hc]]; exists c; split; auto.
      * apply specialChars_units. now apply isSpecial_member.
      * apply isSpecial_member. now apply specialChars_units.
    + apply isCommonPassword_spec.
  - apply lowerUnit_spec.
  - vm_compute. reflexivity.
  - vm_compute. reflexivity.
  - vm_compute. reflexivity.
  - vm_compute. reflexivity.
Qed.

(** The two sample passwords, with their scores. *)
Lemma sample_password_scores :
  passwordStrength.score (passwordStrength.checkPasswordStrength (JS.units "password")) = 35
  /\ passwordStrength.score
       (passwordStrength.checkPasswordStrength (JS.units "Tr0ub4dor&3!XY")) = 100.
Proof. split; vm_compute; reflexivity. Qed.

(** ** Risk engine (utils/suspiciousActivity.ts) *)

Lemma has_In (l : list string) (x : string) : has l x = true <-> In x l.
Proof.
  unfold has, streq. rewrite existsb_exists. split.
  - intros [y [Hin Heq]]. apply String.eqb_eq in Heq. now subst.
  - intros Hin. exists x. split; [exact Hin | apply String.eqb_refl].
Qed.

Lemma flag_score (c : bool) (reason : string) (k : Z) (acc : list string * Z) :
  snd (suspiciousActivity.flag c reason k acc) = snd acc + points c k.
Proof. destruct c; unfold suspiciousActivity.flag, points; simpl; lia. Qed.

Lemma flag_score_le (c : bool) (reason : string) (k : Z) (acc : list string * Z) :
  0 <= k -> snd acc <= snd (suspiciousActivity.flag c reason k acc).
Proof. intros Hk. rewrite flag_score. destruct c; unfold points; lia. Qed.

Lemma length_pos_nonempty {A : Type} (l : list A) :
  (0 <? Z.of_nat (List.length l)) = true <-> l <> [].
Proof.
  destruct l; simpl.
  - split; [discriminate | congruence].
  - split; [discriminate | intros _; reflexivity].
Qed.

(** The result of [checkSuspiciousLogin] never contradicts its score. *)
Lemma checkSuspiciousLogin_threshold (env : Env) (userId : string)
    (req : deviceParser.Request) (db : DB) :
  let r := fst (suspiciousActivity.checkSuspiciousLogin env userId req db) in
  suspiciousActivity.isSuspicious r = (50 <=? suspiciousActivity.riskScore r).
Proof.
  unfold suspiciousActivity.checkSuspiciousLogin.
  destruct (findUserById userId db); reflexivity.
Qed.

(** C4, as the code has it.  For every stored user with at least 3 failed
    logins in the trailing 15 minutes, at least one successful login in the
    trailing 30 days, and a current address that is absent from the
    addresses of the 10 most recent of these successful logins, the login
    risk score is at least 55 and the result is marked suspicious. *)
Theorem checkSuspiciousLogin_failures_and_new_address
    (env : Env) (userId : string) (req : deviceParser.Request) (db : DB)
    (user : User.IUser) :
  findUserById userId db = Some user ->
  3 <= suspiciousActivity.recentFailures env userId db ->
  suspiciousActivity.recentSuccessfulLogins env userId db <> [] ->
  ~ In (deviceParser.ipAddress (deviceParser.parseDeviceInfo req))
       (map SecurityLog.ipAddress
            (suspiciousActivity.recentSuccessfulLogins env userId db)) ->
  let r := fst (suspiciousActivity.checkSuspiciousLogin env userId req db) in
  55 <= suspiciousActivity.riskScore r
  /\ suspiciousActivity.isSuspicious r = true.
Proof.
  intros Hu Hf Hne Hip r.
  assert (Hscore : 55 <= suspiciousActivity.riskScore r).
  { subst r. unfold suspiciousActivity.checkSuspiciousLogin. rewrite Hu.
    cbn [fst suspiciousActivity.riskScore].
    eapply Z.le_trans; [| apply flag_score_le; lia].
    set (base :=
           suspiciousActivity.flag
             (negb (has (map SecurityLog.ipAddress
                             (suspiciousActivity.recentSuccessfulLogins env userId db))
                        (deviceParser.ipAddress (deviceParser.parseDeviceInfo req)))
              && (0 <? Z.of_nat (List.length
                                   (suspiciousActivity.recentSuccessfulLogins env userId db))))
             "Login from new IP address" 25
             (suspiciousActivity.flag
                (3 <=? suspiciousActivity.recentFailures env userId db)
                "Multiple failed login attempts in short time" 30 ([], 0))).
    assert (Hbase : snd base = 55).
    { subst base. rewrite !flag_score. cbn [snd].
      replace (3 <=? suspiciousActivity.recentFailures env userId db) with true
        by (symmetry; apply Z.leb_le; exact Hf).
      replace (has _ _) with false.
      2:{ symmetry. apply not_true_is_false. rewrite has_In. exact Hip. }
      replace (0 <? _) with true
        by (symmetry; apply length_pos_nonempty; exact Hne).
      reflexivity. }
    destruct (5 <? _).
    - eapply Z.le_trans; [| apply flag_score_le; lia].
      destruct (geolocation.countryOf _).
      + eapply Z.le_trans; [| apply flag_score_le; lia].
        eapply Z.le_trans; [| apply flag_score_le; lia].
        fold base. lia.
      + eapply Z.le_trans; [| apply flag_score_le; lia].
        fold base. lia.
    - destruct (geolocation.countryOf _).
      + eapply Z.le_trans; [| apply flag_score_le; lia].
        eapply Z.le_trans; [| apply flag_score_le; lia].
        fold base. lia.
      + eapply Z.le_trans; [| apply flag_score_le; lia].
        fold base. lia. }
  split; [exact Hscore |].
  subst r. rewrite checkSuspiciousLogin_threshold.
  apply Z.leb_le. lia.
Qed.

(** Witness: three failed logins that follow a successful login from
    another address, checked at 4 seconds. *)
Lemma checkSuspiciousLogin_failures_and_new_address_witness :
  let env := Fixtures.envAt 4000 true in
  let r := fst (suspiciousActivity.checkSuspiciousLogin env Fixtures.aliceId
                  Fixtures.chromeDesktop Scenario.failuresAfterLogin) in
  55 <= suspiciousActivity.riskScore r
  /\ suspiciousActivity.isSuspicious r = true.
Proof.
  refine (checkSuspiciousLogin_failures_and_new_address
            (Fixtures.envAt 4000 true) Fixtures.aliceId Fixtures.chromeDesktop
            Scenario.failuresAfterLogin
            (User.setLastLogin (Some 500) (Some "198.51.100.23")
               (User.setLockout 3 None false Fixtures.alice))
            _ _ _ _).
  - vm_compute. reflexivity.
  - apply Z.leb_le. vm_compute. reflexivity.
  - vm_compute. discriminate.
  - vm_compute. intros [H | []]. discriminate H.
Defined.

(** C4 as stated fails: after three failed logins and no successful login
    at all, the current address is absent from the addresses of the last 10
    successful logins (there are none), yet the score is 30 and the result
    is not suspicious; the login with the right password that follows
    succeeds and stores no [suspicious_activity] entry. *)
Lemma checkSuspiciousLogin_without_history_counterexample :
  let env := Fixtures.envAt 4000 true in
  let db := Scenario.threeFailures in
  let r := fst (suspiciousActivity.checkSuspiciousLogin env Fixtures.aliceId
                  Fixtures.chromeDesktop db) in
  findUserById Fixtures.aliceId db = Some (User.setLockout 3 None false Fixtures.alice)
  /\ suspiciousActivity.recentFailures env Fixtures.aliceId db = 3
  /\ AsStated.lastSuccessfulLogins Fixtures.aliceId db = []
  /\ suspiciousActivity.riskScore r = 30
  /\ suspiciousActivity.isSuspicious r = false
  /\ (let run := runLogin (Scenario.aliceCall 4000 None) db in
      success (authController.response run) = true
      /\ existsb (fun l => streq (SecurityLog.action l) "suspicious_activity")
                 (securityLogs (authController.database run)) = false)
  /\ ~ (3 <= suspiciousActivity.recentFailures env Fixtures.aliceId db ->
        ~ In (deviceParser.ipAddress (deviceParser.parseDeviceInfo Fixtures.chromeDesktop))
             (map SecurityLog.ipAddress (AsStated.lastSuccessfulLogins Fixtures.aliceId db)) ->
        55 <= suspiciousActivity.riskScore r
        /\ suspiciousActivity.isSuspicious r = true).
Proof.
  cbv zeta.
  assert (Hf : suspiciousActivity.recentFailures (Fixtures.envAt 4000 true) Fixtures.aliceId
                 Scenario.threeFailures = 3) by (vm_compute; reflexivity).
  assert (Hl : AsStated.lastSuccessfulLogins Fixtures.aliceId Scenario.threeFailures = [])
    by (vm_compute; reflexivity).
  assert (Hs : suspiciousActivity.riskScore
                 (fst (suspiciousActivity.checkSuspiciousLogin
                         (Fixtures.envAt 4000 true) Fixtures.aliceId Fixtures.chromeDesktop
                         Scenario.threeFailures)) = 30) by (vm_compute; reflexivity).
  repeat split; try assumption; try (vm_compute; reflexivity).
  intros H. rewrite Hf, Hl, Hs in H.
  destruct H as [H _]; [lia | intros [] | lia].
Qed.

Lemma ofUser_spec (userId : string) (l : SecurityLog.ISecurityLog) :
  SecurityLog.ofUser userId l = true <-> SecurityLog.userId l = Some userId.
Proof.
  unfold SecurityLog.ofUser, streq. destruct (SecurityLog.userId l) as [u |].
  - rewrite String.eqb_eq. split; congruence.
  - split; discriminate.
Qed.

Lemma countDocuments_pos (f : SecurityLog.ISecurityLog -> bool)
    (l : list SecurityLog.ISecurityLog) :
  (0 <? SecurityLog.countDocuments f l) = true <-> exists x, In x l /\ f x = true.
Proof.
  unfold SecurityLog.countDocuments. rewrite length_pos_nonempty. split.
  - intros Hne. destruct (filter f l) as [| x l'] eqn:E; [congruence |].
    exists x. apply filter_In. rewrite E. now left.
  - intros [x Hx] E. apply filter_In in Hx. rewrite E in Hx. exact Hx.
Qed.

(** C6, as the code has it.  The password-change risk score is 40 exactly
    when the history of the 5 most recent successful login or
    password-change entries of the trailing 7 days is non-empty and the
    current address is absent from its addresses, plus 30 whenever a
    successful password change of the user is already logged in the trailing
    24 hours, and plus nothing for that rule when no [password_change] entry
    of the user lies in the trailing 24 hours; the result is suspicious if
    and only if the score is at least 40. *)
Theorem checkSuspiciousPasswordChange_score
    (env : Env) (userId : string) (req : deviceParser.Request) (db : DB) :
  let r := fst (suspiciousActivity.checkSuspiciousPasswordChange env userId req db) in
  let recent := suspiciousActivity.recentActivity env userId db in
  exists newAddress changedBefore : bool,
    suspiciousActivity.riskScore r = points newAddress 40 + points changedBefore 30
    /\ (newAddress = true <->
        recent <> []
        /\ ~ In (deviceParser.ipAddress (deviceParser.parseDeviceInfo req))
                (map SecurityLog.ipAddress recent))
    /\ ((exists l, In l (securityLogs db)
                   /\ SecurityLog.userId l = Some userId
                   /\ SecurityLog.action l = "password_change"
                   /\ SecurityLog.status l = SecurityLog.success
                   /\ now env - 24 * 60 * 60 * 1000 <= SecurityLog.createdAt l) ->
        changedBefore = true)
    /\ ((forall l, In l (securityLogs db) ->
                   SecurityLog.userId l = Some userId ->
                   SecurityLog.action l = "password_change" ->
                   SecurityLog.createdAt l < now env - 24 * 60 * 60 * 1000) ->
        changedBefore = false)
    /\ (suspiciousActivity.isSuspicious r = true <->
        40 <= suspiciousActivity.riskScore r).
Proof.
  intros r recent.
  exists (negb (has (map SecurityLog.ipAddress recent)
                    (deviceParser.ipAddress (deviceParser.parseDeviceInfo req)))
          && (0 <? Z.of_nat (List.length recent))),
         (0 <? suspiciousActivity.recentPasswordChanges env userId db).
  split; [| split; [| split; [| split]]].
  - subst r recent. unfold suspiciousActivity.checkSuspiciousPasswordChange.
    cbn [fst suspiciousActivity.riskScore].
    rewrite !flag_score. cbn [snd]. lia.
  - rewrite andb_true_iff, negb_true_iff, length_pos_nonempty.
    rewrite <- not_true_iff_false, has_In. tauto.
  - intros [l [Hin [Hu [Ha [_ Ht]]]]].
    unfold suspiciousActivity.recentPasswordChanges.
    apply countDocuments_pos. exists l. split; [exact Hin |].
    rewrite !andb_true_iff. repeat split;
      [now apply ofUser_spec | now apply String.eqb_eq | now apply Z.leb_le].
  - intros Hold. apply not_true_is_false. intros Hpos.
    unfold suspiciousActivity.recentPasswordChanges in Hpos.
    apply countDocuments_pos in Hpos. destruct Hpos as [l [Hin Hf]].
    rewrite !andb_true_iff in Hf. destruct Hf as [[Hu Ha] Ht].
    apply ofUser_spec in Hu. apply String.eqb_eq in Ha. apply Z.leb_le in Ht.
    specialize (Hold l Hin Hu Ha). lia.
  - subst r. unfold suspiciousActivity.checkSuspiciousPasswordChange.
    cbn [fst suspiciousActivity.riskScore suspiciousActivity.isSuspicious].
    apply Z.leb_le.
Qed.

(** C6 as stated fails twice.  (1) With six successful logins in the week,
    the oldest of them from the current address, the address is among the
    addresses of the trailing 7 days, and still the code adds 40 and marks
    the change suspicious: only the 5 most recent entries are consulted.
    (2) After one rejected attempt (wrong current password) from a known
    address, no password change has occurred in the trailing 24 hours, and
    still the code adds 30: the count takes entries of any status and asks
    for at least one. *)
Lemma checkSuspiciousPasswordChange_as_stated_counterexample :
  (let env := Fixtures.envAt 7000 true in
   let r := fst (suspiciousActivity.checkSuspiciousPasswordChange env Fixtures.aliceId
                   Fixtures.otherAddress Scenario.sixLogins) in
   In (deviceParser.ipAddress (deviceParser.parseDeviceInfo Fixtures.otherAddress))
      (map SecurityLog.ipAddress (AsStated.weekActivity env Fixtures.aliceId Scenario.sixLogins))
   /\ AsStated.passwordChangeScore env Fixtures.aliceId Fixtures.otherAddress Scenario.sixLogins = 0
   /\ suspiciousActivity.riskScore r = 40
   /\ suspiciousActivity.isSuspicious r = true)
  /\
  (let env := Fixtures.envAt 3000 true in
   let r := fst (suspiciousActivity.checkSuspiciousPasswordChange env Fixtures.aliceId
                   Fixtures.chromeDesktop Scenario.oneFailedAttempt) in
   AsStated.passwordChanges env Fixtures.aliceId Scenario.oneFailedAttempt = 0
   /\ suspiciousActivity.recentPasswordChanges env Fixtures.aliceId Scenario.oneFailedAttempt = 1
   /\ AsStated.passwordChangeScore env Fixtures.aliceId Fixtures.chromeDesktop
        Scenario.oneFailedAttempt = 0
   /\ suspiciousActivity.riskScore r = 30).
Proof.
  cbv zeta. repeat split; try (vm_compute; reflexivity).
  vm_compute. left. reflexivity.
Qed.

(** ** Device revocation (controllers/deviceController.ts) *)

(** The sessions that [revokeDevice] reaches are deactivated; the others
    are left as they are. *)
Lemma revokeDevice_sessions (env : Env) (userId deviceId : string)
    (userEmail : option string) (req : deviceParser.Request) (db : DB)
    (device : Device.IDevice) :
  truthy userId = true ->
  find (deviceController.isDevice userId deviceId) (devices db) = Some device ->
  sessions (snd (deviceController.revokeDevice env (Some userId) deviceId
                   userEmail req db))
  = map (fun s => if deviceController.sessionOfDevice userId device s
                  then Session.setIsActive false s else s)
        (sessions db).
Proof.
  intros Ht Hd. unfold deviceController.revokeDevice, present.
  rewrite Ht, Hd. cbn [snd].
  unfold auth.logSecurityEvent.
  destruct (has SecurityLog.actionEnum "device_revoked"); reflexivity.
Qed.

(** C7 at the failing input.  A user logs in from one address with Chrome
    and then with Firefox: two devices and two active sessions.  Revoking
    the Chrome device leaves the Firefox device registered and deactivates
    the session of the Firefox device as well. *)
Theorem revokeDevice_deactivates_other_device :
  let db := Scenario.twoBrowsers in
  let db' := snd (deviceController.revokeDevice (Fixtures.envAt 12000 true)
                    (Some Fixtures.aliceId) Scenario.chromeId (Some "alice@example.com")
                    Fixtures.chromeDesktop db) in
  Scenario.chromeId <> Scenario.firefoxId
  /\ map Device.deviceId (devices db) = [Scenario.chromeId; Scenario.firefoxId]
  /\ map (fun s => (deviceParser.generateDeviceId
                      (sha256hex32 (Fixtures.envAt 0 true)) (Session.deviceInfo s),
                    Session.isActive s))
         (sessions db)
     = [(Scenario.chromeId, true); (Scenario.firefoxId, true)]
  /\ map Device.deviceId (devices db') = [Scenario.firefoxId]
  /\ map (fun s => (deviceParser.generateDeviceId
                      (sha256hex32 (Fixtures.envAt 0 true)) (Session.deviceInfo s),
                    Session.isActive s))
         (sessions db')
     = [(Scenario.chromeId, false); (Scenario.firefoxId, false)].
Proof.
  cbv zeta. repeat split; try (vm_compute; reflexivity).
  vm_compute. discriminate.
Qed.

(** ** Account enumeration (passwordController, emailVerificationController) *)

(** [forgotPassword] answers alike for a known and an unknown address as
    long as the mail transport delivers. *)
Lemma forgotPassword_same_response (env : Env) (email : string)
    (req1 req2 : deviceParser.Request) (db1 db2 : DB) :
  mailDelivered env = true ->
  fst (passwordController.forgotPassword env email req1 db1)
  = fst (passwordController.forgotPassword env email req2 db2).
Proof.
  intros Hm. unfold passwordController.forgotPassword. rewrite Hm.
  destruct (findUserByEmail _ db1), (findUserByEmail _ db2); reflexivity.
Qed.

(** When the transport fails, [forgotPassword] answers 500 for a known
    address and 200 for an unknown one. *)
Lemma forgotPassword_mail_failure (env : Env) (email : string)
    (req : deviceParser.Request) (db1 db2 : DB) (user : User.IUser) :
  mailDelivered env = false ->
  findUserByEmail (toLowerCase env email) db1 = Some user ->
  findUserByEmail (toLowerCase env email) db2 = None ->
  statusCode (fst (passwordController.forgotPassword env email req db1)) = 500
  /\ statusCode (fst (passwordController.forgotPassword env email req db2)) = 200.
Proof.
  intros Hm H1 H2. unfold passwordController.forgotPassword.
  rewrite H1, H2, Hm. split; reflexivity.
Qed.

(** C8 on the code.  Whenever a user with the given address exists in one
    database and none in the other, the responses of
    [resendVerificationEmail] to the same request differ in their message
    (and, for a verified account or a failing transport, in their status):
    the endpoint tells whether the account exists. *)
Theorem resendVerificationEmail_reveals_account (env : Env) (email : string)
    (req : deviceParser.Request) (db1 db2 : DB) (user : User.IUser) :
  findUserByEmail (toLowerCase env email) db1 = Some user ->
  findUserByEmail (toLowerCase env email) db2 = None ->
  message (fst (emailVerificationController.resendVerificationEmail env email req db1))
  <> message (fst (emailVerificationController.resendVerificationEmail env email req db2)).
Proof.
  intros H1 H2. unfold emailVerificationController.resendVerificationEmail.
  rewrite H1, H2.
  destruct (User.isEmailVerified user); [cbn; discriminate |].
  destruct (mailDelivered env); cbn; discriminate.
Qed.

(** Witness: the same request for bob@example.com with and without the
    account of Bob. *)
Lemma resendVerificationEmail_reveals_account_witness :
  fst (emailVerificationController.resendVerificationEmail
         (Fixtures.envAt 2000 true) "bob@example.com" Fixtures.chromeDesktop
         (Fixtures.dbOf [Fixtures.alice; Fixtures.bob]))
  = reply 200 true "Verification email sent successfully"
  /\ fst (emailVerificationController.resendVerificationEmail
            (Fixtures.envAt 2000 true) "bob@example.com" Fixtures.chromeDesktop
            (Fixtures.dbOf [Fixtures.alice]))
     = reply 200 true "If the email exists, a verification link has been sent."
  /\ message (fst (emailVerificationController.resendVerificationEmail
                     (Fixtures.envAt 2000 true) "bob@example.com" Fixtures.chromeDesktop
                     (Fixtures.dbOf [Fixtures.alice; Fixtures.bob])))
     <> message (fst (emailVerificationController.resendVerificationEmail
                        (Fixtures.envAt 2000 true) "bob@example.com"
                        Fixtures.chromeDesktop (Fixtures.dbOf [Fixtures.alice]))).
Proof.
  split; [vm_compute; reflexivity |].
  split; [vm_compute; reflexivity |].
  apply (resendVerificationEmail_reveals_account
           (Fixtures.envAt 2000 true) "bob@example.com" Fixtures.chromeDesktop
           (Fixtures.dbOf [Fixtures.alice; Fixtures.bob])
           (Fixtures.dbOf [Fixtures.alice]) Fixtures.bob).
  - vm_compute. reflexivity.
  - vm_compute. reflexivity.
Defined.

(** ** Sessions and refresh-token rotation (controllers/authController.ts) *)

Lemma findIndex_Some {A : Type} (p : A -> bool) (l : list A) (i : nat) :
  authController.findIndex p l = Some i ->
  exists x, nth_error l i = Some x /\ p x = true.
Proof.
  revert i. induction l as [| a l IH]; intros i H; simpl in H; [discriminate |].
  destruct (p a) eqn:Hp.
  - injection H as <-. exists a. split; [reflexivity | exact Hp].
  - destruct (authController.findIndex p l) as [j |]; [| discriminate].
    injection H as <-. destruct (IH j eq_refl) as [x Hx]. exists x. exact Hx.
Qed.

Lemma findIndex_None {A : Type} (p : A -> bool) (l : list A) :
  authController.findIndex p l = None -> forall x, In x l -> p x = false.
Proof.
  induction l as [| a l IH]; intros H x Hin; simpl in *; [contradiction |].
  destruct (p a) eqn:Hp; [discriminate |].
  destruct (authController.findIndex p l); [discriminate |].
  destruct Hin as [<- | Hin]; [exact Hp | now apply IH].
Qed.

Lemma findIndex_find_None {A : Type} (p : A -> bool) (l : list A) :
  authController.findIndex p l = None <-> find p l = None.
Proof.
  induction l as [| a l IH]; simpl; [tauto |].
  destruct (p a).
  - split; discriminate.
  - destruct (authController.findIndex p l); simpl.
    + split; [discriminate |]. intros H. apply IH in H. discriminate.
    + split; [intros _; now apply IH | reflexivity].
Qed.

Lemma existsb_token_false (tok : string) (l : list Session.ISession) :
  existsb (fun s' => streq (Session.refreshToken s') tok) l = false <->
  ~ In tok (map Session.refreshToken l).
Proof.
  rewrite <- not_true_iff_false, existsb_exists, in_map_iff. unfold streq.
  split; intros H [s Hs]; apply H; exists s.
  - destruct Hs as [<- Hin]. split; [exact Hin | apply String.eqb_refl].
  - destruct Hs as [Hin He]. apply String.eqb_eq in He. now split.
Qed.

(** The effect of a rotation that the unique index lets through. *)
Lemma saveRotated_Some (i : nat) (tok : string) (t : Time)
    (l l' : list Session.ISession) (s : Session.ISession) :
  authController.saveRotated i tok t l = Some l' ->
  nth_error l i = Some s ->
  nth_error l' i = Some (Session.rotate tok t s)
  /\ (forall j, j <> i -> nth_error l' j = nth_error l j)
  /\ List.length l' = List.length l
  /\ (forall j s', j <> i -> nth_error l j = Some s' -> Session.refreshToken s' <> tok).
Proof.
  revert i l'. induction l as [| a l IH]; intros i l' H Hn.
  - destruct i; discriminate.
  - destruct i as [| i]; simpl in H, Hn.
    + injection Hn as ->.
      destruct (existsb _ l) eqn:He; [discriminate |]. injection H as <-.
      apply existsb_token_false in He.
      repeat split.
      * intros [| j] Hj; [congruence | reflexivity].
      * intros [| j] s' Hj Hs'; [congruence |]. simpl in Hs'.
        intros Heq. apply He. apply in_map_iff. exists s'.
        split; [exact Heq | eapply nth_error_In; exact Hs'].
    + destruct (streq (Session.refreshToken a) tok) eqn:Ha; [discriminate |].
      destruct (authController.saveRotated i tok t l) as [l0 |] eqn:Hs; [| discriminate].
      injection H as <-.
      destruct (IH i l0 Hs Hn) as [H1 [H2 [H3 H4]]].
      repeat split.
      * exact H1.
      * intros [| j] Hj; [reflexivity |]. simpl. apply H2. congruence.
      * simpl. now rewrite H3.
      * intros [| j] s' Hj Hs'; simpl in Hs'.
        -- injection Hs' as <-. unfold streq in Ha.
           apply String.eqb_neq in Ha. exact Ha.
        -- eapply H4; [| exact Hs']. congruence.
Qed.

Lemma saveRotated_out_of_range (i : nat) (tok : string) (t : Time)
    (l l' : list Session.ISession) :
  authController.saveRotated i tok t l = Some l' ->
  nth_error l i = None -> Forall2 sameButRotation l l'.
Proof.
  revert i l'. induction l as [| a l IH]; intros i l' H Hn.
  - destruct i; simpl in H; injection H as <-; constructor.
  - destruct i as [| i]; simpl in H, Hn; [discriminate |].
    destruct (streq _ tok); [discriminate |].
    destruct (authController.saveRotated i tok t l) as [l0 |] eqn:Hs; [| discriminate].
    injection H as <-. constructor; [repeat split | eapply IH; eauto].
Qed.

Lemma sameButRotation_refl (s : Session.ISession) : sameButRotation s s.
Proof. repeat split. Qed.

Lemma Forall2_sameButRotation_refl (l : list Session.ISession) :
  Forall2 sameButRotation l l.
Proof. induction l; constructor; [apply sameButRotation_refl | assumption]. Qed.

Lemma saveRotated_frame (i : nat) (tok : string) (t : Time)
    (l l' : list Session.ISession) :
  authController.saveRotated i tok t l = Some l' -> Forall2 sameButRotation l l'.
Proof.
  revert i l'. induction l as [| a l IH]; intros i l' H.
  - destruct i; simpl in H; injection H as <-; constructor.
  - destruct i as [| i]; simpl in H.
    + destruct (existsb _ l); [discriminate |]. injection H as <-.
      constructor; [repeat split | apply Forall2_sameButRotation_refl].
    + destruct (streq _ tok); [discriminate |].
      destruct (authController.saveRotated i tok t l) as [l0 |] eqn:Hs; [| discriminate].
      injection H as <-. constructor; [repeat split | eapply IH; eauto].
Qed.

(** What a call of [refreshToken] does to the database: nothing, or the
    rotation of the session found for the presented token. *)
Lemma refreshToken_effect (env : Env) (tok : option string) (db : DB) :
  let out := authController.refreshToken env tok db in
  (success (fst out) = false /\ snd out = db)
  \/ (exists old i s user,
        present tok = Some old
        /\ authController.findIndex (authController.activeWithToken old (now env))
                                    (sessions db) = Some i
        /\ nth_error (sessions db) i = Some s
        /\ authController.activeWithToken old (now env) s = true
        /\ authController.saveRotated i
             (jwt.refreshToken (generateTokenPair env user (now env)))
             (now env) (sessions db) = Some (sessions (snd out))
        /\ users (snd out) = users db
        /\ devices (snd out) = devices db
        /\ securityLogs (snd out) = securityLogs db
        /\ success (fst out) = true
        /\ data (fst out) = Some (generateTokenPair env user (now env))).
Proof.
  unfold authController.refreshToken.
  destruct (present tok) as [old |] eqn:Hp; [| left; split; reflexivity].
  destruct (verifyRefreshToken env old) as [decoded |]; [| left; split; reflexivity].
  destruct (authController.findIndex _ (sessions db)) as [i |] eqn:Hi;
    [| left; split; reflexivity].
  destruct (findUserById _ db) as [user |]; [| left; split; reflexivity].
  destruct (User.isAccountLocked (now env) user); [left; split; reflexivity |].
  destruct (authController.saveRotated i _ (now env) (sessions db)) as [l' |] eqn:Hs;
    [| left; split; reflexivity].
  right. destruct (findIndex_Some _ _ _ Hi) as [s [Hn Hact]].
  exists old, i, s, user. cbn [fst snd]. repeat split; try assumption; reflexivity.
Qed.

Lemma activeWithToken_spec (tok : string) (t : Time) (s : Session.ISession) :
  authController.activeWithToken tok t s = true <->
  Session.refreshToken s = tok /\ Session.isActive s = true /\ t < Session.expiresAt s.
Proof.
  unfold authController.activeWithToken, streq.
  rewrite !andb_true_iff, String.eqb_eq, Z.ltb_lt. tauto.
Qed.

Lemma unique_token_index (l : list Session.ISession) (i j : nat)
    (a b : Session.ISession) :
  NoDup (map Session.refreshToken l) ->
  nth_error l i = Some a -> nth_error l j = Some b ->
  Session.refreshToken a = Session.refreshToken b -> i = j.
Proof.
  intros Hnd Ha Hb Heq.
  apply (proj1 (NoDup_nth_error (map Session.refreshToken l)) Hnd).
  - rewrite length_map. apply nth_error_Some. congruence.
  - rewrite (map_nth_error _ _ _ Ha), (map_nth_error _ _ _ Hb). congruence.
Qed.

(** After a rotation no stored session carries the old token. *)
Lemma rotation_drops_old_token (env : Env) (old : string) (db : DB)
    (new : jwt.TokenPair) :
  uniqueTokens db ->
  success (fst (authController.refreshToken env (Some old) db)) = true ->
  data (fst (authController.refreshToken env (Some old) db)) = Some new ->
  jwt.refreshToken new <> old ->
  forall s, In s (sessions (snd (authController.refreshToken env (Some old) db))) ->
            Session.refreshToken s <> old.
Proof.
  intros Hu Hok Hdata Hne s' Hin.
  destruct (refreshToken_effect env (Some old) db) as [[Hf _] | Hrot].
  { rewrite Hok in Hf. discriminate. }
  destruct Hrot as (old0 & i & s & user & Hp & Hi & Hn & Hact & Hsave & _ & _ & _ & _ & Hd).
  assert (old0 = old) as ->.
  { unfold present in Hp. destruct (truthy old); congruence. }
  rewrite Hdata in Hd. injection Hd as Hd. rewrite <- Hd in Hsave.
  destruct (saveRotated_Some _ _ _ _ _ _ Hsave Hn) as [Hat [Hother [_ _]]].
  apply activeWithToken_spec in Hact. destruct Hact as [Htok _].
  apply In_nth_error in Hin. destruct Hin as [j Hj].
  destruct (Nat.eq_dec j i) as [-> | Hji].
  - rewrite Hat in Hj. injection Hj as <-. exact Hne.
  - rewrite (Hother j Hji) in Hj. intros Heq. apply Hji.
    eapply unique_token_index; eauto. congruence.
Qed.

(** The query of [refreshToken] and the look-up of an active session by
    its token select by the same filter: the handler passes its session
    check exactly when the look-up at the handler's clock returns a
    session. *)
Lemma refreshToken_lookup (env : Env) (tok : string) (db : DB) :
  let out := authController.refreshToken env (Some tok) db in
  (success (fst out) = true ->
   exists s, authController.findActiveByRefreshToken tok (now env) (sessions db)
             = Some s)
  /\ (authController.findActiveByRefreshToken tok (now env) (sessions db) = None ->
      success (fst out) = false
      /\ snd out = db
      /\ (statusCode (fst out) = 400 \/ statusCode (fst out) = 401)
      /\ (truthy tok = true -> verifyRefreshToken env tok <> None ->
          fst out = reply 401 false "Session expired or invalid")).
Proof.
  cbv zeta. unfold authController.findActiveByRefreshToken.
  unfold authController.refreshToken, present.
  destruct (truthy tok) eqn:Ht.
  2: { split; [discriminate |]. intros _. cbn.
       repeat split; auto; discriminate. }
  destruct (verifyRefreshToken env tok) as [decoded |] eqn:Hv.
  2: { split; [discriminate |]. intros _. cbn.
       repeat split; auto. intros _ H. now contradiction H. }
  destruct (authController.findIndex _ (sessions db)) as [i |] eqn:Hi.
  - split.
    + intros _. destruct (find _ (sessions db)) as [s |] eqn:Hf; [now exists s |].
      apply findIndex_find_None in Hf. congruence.
    + intros Hf. apply findIndex_find_None in Hf. congruence.
  - split; [discriminate |]. intros _. cbn. repeat split; auto.
Qed.

(** C2. For every database with unique refresh tokens and every
    successful refresh that replaces the presented token by a different one:
    afterwards the look-up of an active session by the old token finds
    nothing, at any time, and every later refresh request with the old token
    is answered 401 and changes nothing.  The refresh operation succeeds
    only when the look-up of an active session by the presented token, at
    the time of the request, returns a session; when it returns none the
    request is refused and nothing is written.  So a request whose token is
    carried only by sessions that are revoked ([isActive] false) or whose
    [expiresAt] is not in the future is refused with 400 or 401.  The
    look-up only ever returns a session that carries the token, is active
    and expires later than the time of the look-up; an inactive session and
    a session whose [expiresAt] is not in the future are never returned. *)
Theorem refreshToken_old_token_rejected :
  (forall (env : Env) (old : string) (db : DB) (new : jwt.TokenPair),
      uniqueTokens db ->
      let out := authController.refreshToken env (Some old) db in
      success (fst out) = true ->
      data (fst out) = Some new ->
      jwt.refreshToken new <> old ->
      (forall t : Time,
          authController.findActiveByRefreshToken old t (sessions (snd out)) = None)
      /\ (forall env' : Env,
             let out' := authController.refreshToken env' (Some old) (snd out) in
             statusCode (fst out') = 401 /\ snd out' = snd out))
  /\ (forall (env : Env) (tok : string) (db : DB),
         let out := authController.refreshToken env (Some tok) db in
         (success (fst out) = true ->
          exists s,
            authController.findActiveByRefreshToken tok (now env) (sessions db)
            = Some s)
         /\ (authController.findActiveByRefreshToken tok (now env) (sessions db)
             = None ->
             success (fst out) = false
             /\ snd out = db
             /\ (statusCode (fst out) = 400 \/ statusCode (fst out) = 401)
             /\ (truthy tok = true -> verifyRefreshToken env tok <> None ->
                 fst out = reply 401 false "Session expired or invalid")))
  /\ (forall (env : Env) (tok : string) (db : DB),
         (forall s, In s (sessions db) -> Session.refreshToken s = tok ->
                    Session.isActive s = false
                    \/ Session.expiresAt s <= now env) ->
         let out := authController.refreshToken env (Some tok) db in
         success (fst out) = false
         /\ snd out = db
         /\ (statusCode (fst out) = 400 \/ statusCode (fst out) = 401)
         /\ (truthy tok = true -> verifyRefreshToken env tok <> None ->
             fst out = reply 401 false "Session expired or invalid"))
  /\ (forall (tok : string) (t : Time) (l : list Session.ISession)
             (s : Session.ISession),
         authController.findActiveByRefreshToken tok t l = Some s ->
         In s l /\ Session.refreshToken s = tok
         /\ Session.isActive s = true /\ t < Session.expiresAt s)
  /\ (forall (tok : string) (t : Time) (l : list Session.ISession)
             (s : Session.ISession),
         Session.isActive s = false \/ Session.expiresAt s <= t ->
         authController.findActiveByRefreshToken tok t l <> Some s).
Proof.
  split; [| split; [| split; [| split]]].
  - intros env old db new Hu out Hok Hdata Hne.
    assert (Hnone : forall t, authController.findActiveByRefreshToken old t
                                (sessions (snd out)) = None).
    { intros t. unfold authController.findActiveByRefreshToken.
      destruct (find _ _) as [s |] eqn:Hf; [| reflexivity].
      apply find_some in Hf. destruct Hf as [Hin Hact].
      apply activeWithToken_spec in Hact. destruct Hact as [Htok _].
      exfalso. exact (rotation_drops_old_token env old db new Hu Hok Hdata Hne s Hin Htok). }
    split; [exact Hnone |].
    intros env' out'. subst out'. unfold authController.refreshToken at 1 2.
    assert (Hp : present (Some old) = Some old).
    { destruct (refreshToken_effect env (Some old) db) as [[Hf _] | Hrot].
      - fold out in Hf. rewrite Hok in Hf. discriminate.
      - destruct Hrot as (old0 & _ & _ & _ & Hp & _). unfold present in *.
        destruct (truthy old); congruence. }
    rewrite Hp.
    destruct (verifyRefreshToken env' old); [| split; reflexivity].
    specialize (Hnone (now env')).
    apply findIndex_find_None in Hnone. rewrite Hnone. split; reflexivity.
  - intros env tok db. apply refreshToken_lookup.
  - intros env tok db Hbad.
    apply (proj2 (refreshToken_lookup env tok db)).
    unfold authController.findActiveByRefreshToken.
    destruct (find _ (sessions db)) as [s |] eqn:Hf; [| reflexivity].
    apply find_some in Hf. destruct Hf as [Hin Hact].
    apply activeWithToken_spec in Hact. destruct Hact as [Htok [Ha He]].
    destruct (Hbad s Hin Htok) as [Hi | Hx]; [congruence | lia].
  - intros tok t l s Hf. apply find_some in Hf. destruct Hf as [Hin Hact].
    apply activeWithToken_spec in Hact. tauto.
  - intros tok t l s Hbad Hf. apply find_some in Hf. destruct Hf as [_ Hact].
    apply activeWithToken_spec in Hact. destruct Hact as [_ [Ha He]].
    destruct Hbad as [Hi | Hx]; [congruence | lia].
Qed.

(** Witness: the session of a login at 5 seconds, refreshed at 7 seconds;
    the same session presented after its owner has revoked it, and
    presented seven days after the login, when it has expired. *)
Lemma refreshToken_old_token_rejected_witness :
  let out := authController.refreshToken (Fixtures.envAt 7000 true)
               (Some Scenario.firstToken) Scenario.loggedIn in
  (data (fst out) = Some (Fixtures.tokensFor Fixtures.alice 7000)
   /\ (forall t : Time,
          authController.findActiveByRefreshToken Scenario.firstToken t
            (sessions (snd out)) = None)
   /\ (forall env' : Env,
          let out' := authController.refreshToken env' (Some Scenario.firstToken)
                        (snd out) in
          statusCode (fst out') = 401 /\ snd out' = snd out))
  /\ authController.refreshToken (Fixtures.envAt 7000 true)
       (Some Scenario.firstToken) revokedFirst
     = (reply 401 false "Session expired or invalid", revokedFirst)
  /\ authController.refreshToken (Fixtures.envAt 604805000 true)
       (Some Scenario.firstToken) Scenario.loggedIn
     = (reply 401 false "Session expired or invalid", Scenario.loggedIn).
Proof.
  destruct refreshToken_old_token_rejected as [Hrot [_ [Hbad _]]].
  split; [split; [vm_compute; reflexivity |] | split].
  - refine (Hrot (Fixtures.envAt 7000 true)
              Scenario.firstToken Scenario.loggedIn
              (Fixtures.tokensFor Fixtures.alice 7000) _ _ _ _).
    + unfold uniqueTokens. vm_compute. constructor; [intros [] | constructor].
    + vm_compute. reflexivity.
    + vm_compute. reflexivity.
    + vm_compute. discriminate.
  - destruct (Hbad (Fixtures.envAt 7000 true) Scenario.firstToken revokedFirst)
      as (_ & Hdb & _ & Hfst).
    + intros s Hin _. left. vm_compute in Hin.
      destruct Hin as [<- | []]. reflexivity.
    + apply injective_projections; cbn [fst snd]; [| exact Hdb].
      apply Hfst; [reflexivity | vm_compute; discriminate].
  - destruct (Hbad (Fixtures.envAt 604805000 true) Scenario.firstToken
                Scenario.loggedIn) as (_ & Hdb & _ & Hfst).
    + intros s Hin _. right. vm_compute in Hin.
      destruct Hin as [<- | []]. vm_compute. discriminate.
    + apply injective_projections; cbn [fst snd]; [| exact Hdb].
      apply Hfst; [reflexivity | vm_compute; discriminate].
Defined.

(** The unique index is kept by both operations that write tokens. *)
Lemma saveRotated_unique (i : nat) (tok : string) (t : Time)
    (l l' : list Session.ISession) :
  authController.saveRotated i tok t l = Some l' ->
  NoDup (map Session.refreshToken l) -> NoDup (map Session.refreshToken l').
Proof.
  revert i l'. induction l as [| a l IH]; intros i l' H Hnd.
  - destruct i; simpl in H; injection H as <-; constructor.
  - destruct i as [| i]; simpl in H.
    + destruct (existsb _ l) eqn:He; [discriminate |]. injection H as <-.
      apply existsb_token_false in He. simpl. inversion Hnd; subst.
      constructor; assumption.
    + destruct (streq _ tok) eqn:Ha; [discriminate |].
      destruct (authController.saveRotated i tok t l) as [l0 |] eqn:Hs; [| discriminate].
      injection H as <-. simpl. inversion Hnd as [| x xs Hnotin Hnd']; subst.
      constructor; [| eapply IH; eauto].
      intros Hin. apply in_map_iff in Hin. destruct Hin as [s' [Heq Hin]].
      apply In_nth_error in Hin. destruct Hin as [j Hj].
      destruct (nth_error l i) as [s |] eqn:Hn.
      * destruct (saveRotated_Some _ _ _ _ _ _ Hs Hn) as [Hat [Hother _]].
        destruct (Nat.eq_dec j i) as [-> | Hji].
        -- rewrite Hat in Hj. injection Hj as <-. simpl in Heq.
           unfold streq in Ha. apply String.eqb_neq in Ha. congruence.
        -- rewrite (Hother j Hji) in Hj. apply Hnotin. apply in_map_iff.
           exists s'. split; [exact Heq | eapply nth_error_In; exact Hj].
      * assert (Hsame : map Session.refreshToken l0 = map Session.refreshToken l).
        { clear -Hs Hn. revert i l0 Hs Hn.
          induction l as [| b l IHl]; intros i l0 Hs Hn.
          - destruct i; simpl in Hs; injection Hs as <-; reflexivity.
          - destruct i as [| i]; simpl in Hs, Hn; [discriminate |].
            destruct (streq _ tok); [discriminate |].
            destruct (authController.saveRotated i tok t l) as [l1 |] eqn:Hs1;
              [| discriminate].
            injection Hs as <-. simpl. f_equal. eapply IHl; eauto. }
        apply Hnotin. rewrite <- Hsame. apply in_map_iff.
        exists s'. split; [exact Heq | eapply nth_error_In; exact Hj].
Qed.

Lemma refreshToken_keeps_uniqueTokens (env : Env) (tok : option string) (db : DB) :
  uniqueTokens db -> uniqueTokens (snd (authController.refreshToken env tok db)).
Proof.
  intros Hu. destruct (refreshToken_effect env tok db) as [[_ ->] | Hrot]; [exact Hu |].
  destruct Hrot as (old & i & s & user & _ & _ & _ & _ & Hsave & _).
  unfold uniqueTokens. eapply saveRotated_unique; eauto.
Qed.

(** ** The login handler, branch by branch *)

Lemma findIndex_streq_None (token : string) (codes : list string) :
  authController.findIndex (fun code => streq code token) codes = None ->
  ~ In token codes.
Proof.
  intros H Hin. pose proof (findIndex_None _ _ H token Hin) as Hf.
  unfold streq in Hf. rewrite String.eqb_refl in Hf. discriminate.
Qed.

Lemma loginRun_outcome (env : Env) (email password : string)
    (twoFactorToken : option string) (req : deviceParser.Request) (db : DB) :
  LoginOutcome env email password twoFactorToken req db
    (authController.loginRun env email password twoFactorToken req db).
Proof.
  unfold authController.loginRun.
  destruct (findUserByEmail (toLowerCase env email) db) as [user |] eqn:Hu;
    [| now apply login_unknown].
  destruct (User.isAccountLocked (now env) user) eqn:Hl;
    [now apply login_locked |].
  destruct (bcryptCompare env password (User.password user)) eqn:Hpw; cbn [negb];
    [| now apply login_wrong_password].
  destruct (User.twoFactorEnabled user) eqn:H2;
    [| apply login_accepted; auto].
  destruct (present twoFactorToken) as [token |] eqn:Hp;
    [| now apply login_token_required with (user := user)].
  cbv zeta.
  destruct (totpVerify env (User.twoFactorSecret (User.selectPassword user)) token
              (now env)) eqn:Ht; cbn.
  - apply login_accepted; auto. right. exists token. auto.
  - now apply login_token_rejected with (user := user) (token := token).
Qed.

Lemma logSecurityEvent_frame (env : Env) (userId email : option string)
    (action : string) (req : deviceParser.Request) (st : SecurityLog.Status)
    (details : option string) (db : DB) :
  let db' := auth.logSecurityEvent env userId email action req st details db in
  users db' = users db /\ sessions db' = sessions db /\ devices db' = devices db.
Proof.
  unfold auth.logSecurityEvent. destruct (has _ action); repeat split.
Qed.

Lemma checkSuspiciousLogin_frame (env : Env) (userId : string)
    (req : deviceParser.Request) (db : DB) :
  let db' := snd (suspiciousActivity.checkSuspiciousLogin env userId req db) in
  users db' = users db /\ sessions db' = sessions db /\ devices db' = devices db.
Proof.
  unfold suspiciousActivity.checkSuspiciousLogin.
  destruct (findUserById userId db); [| repeat split].
  cbn [snd]. destruct (50 <=? _); repeat split.
Qed.

Lemma completeLogin_effect (env : Env) (user : User.IUser)
    (req : deviceParser.Request) (b : bool) (db : DB) :
  let run := authController.completeLogin env user req b db in
  authController.backupCodeUsed run = b
  /\ users (authController.database run)
     = users (updateUser (User._id user)
                (User.setLastLogin (Some (now env))
                   (Some (deviceParser.ipAddress (deviceParser.parseDeviceInfo req))))
                (updateUser (User._id user) User.resetLoginAttempts db))
  /\ ((success (authController.response run) = false
       /\ sessions (authController.database run) = sessions db)
      \/ (success (authController.response run) = true
          /\ ~ In (Session.refreshToken (sessionOfLogin env user req))
                  (map Session.refreshToken (sessions db))
          /\ sessions (authController.database run)
             = sessions db ++ [sessionOfLogin env user req])).
Proof.
  unfold authController.completeLogin.
  set (db1 := updateUser (User._id user) _ (updateUser (User._id user) _ db)).
  destruct (checkSuspiciousLogin_frame env (User._id user) req db1) as [Hu [Hs Hd]].
  set (db2 := snd (suspiciousActivity.checkSuspiciousLogin env (User._id user) req db1)) in *.
  unfold authController.createSession.
  cbn [sessions withDevices].
  change (Session.mkSession (User._id user)
            (jwt.refreshToken (generateTokenPair env user (now env)))
            (deviceParser.parseDeviceInfo req) true (now env)
            (plusDays env (now env) 7) (now env))
    with (sessionOfLogin env user req).
  destruct (existsb _ (sessions db2)) eqn:He.
  - cbn [authController.backupCodeUsed authController.database
         authController.response success reply users sessions withDevices].
    split; [reflexivity | split; [exact Hu |]].
    left. split; [reflexivity | exact Hs].
  - apply existsb_token_false in He.
    match goal with
    | |- context [auth.logSecurityEvent ?e ?u ?m ?a ?r ?st ?d ?x] =>
        destruct (logSecurityEvent_frame e u m a r st d x) as [Lu [Ls Ld]]
    end.
    cbn [authController.backupCodeUsed authController.database authController.response
         success].
    rewrite Lu, Ls. cbn [users sessions withSessions withDevices].
    split; [reflexivity | split; [exact Hu |]]. right.
    rewrite Hs in He |- *. split; [reflexivity | split; [exact He | reflexivity]].
Qed.

Lemma loginRun_sessions (env : Env) (email password : string)
    (twoFactorToken : option string) (req : deviceParser.Request) (db : DB) :
  let run := authController.loginRun env email password twoFactorToken req db in
  (success (authController.response run) = false
   /\ sessions (authController.database run) = sessions db)
  \/ (success (authController.response run) = true
      /\ exists user,
           ~ In (Session.refreshToken (sessionOfLogin env user req))
                (map Session.refreshToken (sessions db))
           /\ sessions (authController.database run)
              = sessions db ++ [sessionOfLogin env user req]).
Proof.
  cbv zeta.
  destruct (loginRun_outcome env email password twoFactorToken req db);
    try (left; split; [reflexivity |];
         cbn [authController.database];
         try match goal with
             | |- context [auth.logSecurityEvent ?e ?u ?m ?a ?r ?st ?d ?x] =>
                 destruct (logSecurityEvent_frame e u m a r st d x) as [_ [-> _]]
             end;
         reflexivity).
  destruct (completeLogin_effect env user req false db)
    as [_ [_ [[Hf Hs] | [Ht [Hn Hs]]]]].
  - left. split; [exact Hf | exact Hs].
  - right. split; [exact Ht |]. eexists. split; [exact Hn | exact Hs].
Qed.

Lemma loginRun_keeps_uniqueTokens (env : Env) (email password : string)
    (twoFactorToken : option string) (req : deviceParser.Request) (db : DB) :
  uniqueTokens db ->
  uniqueTokens (authController.database
                  (authController.loginRun env email password twoFactorToken req db)).
Proof.
  intros Hu. unfold uniqueTokens in *.
  destruct (loginRun_sessions env email password twoFactorToken req db)
    as [[_ ->] | [_ [user [Hn ->]]]]; [exact Hu |].
  rewrite map_app. simpl.
  apply NoDup_app; repeat split.
  - exact Hu.
  - constructor; [intros [] | constructor].
  - intros a Ha [<- | []]. exact (Hn Ha).
Qed.

Lemma sameButRotation_trans (a b c : Session.ISession) :
  sameButRotation a b -> sameButRotation b c -> sameButRotation a c.
Proof.
  unfold sameButRotation. intros (H1 & H2 & H3 & H4 & H5) (K1 & K2 & K3 & K4 & K5).
  repeat split; congruence.
Qed.

Lemma Forall2_sameButRotation_trans (l1 l2 l3 : list Session.ISession) :
  Forall2 sameButRotation l1 l2 -> Forall2 sameButRotation l2 l3 ->
  Forall2 sameButRotation l1 l3.
Proof.
  intros H. revert l3. induction H as [| a b l1 l2 Hab _ IH]; intros l3 H23.
  - inversion H23. constructor.
  - inversion H23 as [| b' c l2' l3' Hbc Hrest]; subst.
    constructor; [eapply sameButRotation_trans; eauto | now apply IH].
Qed.

Lemma Forall2_nth {A : Type} (R : A -> A -> Prop) (l l' : list A) (i : nat) (a : A) :
  Forall2 R l l' -> nth_error l i = Some a ->
  exists b, nth_error l' i = Some b /\ R a b.
Proof.
  intros H. revert i. induction H as [| x y l l' Hxy _ IH]; intros i Hn.
  - destruct i; discriminate.
  - destruct i as [| i]; simpl in *.
    + injection Hn as <-. exists y. split; [reflexivity | exact Hxy].
    + now apply IH.
Qed.

Lemma refreshToken_frame (env : Env) (tok : option string) (db : DB) :
  let db' := snd (authController.refreshToken env tok db) in
  users db' = users db /\ devices db' = devices db
  /\ securityLogs db' = securityLogs db
  /\ Forall2 sameButRotation (sessions db) (sessions db').
Proof.
  cbv zeta. destruct (refreshToken_effect env tok db) as [[_ ->] | Hrot].
  - repeat split. apply Forall2_sameButRotation_refl.
  - destruct Hrot as (old & i & s & user & _ & _ & _ & _ & Hsave & Hu & Hd & Hl & _).
    repeat split; try assumption. eapply saveRotated_frame; eauto.
Qed.

Lemma refreshes_frame (calls : list RefreshCall) (db : DB) :
  Forall2 sameButRotation (sessions db) (sessions (refreshes calls db)).
Proof.
  revert db. induction calls as [| [env tok] calls IH]; intros db; simpl.
  - apply Forall2_sameButRotation_refl.
  - eapply Forall2_sameButRotation_trans; [| apply IH].
    apply refreshToken_frame.
Qed.

Lemma findIndex_first {A : Type} (p : A -> bool) (l : list A) (i : nat) (a : A) :
  nth_error l i = Some a -> p a = true ->
  exists j, authController.findIndex p l = Some j.
Proof.
  revert i. induction l as [| x l IH]; intros i Hn Hp.
  - destruct i; discriminate.
  - simpl. destruct (p x) eqn:Hx; [eexists; reflexivity |].
    destruct i as [| i]; simpl in Hn; [congruence |].
    destruct (IH i Hn Hp) as [j ->]. eexists; reflexivity.
Qed.

(** C10. (1) A refresh changes nothing but the refresh token and the
    last-activity time stamp of stored sessions: users, devices and the
    security log are untouched, and every session keeps its owner, device
    metadata, active flag, [expiresAt] and [createdAt].  (2) A successful
    login appends one active session, created now and expiring 7 days later.
    (3) After any sequence of refresh requests that session still expires 7
    days after its creation.  (4) From its [expiresAt] on a session is never
    rotated again, and (5) before it an active session is found by its
    current token. *)
Theorem refresh_never_extends_session :
  (forall (env : Env) (tok : option string) (db : DB),
      let db' := snd (authController.refreshToken env tok db) in
      users db' = users db /\ devices db' = devices db
      /\ securityLogs db' = securityLogs db
      /\ Forall2 sameButRotation (sessions db) (sessions db'))
  /\ (forall (env : Env) (email password : string) (tok : option string)
             (req : deviceParser.Request) (db : DB),
         let run := authController.loginRun env email password tok req db in
         success (authController.response run) = true ->
         exists s, sessions (authController.database run) = sessions db ++ [s]
                   /\ Session.isActive s = true
                   /\ Session.createdAt s = now env
                   /\ Session.expiresAt s = plusDays env (now env) 7)
  /\ (forall (env : Env) (email password : string) (tok : option string)
             (req : deviceParser.Request) (db : DB) (calls : list RefreshCall),
         let run := authController.loginRun env email password tok req db in
         success (authController.response run) = true ->
         exists s, nth_error (sessions (refreshes calls (authController.database run)))
                             (List.length (sessions db)) = Some s
                   /\ Session.createdAt s = now env
                   /\ Session.expiresAt s = plusDays env (now env) 7)
  /\ (forall (env : Env) (tok : option string) (db : DB) (i : nat)
             (s : Session.ISession),
         nth_error (sessions db) i = Some s ->
         Session.expiresAt s <= now env ->
         nth_error (sessions (snd (authController.refreshToken env tok db))) i = Some s)
  /\ (forall (env : Env) (db : DB) (i : nat) (s : Session.ISession),
         uniqueTokens db ->
         nth_error (sessions db) i = Some s ->
         Session.isActive s = true ->
         now env < Session.expiresAt s ->
         authController.findIndex
           (authController.activeWithToken (Session.refreshToken s) (now env))
           (sessions db) = Some i).
Proof.
  split; [| split; [| split; [| split]]].
  - intros env tok db. apply refreshToken_frame.
  - intros env email password tok req db run Hok. subst run.
    destruct (loginRun_sessions env email password tok req db)
      as [[Hf _] | [_ [user [_ Hs]]]]; [congruence |].
    exists (sessionOfLogin env user req). split; [exact Hs | repeat split].
  - intros env email password tok req db calls run Hok. subst run.
    destruct (loginRun_sessions env email password tok req db)
      as [[Hf _] | [_ [user [_ Hs]]]]; [congruence |].
    pose proof (refreshes_frame calls
                  (authController.database
                     (authController.loginRun env email password tok req db))) as Hfr.
    assert (Hn : nth_error (sessions (authController.database
                   (authController.loginRun env email password tok req db)))
                   (List.length (sessions db)) = Some (sessionOfLogin env user req)).
    { rewrite Hs, nth_error_app2 by lia. now rewrite Nat.sub_diag. }
    destruct (Forall2_nth _ _ _ _ _ Hfr Hn) as [s' [Hn' (_ & _ & _ & He & Hc)]].
    exists s'. split; [exact Hn' |]. split; [exact Hc | exact He].
  - intros env tok db i s Hn Hexp.
    destruct (refreshToken_effect env tok db) as [[_ ->] | Hrot]; [exact Hn |].
    destruct Hrot as (old & j & s0 & user & _ & _ & Hj & Hact & Hsave & _).
    destruct (saveRotated_Some _ _ _ _ _ _ Hsave Hj) as [_ [Hother _]].
    destruct (Nat.eq_dec i j) as [-> | Hij].
    + apply activeWithToken_spec in Hact. assert (s0 = s) by congruence. subst. lia.
    + rewrite (Hother i Hij). exact Hn.
  - intros env db i s Hu Hn Ha He.
    assert (Hp : authController.activeWithToken (Session.refreshToken s) (now env) s = true).
    { apply activeWithToken_spec. auto. }
    destruct (findIndex_first _ _ _ _ Hn Hp) as [j Hj].
    destruct (findIndex_Some _ _ _ Hj) as [x [Hx Hpx]].
    apply activeWithToken_spec in Hpx. destruct Hpx as [Htok _].
    rewrite Hj. f_equal. eapply unique_token_index; eauto.
Qed.

(** Witness: a login at 5 seconds, a refresh at 7 seconds. *)
Lemma refresh_never_extends_session_witness :
  exists s,
    nth_error (sessions (refreshes [(Fixtures.envAt 7000 true, Some Scenario.firstToken)]
                                   Scenario.loggedIn)) 0 = Some s
    /\ Session.createdAt s = 5000
    /\ Session.expiresAt s = 5000 + 7 * 24 * 60 * 60 * 1000.
Proof.
  refine (proj1 (proj2 (proj2 refresh_never_extends_session))
            (Fixtures.envAt 5000 true) "alice@example.com" "correct horse" None
            Fixtures.chromeDesktop (Fixtures.dbOf [Fixtures.alice])
            [(Fixtures.envAt 7000 true, Some Scenario.firstToken)] _).
  vm_compute. reflexivity.
Defined.

(** ** Second factor and lockout *)

Lemma findIndex_streq_Some (token : string) (codes : list string) (i : nat) :
  authController.findIndex (fun code => streq code token) codes = Some i ->
  nth_error codes i = Some token.
Proof.
  intros H. destruct (findIndex_Some _ _ _ H) as [x [Hn Hx]].
  unfold streq in Hx. apply String.eqb_eq in Hx. now subst.
Qed.

Lemma findUserByEmail_users (e : string) (db db' : DB) :
  users db' = users db -> findUserByEmail e db' = findUserByEmail e db.
Proof. unfold findUserByEmail. now intros ->. Qed.

Lemma login_failedSecondFactor (c : LoginCall) (db : DB) :
  failedSecondFactor c db ->
  success (authController.response (runLogin c db)) = false
  /\ authController.backupCodeUsed (runLogin c db) = false
  /\ users (authController.database (runLogin c db)) = users db.
Proof.
  intros (user & Hu & H2 & Hpw & Htok). unfold runLogin.
  destruct (loginRun_outcome (call_env c) (call_email c) (call_password c)
              (call_twoFactorToken c) (call_req c) db)
    as [Hn | u Hn Hl | u Hn Hl Hp | u Hn Hl Hp He Ht | u t Hn Hl Hp He Ht Hv
        | u Hn Hl Hp Hacc];
    try (assert (u = user) by congruence; subst u).
  - congruence.
  - cbn [authController.response authController.backupCodeUsed
         authController.database success reply].
    repeat split; apply logSecurityEvent_frame.
  - congruence.
  - repeat split.
  - cbn [authController.response authController.backupCodeUsed
         authController.database success reply].
    repeat split; apply logSecurityEvent_frame.
  - exfalso. destruct Hacc as [Hoff | (t & Hsome & Hv)]; [congruence |].
    destruct Htok as [Hnone | (t' & Hsome' & Hv' & _)]; congruence.
Qed.

Lemma Forall2_map_right {A : Type} (R : A -> A -> Prop) (g : A -> A) (l : list A) :
  (forall a, R a (g a)) -> Forall2 R l (map g l).
Proof. intros H. induction l; simpl; constructor; auto. Qed.

Lemma completeLogin_lockout (env : Env) (user : User.IUser)
    (req : deviceParser.Request) (b : bool) (db : DB) :
  Forall2 keptOrReset (users db)
          (users (authController.database (authController.completeLogin env user req b db))).
Proof.
  destruct (completeLogin_effect env user req b db) as [_ [-> _]].
  cbn [users updateUser withUsers]. rewrite map_map.
  apply Forall2_map_right. intros u.
  destruct (streq (User._id u) (User._id user)) eqn:E.
  - cbn [User._id User.resetLoginAttempts User.setLockout]. rewrite E.
    right. reflexivity.
  - rewrite E. left. reflexivity.
Qed.

Lemma Forall2_keptOrReset_same (l l' : list User.IUser) :
  l' = l -> Forall2 keptOrReset l l'.
Proof.
  intros ->. induction l; constructor; [left; reflexivity | assumption].
Qed.

(** C9. A login request with the right password of a user with two-factor
    authentication and a missing or wrong code fails and leaves every stored
    user as it was, so [loginAttempts], [lockUntil] and [isLocked] are not
    modified; any sequence of such requests leaves all users as they were,
    so none of them locks an account.  Every login request that is not
    answered for a wrong password leaves the lockout fields of each user as
    they were or cleared: only wrong passwords feed the counter. *)
Theorem failed_second_factor_keeps_lockout :
  (forall (c : LoginCall) (db : DB),
      failedSecondFactor c db ->
      success (authController.response (runLogin c db)) = false
      /\ users (authController.database (runLogin c db)) = users db)
  /\ (forall (calls : list LoginCall) (db : DB),
         Forall (fun c => failedSecondFactor c db) calls ->
         users (logins calls db) = users db
         /\ forall (id : string) (t : Time),
              option_map (fun u => (lockoutState u, User.isAccountLocked t u))
                         (findUserById id (logins calls db))
              = option_map (fun u => (lockoutState u, User.isAccountLocked t u))
                           (findUserById id db))
  /\ (forall (c : LoginCall) (db : DB),
         (forall user,
             findUserByEmail (toLowerCase (call_env c) (call_email c)) db = Some user ->
             User.isAccountLocked (now (call_env c)) user = false ->
             bcryptCompare (call_env c) (call_password c) (User.password user) = true) ->
         Forall2 keptOrReset (users db) (users (authController.database (runLogin c db)))).
Proof.
  split; [| split].
  - intros c db H. destruct (login_failedSecondFactor c db H) as [Hs [_ Hu]]. now split.
  - intros calls db H.
    assert (Hus : users (logins calls db) = users db).
    { assert (G : forall db', users db' = users db -> users (logins calls db') = users db).
      { induction H as [| c calls Hc _ IH]; intros db' Hdb'; simpl; [exact Hdb' |].
        apply IH.
        assert (Hc' : failedSecondFactor c db').
        { destruct Hc as (user & Hu & Hrest). exists user.
          split; [| exact Hrest].
          rewrite <- Hu. now apply findUserByEmail_users. }
        destruct (login_failedSecondFactor c db' Hc') as [_ [_ Hu']]. congruence. }
      now apply G. }
    split; [exact Hus |]. intros id t. unfold findUserById. now rewrite Hus.
  - intros c db Hpw. unfold runLogin.
    destruct (loginRun_outcome (call_env c) (call_email c) (call_password c)
                (call_twoFactorToken c) (call_req c) db)
      as [Hn | u Hn Hl | u Hn Hl Hp | u Hn Hl Hp He Ht | u t Hn Hl Hp He Ht Hv
          | u Hn Hl Hp Hacc].
    + apply Forall2_keptOrReset_same. apply logSecurityEvent_frame.
    + apply Forall2_keptOrReset_same. apply logSecurityEvent_frame.
    + specialize (Hpw u Hn Hl). congruence.
    + apply Forall2_keptOrReset_same. reflexivity.
    + apply Forall2_keptOrReset_same. apply logSecurityEvent_frame.
    + apply completeLogin_lockout.
Qed.

(** Witness: Alice, with two-factor authentication, sends the right
    password and the code 123456, which the verifier does not accept. *)
Lemma failed_second_factor_keeps_lockout_witness :
  let db := Fixtures.dbOf [Fixtures.alice2FA ["A1B2C3D4"]] in
  let run := runLogin (Scenario.aliceCall 1000 (Some "123456")) db in
  authController.response run
    = reply 401 false "Invalid two-factor authentication code"
  /\ success (authController.response run) = false
  /\ users (authController.database run) = users db.
Proof.
  split; [vm_compute; reflexivity |].
  apply (proj1 failed_second_factor_keeps_lockout
           (Scenario.aliceCall 1000 (Some "123456"))
           (Fixtures.dbOf [Fixtures.alice2FA ["A1B2C3D4"]])).
  exists (Fixtures.alice2FA ["A1B2C3D4"]).
  split; [vm_compute; reflexivity |].
  split; [reflexivity |].
  split; [vm_compute; reflexivity |].
  right. exists "123456".
  split; [vm_compute; reflexivity |].
  split; [vm_compute; reflexivity |].
  intros codes Hc. discriminate Hc.
Defined.

(** ** Backup codes *)







(* ================================================================== *)
(** * Further properties *)
(* ================================================================== *)

(** ** Password strength: range, floor and ceiling of the score *)

Lemma score_sum (p : JS.jsstring) :
  passwordStrength.score (passwordStrength.checkPasswordStrength p) =
    points (8 <=? JS.length p) 20
    + points (12 <=? JS.length p) 10
    + points (16 <=? JS.length p) 10
    + points (passwordStrength.test passwordStrength.isUpper p) 15
    + points (passwordStrength.test passwordStrength.isLower p) 15
    + points (passwordStrength.test passwordStrength.isDigit p) 15
    + points (passwordStrength.test passwordStrength.isSpecial p) 15
    + points (negb (passwordStrength.isCommonPassword p)) 10.
Proof.
  unfold passwordStrength.checkPasswordStrength.
  cbn [passwordStrength.score passwordStrength.req_uppercase
       passwordStrength.req_lowercase passwordStrength.req_number
       passwordStrength.req_special passwordStrength.req_common].
  unfold passwordStrength.addIf, points.
  destruct (8 <=? JS.length p), (12 <=? JS.length p), (16 <=? JS.length p),
    (passwordStrength.test passwordStrength.isUpper p),
    (passwordStrength.test passwordStrength.isLower p),
    (passwordStrength.test passwordStrength.isDigit p),
    (passwordStrength.test passwordStrength.isSpecial p),
    (negb (passwordStrength.isCommonPassword p)); reflexivity.
Qed.

Lemma strength_band (p : JS.jsstring) :
  passwordStrength.strength (passwordStrength.checkPasswordStrength p)
  = passwordStrength.band
      (passwordStrength.score (passwordStrength.checkPasswordStrength p)).
Proof. reflexivity. Qed.

(** X1. The score of every password lies between 0 and 110 and is a
    multiple of 5; it exceeds 100 (the upper end that the interface
    documents) exactly when it is 110, that is when the password has at
    least 16 code units, a letter of each case, a digit, a special character
    and is not on the deny list. *)
Theorem checkPasswordStrength_score_range (p : JS.jsstring) :
  let s := passwordStrength.score (passwordStrength.checkPasswordStrength p) in
  0 <= s <= 110
  /\ (exists k, s = 5 * k)
  /\ (100 < s <->
      16 <= JS.length p
      /\ passwordStrength.test passwordStrength.isUpper p = true
      /\ passwordStrength.test passwordStrength.isLower p = true
      /\ passwordStrength.test passwordStrength.isDigit p = true
      /\ passwordStrength.test passwordStrength.isSpecial p = true
      /\ passwordStrength.isCommonPassword p = false).
Proof.
  cbv zeta. rewrite score_sum. unfold points.
  destruct (Z.leb_spec 8 (JS.length p)), (Z.leb_spec 12 (JS.length p)),
    (Z.leb_spec 16 (JS.length p)); try lia;
  destruct (passwordStrength.test passwordStrength.isUpper p),
    (passwordStrength.test passwordStrength.isLower p),
    (passwordStrength.test passwordStrength.isDigit p),
    (passwordStrength.test passwordStrength.isSpecial p),
    (passwordStrength.isCommonPassword p); cbn [negb];
  (split; [lia |]);
  (split; [match goal with |- exists k, ?v = _ => exists (v / 5); reflexivity end |]);
  (split; [intros Hbig; try lia; repeat split; try reflexivity; lia
          | intros (K1 & K2 & K3 & K4 & K5 & K6); try discriminate; lia]).
Qed.

(** X2. A password of at least 8 code units with an upper-case letter, a
    lower-case letter and a digit (the shape that the request validation
    asks for) scores at least 65 and is never ranked weak, whether or not it
    is on the deny list. *)
Theorem validated_shape_never_weak (p : JS.jsstring) :
  8 <= JS.length p ->
  passwordStrength.test passwordStrength.isUpper p = true ->
  passwordStrength.test passwordStrength.isLower p = true ->
  passwordStrength.test passwordStrength.isDigit p = true ->
  65 <= passwordStrength.score (passwordStrength.checkPasswordStrength p)
  /\ passwordStrength.strength (passwordStrength.checkPasswordStrength p)
     <> passwordStrength.weak.
Proof.
  intros Hl Hu Hlo Hd.
  assert (Hs : 65 <= passwordStrength.score (passwordStrength.checkPasswordStrength p)).
  { rewrite score_sum, Hu, Hlo, Hd. unfold points.
    destruct (Z.leb_spec 8 (JS.length p)); [| lia].
    destruct (12 <=? JS.length p), (16 <=? JS.length p),
      (passwordStrength.test passwordStrength.isSpecial p),
      (negb (passwordStrength.isCommonPassword p)); lia. }
  split; [exact Hs |].
  rewrite strength_band. unfold passwordStrength.band.
  destruct (Z.ltb_spec
              (passwordStrength.score (passwordStrength.checkPasswordStrength p)) 40);
    [lia |].
  destruct (_ <? 60); [discriminate |].
  destruct (_ <? 80); [discriminate |].
  destruct (_ <? 90); discriminate.
Qed.

(** The deny-listed password [Password123] has that shape: it scores 65. *)
Lemma validated_shape_never_weak_witness :
  passwordStrength.isCommonPassword (JS.units "Password123") = true
  /\ 65 <= passwordStrength.score
             (passwordStrength.checkPasswordStrength (JS.units "Password123"))
  /\ passwordStrength.strength
       (passwordStrength.checkPasswordStrength (JS.units "Password123"))
     <> passwordStrength.weak.
Proof.
  split; [vm_compute; reflexivity |].
  apply (validated_shape_never_weak (JS.units "Password123")).
  - vm_compute. discriminate.
  - vm_compute. reflexivity.
  - vm_compute. reflexivity.
  - vm_compute. reflexivity.
Defined.

(** ** Password strength: the deny list *)

Lemma special_range (c : N) :
  passwordStrength.isSpecial c = true ->
  ((c < 65) \/ (90 < c /\ c < 97) \/ (122 < c /\ c < 8490))%N.
Proof.
  rewrite isSpecial_member. unfold passwordStrength.specialChars, JS.units.
  simpl. intros H.
  repeat (destruct H as [H | H]; [subst c; lia |]).
  contradiction.
Qed.

Lemma lowerUnit_special (c : N) :
  passwordStrength.isSpecial (JS.lowerUnit c) = passwordStrength.isSpecial c.
Proof.
  unfold JS.lowerUnit, JS.inRange.
  destruct (N.leb_spec 65 c); destruct (N.leb_spec c 90); cbn [andb];
    try (destruct (N.eqb_spec c 8490); [| reflexivity]).
  - destruct (passwordStrength.isSpecial c) eqn:E1.
    + apply special_range in E1. lia.
    + destruct (passwordStrength.isSpecial (c + 32)) eqn:E2; [| reflexivity].
      apply special_range in E2. lia.
  - subst c. vm_compute. reflexivity.
  - subst c. vm_compute. reflexivity.
  - subst c. vm_compute. reflexivity.
Qed.

Lemma toLowerCase_special (p : JS.jsstring) :
  passwordStrength.test passwordStrength.isSpecial (JS.toLowerCase p)
  = passwordStrength.test passwordStrength.isSpecial p.
Proof.
  unfold passwordStrength.test, JS.toLowerCase.
  induction p as [| c p IH]; simpl; [reflexivity |].
  now rewrite lowerUnit_special, IH.
Qed.

Lemma commonPasswords_plain :
  forall e, In e passwordStrength.commonPasswords ->
            JS.length e <= 11
            /\ passwordStrength.test passwordStrength.isSpecial e = false.
Proof.
  assert (H : forallb (fun e => (JS.length e <=? 11)
                                && negb (passwordStrength.test passwordStrength.isSpecial e))
                      passwordStrength.commonPasswords = true)
    by (vm_compute; reflexivity).
  intros e He. rewrite forallb_forall in H. specialize (H e He).
  apply andb_true_iff in H. destruct H as [H1 H2].
  apply Z.leb_le in H1. apply negb_true_iff in H2. now split.
Qed.

(** X3. A password on the deny list, in any casing, has at most 11 code
    units and no special character; it scores at most 65, so it is never
    ranked strong or very-strong. *)
Theorem common_password_never_strong (p : JS.jsstring) :
  passwordStrength.isCommonPassword p = true ->
  JS.length p <= 11
  /\ passwordStrength.test passwordStrength.isSpecial p = false
  /\ passwordStrength.score (passwordStrength.checkPasswordStrength p) <= 65
  /\ passwordStrength.strength (passwordStrength.checkPasswordStrength p)
     <> passwordStrength.strong
  /\ passwordStrength.strength (passwordStrength.checkPasswordStrength p)
     <> passwordStrength.very_strong.
Proof.
  intros Hc.
  pose proof (proj1 (isCommonPassword_spec p) Hc) as Hin.
  destruct (commonPasswords_plain _ Hin) as [Hlen Hsp].
  rewrite toLowerCase_special in Hsp.
  assert (Hl : JS.length p <= 11).
  { unfold JS.length, JS.toLowerCase in *. now rewrite length_map in Hlen. }
  assert (Hs : passwordStrength.score (passwordStrength.checkPasswordStrength p) <= 65).
  { rewrite score_sum, Hsp, Hc. unfold points. cbn [negb].
    destruct (Z.leb_spec 12 (JS.length p)); [lia |].
    destruct (Z.leb_spec 16 (JS.length p)); [lia |].
    destruct (8 <=? JS.length p),
      (passwordStrength.test passwordStrength.isUpper p),
      (passwordStrength.test passwordStrength.isLower p),
      (passwordStrength.test passwordStrength.isDigit p); lia. }
  repeat split; try assumption; rewrite strength_band; unfold passwordStrength.band;
    destruct (_ <? 40); try discriminate;
    destruct (_ <? 60); try discriminate;
    destruct (Z.ltb_spec
                (passwordStrength.score (passwordStrength.checkPasswordStrength p)) 80);
    try discriminate; lia.
Qed.

Lemma common_password_never_strong_witness :
  passwordStrength.score
    (passwordStrength.checkPasswordStrength (JS.units "PaSsWoRd123")) <= 65.
Proof.
  apply (common_password_never_strong (JS.units "PaSsWoRd123")).
  vm_compute. reflexivity.
Defined.

(** ** Password strength: the feedback *)

(** X4. The feedback holds one message per requirement of the breakdown
    that is not met; it is empty exactly when all six requirements are met,
    and then the password is ranked very-strong. *)
Theorem feedback_counts_unmet_requirements (p : JS.jsstring) :
  let r := passwordStrength.checkPasswordStrength p in
  List.length (passwordStrength.feedback r) = unmet (passwordStrength.requirements r)
  /\ (passwordStrength.feedback r = [] <->
      passwordStrength.requirements r
      = passwordStrength.mkRequirements true true true true true true)
  /\ (passwordStrength.feedback r = [] ->
      passwordStrength.strength r = passwordStrength.very_strong).
Proof.
  cbv zeta.
  assert (Hs := score_sum p). rewrite strength_band.
  revert Hs. unfold passwordStrength.checkPasswordStrength, unmet.
  cbn [passwordStrength.feedback passwordStrength.requirements passwordStrength.score
       passwordStrength.req_length passwordStrength.req_uppercase
       passwordStrength.req_lowercase passwordStrength.req_number
       passwordStrength.req_special passwordStrength.req_common].
  rewrite (Z.ltb_antisym 8 (JS.length p)).
  unfold passwordStrength.addIf, passwordStrength.pushIf, points.
  destruct (Z.leb_spec 8 (JS.length p)) as [H8 | H8];
    destruct (Z.leb_spec 12 (JS.length p)); destruct (Z.leb_spec 16 (JS.length p));
    try lia;
    destruct (passwordStrength.test passwordStrength.isUpper p),
      (passwordStrength.test passwordStrength.isLower p),
      (passwordStrength.test passwordStrength.isDigit p),
      (passwordStrength.test passwordStrength.isSpecial p),
      (passwordStrength.isCommonPassword p); cbn; intros _;
    (split; [reflexivity |]);
    (split; [split; intros E; try discriminate E; reflexivity |]);
    intros E; try discriminate E; reflexivity.
Qed.

(** ** Lockout: an invariant of the stored fields *)

Lemma recordFailure_consistent (t : Time) (u : User.IUser) :
  lockoutConsistent u -> lockoutConsistent (User.recordFailure t u).
Proof.
  intros (H0 & Hiff & H5).
  unfold User.recordFailure, User.incrementLoginAttempts,
    User.incrementLoginAttemptsWith, User.defaultMaxAttempts.
  destruct (User.lockExpired t u);
    [| destruct (Z.leb_spec 5 (User.loginAttempts u + 1)) as [Hge | Hlt];
       destruct (User.isLocked u) eqn:Hl; cbn [andb negb] ];
    unfold lockoutConsistent; cbn; rewrite ?Hl;
    (split; [lia |]); (split; [| intros Hk; try discriminate Hk; try lia]);
    try (specialize (H5 eq_refl); lia);
    try exact Hiff;
    split; intros H; try discriminate H; try reflexivity;
    try (now contradiction H); try discriminate.
Qed.

Lemma resetLoginAttempts_consistent (u : User.IUser) :
  lockoutConsistent (User.resetLoginAttempts u).
Proof.
  unfold lockoutConsistent. cbn. repeat split; try lia; try discriminate.
  intros H. now contradiction H.
Qed.

Lemma isAccountLocked_lockUntil (t : Time) (u : User.IUser) :
  User.isAccountLocked t u = true ->
  exists l, User.lockUntil u = Some l /\ t < l.
Proof.
  unfold User.isAccountLocked. destruct (User.lockUntil u) as [l |]; [| discriminate].
  intros H. exists l. split; [reflexivity | now apply Z.ltb_lt].
Qed.

(** X5. Whatever failures and successful logins follow one another, at
    whatever times, the lockout fields stay consistent: the counter is not
    negative, [isLocked] is set exactly when [lockUntil] is, and an account
    that login treats as locked has at least five counted failures. *)
Theorem lockout_fields_stay_consistent (events : list LockoutEvent) (u : User.IUser) :
  lockoutConsistent u ->
  lockoutConsistent (lockoutEvents events u)
  /\ forall t, User.isAccountLocked t (lockoutEvents events u) = true ->
               User.isLocked (lockoutEvents events u) = true
               /\ 5 <= User.loginAttempts (lockoutEvents events u).
Proof.
  intros Hu.
  assert (H : lockoutConsistent (lockoutEvents events u)).
  { revert u Hu. induction events as [| [t |] rest IH]; intros u Hu; cbn.
    - exact Hu.
    - apply IH. now apply recordFailure_consistent.
    - apply IH. apply resetLoginAttempts_consistent. }
  split; [exact H |].
  intros t Ht. destruct H as (_ & Hiff & H5).
  destruct (isAccountLocked_lockUntil _ _ Ht) as (l & Hl & _).
  assert (Hk : User.isLocked (lockoutEvents events u) = true)
    by (apply Hiff; rewrite Hl; discriminate).
  split; [exact Hk | now apply H5].
Qed.

Lemma lockout_fields_stay_consistent_witness :
  lockoutConsistent
    (lockoutEvents [FailedAt 10; FailedAt 5; Succeeded; FailedAt 7] Fixtures.alice).
Proof.
  apply (lockout_fields_stay_consistent
           [FailedAt 10; FailedAt 5; Succeeded; FailedAt 7] Fixtures.alice).
  unfold lockoutConsistent. cbn. repeat split; try lia; try discriminate.
  intros H. now contradiction H.
Defined.

(** X6. While a lock is set and its time has not passed, a recorded
    failure only counts: [lockUntil] is not pushed back.  At the instant
    [lockUntil] itself the account is no longer locked for login, yet the
    lock does not count as expired either, so a failure at that instant
    counts on from the old value instead of starting again at 1. *)
Theorem failure_never_extends_lock (t l : Time) (u : User.IUser) :
  User.lockUntil u = Some l ->
  User.isLocked u = true ->
  t <= l ->
  User.recordFailure t u
  = User.setLockout (User.loginAttempts u + 1) (Some l) true u
  /\ User.isAccountLocked l u = false
  /\ User.lockExpired l u = false.
Proof.
  intros Hl Hk Ht.
  assert (He : User.lockExpired t u = false).
  { unfold User.lockExpired. rewrite Hl. apply Z.ltb_ge. exact Ht. }
  split.
  - rewrite (recordFailure_counting t u He (or_intror Hk)). now rewrite Hl, Hk.
  - unfold User.isAccountLocked, User.lockExpired. rewrite Hl.
    now rewrite Z.ltb_irrefl.
Qed.

Lemma failure_never_extends_lock_witness :
  User.recordFailure 1800000 (lockedAlice 1800000)
  = User.setLockout 6 (Some 1800000) true (lockedAlice 1800000)
  /\ User.isAccountLocked 1800000 (lockedAlice 1800000) = false
  /\ User.lockExpired 1800000 (lockedAlice 1800000) = false.
Proof.
  apply (failure_never_extends_lock 1800000 1800000 (lockedAlice 1800000)).
  - reflexivity.
  - reflexivity.
  - lia.
Defined.

(** ** Login: refusals *)

Lemma streq_eq (a b : string) : streq a b = true <-> a = b.
Proof. unfold streq. apply String.eqb_eq. Qed.

Lemma streq_refl (a : string) : streq a a = true.
Proof. unfold streq. apply String.eqb_refl. Qed.

Lemma In_updateUser (id : string) (f : User.IUser -> User.IUser) (db : DB)
    (u' : User.IUser) :
  In u' (users (updateUser id f db)) ->
  exists u, In u (users db)
            /\ u' = (if streq (User._id u) id then f u else u).
Proof.
  unfold updateUser. cbn [users withUsers]. rewrite in_map_iff.
  intros (u & Hu & Hin). exists u. split; [exact Hin | now symmetry].
Qed.

(** X7. A login for an account whose lock is running is answered 403
    whatever password and second-factor code it carries, the right ones
    included; the request writes nothing but one failed-login entry of the
    audit log: the attempt is not counted and no session or device is
    created. *)
Theorem login_refuses_locked_account (env : Env) (email password : string)
    (twoFactorToken : option string) (req : deviceParser.Request) (db : DB)
    (user : User.IUser) :
  findUserByEmail (toLowerCase env email) db = Some user ->
  User.isAccountLocked (now env) user = true ->
  let out := authController.login env email password twoFactorToken req db in
  fst out
  = reply 403 false "Account is locked. Please try again later or reset your password."
  /\ users (snd out) = users db
  /\ sessions (snd out) = sessions db
  /\ devices (snd out) = devices db
  /\ exists entry,
       securityLogs (snd out) = securityLogs db ++ [entry]
       /\ SecurityLog.action entry = "login"
       /\ SecurityLog.status entry = SecurityLog.failure
       /\ SecurityLog.createdAt entry = now env.
Proof.
  intros Hu Hl. cbv zeta.
  unfold authController.login, authController.loginRun. rewrite Hu, Hl.
  cbn [authController.response authController.database fst snd].
  split; [reflexivity |].
  match goal with
  | |- context [auth.logSecurityEvent ?e ?u ?m ?a ?r ?st ?d ?x] =>
      destruct (logSecurityEvent_frame e u m a r st d x) as [Lu [Ls Ld]]
  end.
  split; [exact Lu |]. split; [exact Ls |]. split; [exact Ld |].
  unfold auth.logSecurityEvent.
  change (has SecurityLog.actionEnum "login") with true. cbv iota.
  eexists. cbn [securityLogs withLogs]. split; [reflexivity |].
  cbn. repeat split.
Qed.

Lemma login_refuses_locked_account_witness :
  fst (authController.login (Fixtures.envAt 1000 true) "alice@example.com"
         "correct horse" None Fixtures.chromeDesktop
         (Fixtures.dbOf [lockedAlice 1800000]))
  = reply 403 false "Account is locked. Please try again later or reset your password.".
Proof.
  apply (login_refuses_locked_account (Fixtures.envAt 1000 true) "alice@example.com"
           "correct horse" None Fixtures.chromeDesktop
           (Fixtures.dbOf [lockedAlice 1800000]) (lockedAlice 1800000)).
  - reflexivity.
  - reflexivity.
Defined.

(** X8. Login answers an address without account and a wrong password for
    an existing, unlocked account with the same response, and in both cases
    creates no session and registers no device. *)
Theorem login_unknown_address_and_wrong_password_alike
    (env : Env) (email password : string) (twoFactorToken : option string)
    (req : deviceParser.Request) (db : DB) :
  findUserByEmail (toLowerCase env email) db = None
  \/ (exists user,
        findUserByEmail (toLowerCase env email) db = Some user
        /\ User.isAccountLocked (now env) user = false
        /\ bcryptCompare env password (User.password user) = false) ->
  let out := authController.login env email password twoFactorToken req db in
  fst out = reply 401 false "Invalid email or password"
  /\ sessions (snd out) = sessions db
  /\ devices (snd out) = devices db.
Proof.
  intros H. cbv zeta.
  unfold authController.login, authController.loginRun.
  destruct H as [Hn | (user & Hu & Hl & Hp)].
  - rewrite Hn. cbn [authController.response authController.database fst snd].
    split; [reflexivity |].
    match goal with
    | |- context [auth.logSecurityEvent ?e ?u ?m ?a ?r ?st ?d ?x] =>
        destruct (logSecurityEvent_frame e u m a r st d x) as [Lu [Ls Ld]]
    end.
    split; assumption.
  - rewrite Hu, Hl, Hp.
    cbn [negb authController.response authController.database fst snd].
    split; [reflexivity |].
    match goal with
    | |- context [auth.logSecurityEvent ?e ?u ?m ?a ?r ?st ?d ?x] =>
        destruct (logSecurityEvent_frame e u m a r st d x) as [Lu [Ls Ld]]
    end.
    rewrite Ls, Ld. split; reflexivity.
Qed.

Lemma login_unknown_address_and_wrong_password_alike_witness :
  fst (authController.login (Fixtures.envAt 1000 true) "carol@example.com"
         "guess" None Fixtures.chromeDesktop (Fixtures.dbOf [Fixtures.alice]))
  = reply 401 false "Invalid email or password"
  /\ fst (authController.login (Fixtures.envAt 1000 true) "alice@example.com"
            "guess" None Fixtures.chromeDesktop (Fixtures.dbOf [Fixtures.alice]))
     = reply 401 false "Invalid email or password".
Proof.
  split.
  - apply (login_unknown_address_and_wrong_password_alike
             (Fixtures.envAt 1000 true) "carol@example.com" "guess" None
             Fixtures.chromeDesktop (Fixtures.dbOf [Fixtures.alice])).
    left. reflexivity.
  - apply (login_unknown_address_and_wrong_password_alike
             (Fixtures.envAt 1000 true) "alice@example.com" "guess" None
             Fixtures.chromeDesktop (Fixtures.dbOf [Fixtures.alice])).
    right. exists Fixtures.alice. repeat split.
Defined.

(** ** Login: what a successful login requires and writes *)

Lemma completeLogin_user_fields (env : Env) (user : User.IUser)
    (req : deviceParser.Request) (b : bool) (db : DB) (u' : User.IUser) :
  In u' (users (authController.database (authController.completeLogin env user req b db))) ->
  User._id u' = User._id user ->
  lockoutState u' = (0, None, false)
  /\ User.lastLogin u' = Some (now env)
  /\ User.lastLoginIP u' = Some (deviceParser.req_ipAddress req).
Proof.
  destruct (completeLogin_effect env user req b db) as [_ [Hu _]].
  rewrite Hu. intros Hin Hid.
  apply In_updateUser in Hin. destruct Hin as (u1 & Hin1 & ->).
  apply In_updateUser in Hin1. destruct Hin1 as (u0 & _ & ->).
  destruct (streq (User._id u0) (User._id user)) eqn:E0.
  - cbn [User.resetLoginAttempts User.setLockout User._id]. rewrite E0.
    cbn. repeat split.
  - rewrite E0 in Hid |- *. rewrite <- Hid, streq_refl in E0. discriminate.
Qed.

(** X9. Login succeeds only for a stored account that is not locked and
    whose password matches, and when two-factor authentication is enabled
    only with a code that the time-based verifier accepts for the secret of
    the loaded document, which the query of [login] leaves [undefined];
    never through a backup code.  It then leaves the account with the
    failure counter at 0, no lock, and the time and address of this login. *)
Theorem login_success_conditions_and_effects
    (env : Env) (email password : string) (twoFactorToken : option string)
    (req : deviceParser.Request) (db : DB) :
  let run := authController.loginRun env email password twoFactorToken req db in
  success (authController.response run) = true ->
  exists user,
    findUserByEmail (toLowerCase env email) db = Some user
    /\ User.isAccountLocked (now env) user = false
    /\ bcryptCompare env password (User.password user) = true
    /\ authController.backupCodeUsed run = false
    /\ User.twoFactorSecret (User.selectPassword user) = None
    /\ (User.twoFactorEnabled user = true ->
        exists token,
          present twoFactorToken = Some token
          /\ totpVerify env (User.twoFactorSecret (User.selectPassword user)) token
                        (now env) = true)
    /\ forall u', In u' (users (authController.database run)) ->
                  User._id u' = User._id user ->
                  lockoutState u' = (0, None, false)
                  /\ User.lastLogin u' = Some (now env)
                  /\ User.lastLoginIP u' = Some (deviceParser.req_ipAddress req).
Proof.
  cbv zeta.
  destruct (loginRun_outcome env email password twoFactorToken req db)
    as [Hn | user Hu Hl | user Hu Hl Hp | user Hu Hl Hp H2 Ht
        | user token Hu Hl Hp H2 Ht Hv | user Hu Hl Hp H2];
    try (cbn; discriminate).
  intros _. exists user.
  split; [exact Hu |]. split; [exact Hl |]. split; [exact Hp |].
  split; [apply (completeLogin_effect env user req false db) |].
  split; [reflexivity |].
  split.
  - intros He. destruct H2 as [H2 | (token & Ht & Hv)]; [congruence |].
    exists token. split; [exact Ht | exact Hv].
  - intros u' Hin Hid. eapply completeLogin_user_fields; eassumption.
Qed.

(** A login of an account with two-factor authentication that sends the
    code which the verifier accepts for the stored secret: the handler
    verifies it without the secret and refuses it. *)
Example login_verifies_without_the_secret :
  let db := Fixtures.dbOf [Fixtures.alice2FA ["A1B2C3D4"]] in
  totpVerify (Fixtures.envAt 1000 true)
             (User.twoFactorSecret (Fixtures.alice2FA ["A1B2C3D4"])) "000000" 1000
  = true
  /\ fst (authController.login (Fixtures.envAt 1000 true) "alice@example.com"
            "correct horse" (Some "000000") Fixtures.chromeDesktop db)
     = reply 401 false "Invalid two-factor authentication code".
Proof. split; vm_compute; reflexivity. Qed.

Lemma login_success_conditions_and_effects_witness :
  exists user,
    findUserByEmail "alice@example.com" (Fixtures.dbOf [lockedAlice 1000])
    = Some user
    /\ User.isAccountLocked 5000 user = false.
Proof.
  destruct (login_success_conditions_and_effects (Fixtures.envAt 5000 true)
              "alice@example.com" "correct horse" None Fixtures.chromeDesktop
              (Fixtures.dbOf [lockedAlice 1000]))
    as (user & Hu & Hl & _).
  - vm_compute. reflexivity.
  - exists user. split; [exact Hu | exact Hl].
Defined.

(** ** Login: the device register *)

Lemma sameTrust_refl (d : Device.IDevice) : sameTrust d d.
Proof. unfold sameTrust. auto. Qed.

Lemma Forall2_sameTrust_refl (l : list Device.IDevice) : Forall2 sameTrust l l.
Proof. induction l; constructor; auto using sameTrust_refl. Qed.

Lemma updateFirstDevice_Some (p : Device.IDevice -> bool)
    (upd : Device.IDevice -> Device.IDevice) (l l' : list Device.IDevice) :
  (forall d, p d = true -> sameTrust d (upd d)) ->
  authController.updateFirstDevice p upd l = Some l' ->
  Forall2 sameTrust l l'.
Proof.
  intros Hupd. revert l'. induction l as [| d l IH]; intros l' H; cbn in H.
  - discriminate.
  - destruct (p d) eqn:Hp.
    + injection H as <-. constructor; [now apply Hupd | apply Forall2_sameTrust_refl].
    + destruct (authController.updateFirstDevice p upd l) as [l1 |]; [| discriminate].
      injection H as <-. constructor; [apply sameTrust_refl | now apply IH].
Qed.

Lemma updateFirstDevice_None (p : Device.IDevice -> bool)
    (upd : Device.IDevice -> Device.IDevice) (l : list Device.IDevice) :
  authController.updateFirstDevice p upd l = None ->
  forall d, In d l -> p d = false.
Proof.
  induction l as [| d l IH]; intros H x Hin; cbn in H.
  - contradiction.
  - destruct (p d) eqn:Hp; [discriminate |].
    destruct (authController.updateFirstDevice p upd l); [discriminate |].
    destruct Hin as [<- | Hin]; [exact Hp | now apply IH].
Qed.

Lemma upsertDevice_spec (userId deviceId : string) (info : deviceParser.DeviceInfo)
    (t : Time) (l : list Device.IDevice) :
  exists front tail,
    authController.upsertDevice userId deviceId info t l = front ++ tail
    /\ Forall2 sameTrust l front
    /\ (tail = []
        \/ exists d, tail = [d]
                     /\ Device.isTrusted d = false
                     /\ Device.userId d = userId
                     /\ Device.deviceId d = deviceId
                     /\ forall d0, In d0 l ->
                                   deviceController.isDevice userId deviceId d0 = false).
Proof.
  unfold authController.upsertDevice.
  destruct (authController.updateFirstDevice _ _ l) as [l' |] eqn:E.
  - exists l', []. rewrite app_nil_r. split; [reflexivity |]. split; [| now left].
    eapply updateFirstDevice_Some; [| exact E].
    intros d Hd. unfold deviceController.isDevice in Hd.
    apply andb_true_iff in Hd. destruct Hd as [H1 H2].
    apply streq_eq in H1. apply streq_eq in H2.
    unfold sameTrust. cbn. auto.
  - eexists l, [_]. split; [reflexivity |].
    split; [apply Forall2_sameTrust_refl |]. right. eexists. split; [reflexivity |].
    split; [reflexivity |]. split; [reflexivity |]. split; [reflexivity |].
    eapply updateFirstDevice_None. exact E.
Qed.

Lemma completeLogin_devices (env : Env) (user : User.IUser)
    (req : deviceParser.Request) (b : bool) (db : DB) :
  devices (authController.database (authController.completeLogin env user req b db))
  = authController.upsertDevice (User._id user)
      (deviceParser.generateDeviceId (sha256hex32 env) (deviceParser.parseDeviceInfo req))
      (deviceParser.parseDeviceInfo req) (now env) (devices db).
Proof.
  unfold authController.completeLogin.
  set (db1 := updateUser (User._id user) _ (updateUser (User._id user) _ db)).
  destruct (checkSuspiciousLogin_frame env (User._id user) req db1) as [Hu [Hs Hd]].
  set (db2 := snd (suspiciousActivity.checkSuspiciousLogin env (User._id user) req db1)) in *.
  assert (Hd1 : devices db2 = devices db) by (rewrite Hd; reflexivity).
  destruct (authController.createSession _ _).
  - cbn [authController.database].
    match goal with
    | |- context [auth.logSecurityEvent ?e ?u ?m ?a ?r ?st ?d ?x] =>
        destruct (logSecurityEvent_frame e u m a r st d x) as [_ [_ Ld]]
    end.
    rewrite Ld. cbn [devices withSessions withDevices]. now rewrite Hd1.
  - cbn [authController.database devices withDevices]. now rewrite Hd1.
Qed.

(** X10. Whatever its outcome, a login leaves every registered device in
    place with its owner, id and trust flag, and adds at most one device,
    which is not trusted and whose owner and id no registered device had:
    a repeated login from a trusted device keeps it trusted and adds no
    second row. *)
Theorem login_keeps_device_trust
    (env : Env) (email password : string) (twoFactorToken : option string)
    (req : deviceParser.Request) (db : DB) :
  exists front tail,
    devices (snd (authController.login env email password twoFactorToken req db))
    = front ++ tail
    /\ Forall2 sameTrust (devices db) front
    /\ (tail = []
        \/ exists d, tail = [d]
                     /\ Device.isTrusted d = false
                     /\ forall d0, In d0 (devices db) ->
                          deviceController.isDevice (Device.userId d) (Device.deviceId d) d0
                          = false).
Proof.
  unfold authController.login. cbn [snd].
  destruct (loginRun_outcome env email password twoFactorToken req db);
    try (exists (devices db), []; rewrite app_nil_r;
         split; [| split; [apply Forall2_sameTrust_refl | now left]];
         cbn [authController.database];
         try match goal with
             | |- context [auth.logSecurityEvent ?e ?u ?m ?a ?r ?st ?d ?x] =>
                 destruct (logSecurityEvent_frame e u m a r st d x) as [_ [_ ->]]
             end;
         reflexivity).
  rewrite completeLogin_devices.
  match goal with
  | |- context [authController.upsertDevice ?u ?i ?f ?t ?l] =>
      destruct (upsertDevice_spec u i f t l) as (front & tail & -> & HF & HT)
  end.
  exists front, tail. split; [reflexivity |]. split; [exact HF |].
  destruct HT as [-> | (d & -> & Hd & Hu' & Hi' & Hno)]; [now left |].
  right. exists d. split; [reflexivity |]. split; [exact Hd |].
  rewrite Hu', Hi'. exact Hno.
Qed.

(** ** Risk engine: bounds of the score *)

Lemma flag_upper (c : bool) (reason : string) (k B : Z) (acc : list string * Z) :
  0 <= k -> snd acc <= B - k -> snd (suspiciousActivity.flag c reason k acc) <= B.
Proof. intros Hk H. rewrite flag_score. destruct c; unfold points; lia. Qed.

Lemma flag_per_reason (c : bool) (reason : string) (k : Z) (acc : list string * Z) :
  15 <= k <= 30 ->
  15 * Z.of_nat (List.length (fst acc)) <= snd acc
                                        <= 30 * Z.of_nat (List.length (fst acc)) ->
  15 * Z.of_nat (List.length (fst (suspiciousActivity.flag c reason k acc)))
  <= snd (suspiciousActivity.flag c reason k acc)
  <= 30 * Z.of_nat (List.length (fst (suspiciousActivity.flag c reason k acc))).
Proof.
  intros Hk H. unfold suspiciousActivity.flag. destruct c; [| exact H].
  cbn [fst snd]. rewrite length_app. cbn [List.length]. lia.
Qed.

(** X11. The login risk score lies between 0 and 140, and between 15 and
    30 points per reported reason; so a login is marked suspicious (50 or
    more) only when at least two rules have fired, and a score of 0 comes
    with no reason. *)
Theorem checkSuspiciousLogin_score_bounds (env : Env) (userId : string)
    (req : deviceParser.Request) (db : DB) :
  let r := fst (suspiciousActivity.checkSuspiciousLogin env userId req db) in
  0 <= suspiciousActivity.riskScore r <= 140
  /\ 15 * reasonCount r <= suspiciousActivity.riskScore r <= 30 * reasonCount r
  /\ (suspiciousActivity.isSuspicious r = true -> 2 <= reasonCount r).
Proof.
  cbv zeta.
  assert (Hper :
    15 * reasonCount (fst (suspiciousActivity.checkSuspiciousLogin env userId req db))
    <= suspiciousActivity.riskScore
         (fst (suspiciousActivity.checkSuspiciousLogin env userId req db))
    <= 30 * reasonCount (fst (suspiciousActivity.checkSuspiciousLogin env userId req db))).
  { unfold reasonCount, suspiciousActivity.checkSuspiciousLogin.
    destruct (findUserById userId db);
      cbn [fst suspiciousActivity.riskScore suspiciousActivity.reasons List.length];
      [| lia].
    repeat first
      [ apply flag_per_reason; [lia |]
      | match goal with
        | |- context [match geolocation.countryOf ?x with _ => _ end] =>
            destruct (geolocation.countryOf x)
        | |- context [if 5 <? ?x then _ else _] => destruct (5 <? x)
        end ].
    all: cbn; lia. }
  assert (Hup :
    suspiciousActivity.riskScore
      (fst (suspiciousActivity.checkSuspiciousLogin env userId req db)) <= 140).
  { unfold suspiciousActivity.checkSuspiciousLogin.
    destruct (findUserById userId db); cbn [fst suspiciousActivity.riskScore]; [| lia].
    apply flag_upper; [lia |].
    destruct (5 <? _); [apply flag_upper; [lia |] |];
      (destruct (geolocation.countryOf _); [apply flag_upper; [lia |] |]);
      (apply flag_upper; [lia |]); (apply flag_upper; [lia |]);
      (apply flag_upper; [lia |]); cbn; lia. }
  assert (H0 : 0 <= reasonCount
                      (fst (suspiciousActivity.checkSuspiciousLogin env userId req db)))
    by (unfold reasonCount; lia).
  split; [lia |]. split; [exact Hper |].
  rewrite checkSuspiciousLogin_threshold. intros Hs. apply Z.leb_le in Hs. lia.
Qed.

(** ** Risk engine: rules that cannot fire *)

Lemma flag_reasons (c : bool) (reason : string) (k : Z) (acc : list string * Z)
    (r : string) :
  In r (fst (suspiciousActivity.flag c reason k acc)) ->
  (c = true /\ r = reason) \/ In r (fst acc).
Proof.
  unfold suspiciousActivity.flag. destruct c; [| now right].
  cbn [fst]. rewrite in_app_iff. intros [H | [<- | []]]; [now right | now left].
Qed.

Lemma In_insertDesc (x y : SecurityLog.ISecurityLog) (l : list SecurityLog.ISecurityLog) :
  In y (SecurityLog.insertDesc x l) -> y = x \/ In y l.
Proof.
  induction l as [| z l IH]; cbn.
  - intros [<- | []]. now left.
  - destruct (_ <=? _); cbn.
    + intros [<- | H]; [now left | now right].
    + intros [<- | H]; [right; now left |].
      destruct (IH H) as [-> | H']; [now left | right; now right].
Qed.

Lemma In_sortDesc (y : SecurityLog.ISecurityLog) (l : list SecurityLog.ISecurityLog) :
  In y (SecurityLog.sortDesc l) -> In y l.
Proof.
  induction l as [| x l IH]; cbn; [tauto |].
  intros H. apply In_insertDesc in H. destruct H as [-> | H]; [now left | right; auto].
Qed.

Lemma In_firstn {A : Type} (n : nat) (l : list A) (x : A) :
  In x (firstn n l) -> In x l.
Proof.
  intros H. rewrite <- (firstn_skipn n l). apply in_or_app. now left.
Qed.

Lemma recentSuccessfulLogins_stored (env : Env) (userId : string) (db : DB)
    (l : SecurityLog.ISecurityLog) :
  In l (suspiciousActivity.recentSuccessfulLogins env userId db) ->
  In l (securityLogs db).
Proof.
  unfold suspiciousActivity.recentSuccessfulLogins, SecurityLog.limit.
  intros H. apply In_firstn in H. apply In_sortDesc in H.
  apply filter_In in H. tauto.
Qed.

Lemma getLocationFromIP_country (ip : string) :
  geolocation.countryOf (geolocation.getLocationFromIP ip) = None
  \/ geolocation.countryOf (geolocation.getLocationFromIP ip) = Some "Local".
Proof.
  unfold geolocation.getLocationFromIP.
  destruct (_ || _); [right | left]; reflexivity.
Qed.

Lemma fromLookup_country (l : SecurityLog.ISecurityLog) :
  fromLookup l ->
  geolocation.countryOf (SecurityLog.location l) = None
  \/ geolocation.countryOf (SecurityLog.location l) = Some "Local".
Proof.
  intros [-> | [ip ->]]; [now left | apply getLocationFromIP_country].
Qed.

Lemma local_countries (ls : list SecurityLog.ISecurityLog) :
  (forall l, In l ls -> fromLookup l) ->
  forall c,
    In c (flat_map
            (fun l => match geolocation.countryOf (SecurityLog.location l) with
                      | Some c => [c]
                      | None => []
                      end) ls) ->
    c = "Local".
Proof.
  intros H c Hc. apply in_flat_map in Hc. destruct Hc as (l & Hl & Hc).
  destruct (fromLookup_country l (H l Hl)) as [E | E]; rewrite E in Hc.
  - contradiction.
  - destruct Hc as [<- | []]. reflexivity.
Qed.

(** X12. The look-up of utils/geolocation.ts knows one country only, the
    private network.  While the stored locations are those that it produces,
    the rule for a login from a new country never fires: every reason is one
    of the five others, and the score is at most 110. *)
Theorem checkSuspiciousLogin_country_rule_silent (env : Env) (userId : string)
    (req : deviceParser.Request) (db : DB) :
  (forall l, In l (securityLogs db) -> fromLookup l) ->
  let r := fst (suspiciousActivity.checkSuspiciousLogin env userId req db) in
  (forall reason, In reason (suspiciousActivity.reasons r) ->
     In reason [ "Multiple failed login attempts in short time";
                 "Login from new IP address";
                 "Login from new device or browser";
                 "Login outside normal hours";
                 "Account was recently locked" ])
  /\ suspiciousActivity.riskScore r <= 110.
Proof.
  intros Hloc. cbv zeta.
  unfold suspiciousActivity.checkSuspiciousLogin.
  destruct (findUserById userId db) as [user |];
    cbn [fst suspiciousActivity.riskScore suspiciousActivity.reasons];
    [| split; [intros ? [] | lia]].
  set (logins := suspiciousActivity.recentSuccessfulLogins env userId db).
  assert (Hlogins : forall l, In l logins -> fromLookup l).
  { intros l Hl. apply Hloc. eapply recentSuccessfulLogins_stored. exact Hl. }
  pose proof (local_countries logins Hlogins) as Hc.
  set (countries := flat_map _ logins) in *.
  assert (Hsilent :
    forall country,
      geolocation.countryOf (geolocation.getLocationFromRequest req) = Some country ->
      negb (has countries country) && (0 <? Z.of_nat (List.length countries)) = false).
  { intros country E.
    unfold geolocation.getLocationFromRequest in E.
    destruct (getLocationFromIP_country
                (deviceParser.ipAddress (deviceParser.parseDeviceInfo req)))
      as [E' | E']; rewrite E' in E; [discriminate |].
    injection E as <-.
    destruct countries as [| c cs]; [reflexivity |].
    assert (c = "Local") as -> by (apply Hc; now left).
    cbn [has existsb]. rewrite streq_refl. reflexivity. }
  destruct (geolocation.countryOf (geolocation.getLocationFromRequest req))
    as [country |] eqn:Ecountry.
  - rewrite (Hsilent country eq_refl).
    change (suspiciousActivity.flag false ?a ?b ?c) with c.
    split.
    + intros reason Hr.
      destruct (5 <? _);
        repeat (apply flag_reasons in Hr; destruct Hr as [[_ ->] | Hr];
                [cbn; tauto |]);
        destruct Hr.
    + apply flag_upper; [lia |].
      destruct (5 <? _); [apply flag_upper; [lia |] |];
        (apply flag_upper; [lia |]); (apply flag_upper; [lia |]);
        (apply flag_upper; [lia |]); cbn; lia.
  - split.
    + intros reason Hr.
      destruct (5 <? _);
        repeat (apply flag_reasons in Hr; destruct Hr as [[_ ->] | Hr];
                [cbn; tauto |]);
        destruct Hr.
    + apply flag_upper; [lia |].
      destruct (5 <? _); [apply flag_upper; [lia |] |];
        (apply flag_upper; [lia |]); (apply flag_upper; [lia |]);
        (apply flag_upper; [lia |]); cbn; lia.
Qed.

Lemma checkSuspiciousLogin_country_rule_silent_witness :
  suspiciousActivity.riskScore
    (fst (suspiciousActivity.checkSuspiciousLogin (Fixtures.envAt 7000 true)
            Fixtures.aliceId Fixtures.otherAddress Scenario.sixLogins)) <= 110.
Proof.
  apply (checkSuspiciousLogin_country_rule_silent (Fixtures.envAt 7000 true)
           Fixtures.aliceId Fixtures.otherAddress Scenario.sixLogins).
  intros l Hl. left.
  cbn in Hl.
  repeat (destruct Hl as [<- | Hl]; [reflexivity |]).
  contradiction.
Defined.

(** ** Risk engine inside login *)

Lemma updateUser_lockout_cleared (env : Env) (user : User.IUser)
    (req : deviceParser.Request) (db : DB) (u : User.IUser) :
  findUserById (User._id user)
    (updateUser (User._id user)
       (User.setLastLogin (Some (now env))
          (Some (deviceParser.ipAddress (deviceParser.parseDeviceInfo req))))
       (updateUser (User._id user) User.resetLoginAttempts db)) = Some u ->
  User.isLocked u = false /\ User.lockUntil u = None.
Proof.
  unfold findUserById. intros H. apply find_some in H. destruct H as [Hin Hid].
  apply In_updateUser in Hin. destruct Hin as (u1 & Hin1 & ->).
  apply In_updateUser in Hin1. destruct Hin1 as (u0 & _ & ->).
  destruct (streq (User._id u0) (User._id user)) eqn:E0.
  - cbn [User.resetLoginAttempts User.setLockout User._id]. rewrite E0. cbn. auto.
  - rewrite E0 in Hid. congruence.
Qed.

(** X13. Login runs the risk check after it has cleared the lockout fields
    of the account, so inside login the rule for a recently locked account
    never fires, also for a login that follows a lock: the reason is never
    reported and the score of the check stays at or below 120. *)
Theorem login_check_never_sees_lock (env : Env) (user : User.IUser)
    (req : deviceParser.Request) (b : bool) (db : DB) :
  let r := fst (loginCheck env user req db) in
  ~ In "Account was recently locked" (suspiciousActivity.reasons r)
  /\ suspiciousActivity.riskScore r <= 120
  /\ exists tail,
       securityLogs (authController.database
                       (authController.completeLogin env user req b db))
       = securityLogs (snd (loginCheck env user req db)) ++ tail.
Proof.
  cbv zeta. split; [| split].
  - unfold loginCheck, suspiciousActivity.checkSuspiciousLogin.
    destruct (findUserById _ _) as [u |] eqn:Eu;
      cbn [fst suspiciousActivity.reasons]; [| intros []].
    destruct (updateUser_lockout_cleared env user req db u Eu) as [-> ->].
    cbn [orb]. change (suspiciousActivity.flag false ?a ?b ?c) with c.
    intros Hr.
    destruct (5 <? _); destruct (geolocation.countryOf _);
      repeat (apply flag_reasons in Hr; destruct Hr as [[_ E] | Hr];
              [discriminate E |]);
      destruct Hr.
  - unfold loginCheck, suspiciousActivity.checkSuspiciousLogin.
    destruct (findUserById _ _) as [u |] eqn:Eu;
      cbn [fst suspiciousActivity.riskScore]; [| lia].
    destruct (updateUser_lockout_cleared env user req db u Eu) as [-> ->].
    cbn [orb]. change (suspiciousActivity.flag false ?a ?b ?c) with c.
    destruct (5 <? _); [apply flag_upper; [lia |] |];
      (destruct (geolocation.countryOf _); [apply flag_upper; [lia |] |]);
      (apply flag_upper; [lia |]); (apply flag_upper; [lia |]);
      (apply flag_upper; [lia |]); cbn; lia.
  - unfold authController.completeLogin. fold (loginCheck env user req db).
    destruct (authController.createSession _ _).
    + cbn [authController.database]. unfold auth.logSecurityEvent.
      change (has SecurityLog.actionEnum "login") with true. cbv iota.
      cbn [securityLogs withLogs withSessions withDevices].
      eexists. reflexivity.
    + cbn [authController.database securityLogs withDevices].
      exists []. now rewrite app_nil_r.
Qed.

(** ** What a handler leaves alone *)

Lemma checkSuspiciousPasswordChange_frame (env : Env) (userId : string)
    (req : deviceParser.Request) (db : DB) :
  let db' := snd (suspiciousActivity.checkSuspiciousPasswordChange env userId req db) in
  users db' = users db /\ sessions db' = sessions db /\ devices db' = devices db.
Proof.
  cbv zeta. unfold suspiciousActivity.checkSuspiciousPasswordChange. cbn [snd].
  destruct (40 <=? _); [| auto].
  destruct (findUserById userId db); auto.
Qed.

Lemma users_logSecurityEvent env userId email action req st details db :
  users (auth.logSecurityEvent env userId email action req st details db) = users db.
Proof. apply logSecurityEvent_frame. Qed.

Lemma sessions_logSecurityEvent env userId email action req st details db :
  sessions (auth.logSecurityEvent env userId email action req st details db)
  = sessions db.
Proof. apply logSecurityEvent_frame. Qed.

Lemma devices_logSecurityEvent env userId email action req st details db :
  devices (auth.logSecurityEvent env userId email action req st details db)
  = devices db.
Proof. apply logSecurityEvent_frame. Qed.

Lemma users_checkSuspiciousPasswordChange env userId req db :
  users (snd (suspiciousActivity.checkSuspiciousPasswordChange env userId req db))
  = users db.
Proof. apply checkSuspiciousPasswordChange_frame. Qed.

Lemma sessions_checkSuspiciousPasswordChange env userId req db :
  sessions (snd (suspiciousActivity.checkSuspiciousPasswordChange env userId req db))
  = sessions db.
Proof. apply checkSuspiciousPasswordChange_frame. Qed.

Lemma devices_checkSuspiciousPasswordChange env userId req db :
  devices (snd (suspiciousActivity.checkSuspiciousPasswordChange env userId req db))
  = devices db.
Proof. apply checkSuspiciousPasswordChange_frame. Qed.

Lemma sessions_updateUser id f db : sessions (updateUser id f db) = sessions db.
Proof. reflexivity. Qed.

Lemma devices_updateUser id f db : devices (updateUser id f db) = devices db.
Proof. reflexivity. Qed.

Lemma users_withSessions l db : users (withSessions l db) = users db.
Proof. reflexivity. Qed.

Lemma users_withDevices l db : users (withDevices l db) = users db.
Proof. reflexivity. Qed.

Lemma sessions_withDevices l db : sessions (withDevices l db) = sessions db.
Proof. reflexivity. Qed.

Lemma devices_withSessions l db : devices (withSessions l db) = devices db.
Proof. reflexivity. Qed.

Lemma sessions_withSessions l db : sessions (withSessions l db) = l.
Proof. reflexivity. Qed.

Lemma devices_withDevices l db : devices (withDevices l db) = l.
Proof. reflexivity. Qed.

Create Rewrite HintDb frame.

#[local] Hint Rewrite
  users_logSecurityEvent sessions_logSecurityEvent devices_logSecurityEvent
  users_checkSuspiciousPasswordChange sessions_checkSuspiciousPasswordChange
  devices_checkSuspiciousPasswordChange
  sessions_updateUser devices_updateUser users_withSessions users_withDevices
  sessions_withDevices devices_withSessions sessions_withSessions
  devices_withDevices : frame.

(** Case analysis on the tests of a handler. *)
Ltac handler_cases :=
  repeat match goal with
         | |- context [if ?x then _ else _] => destruct x eqn:?
         | |- context [match ?x with Some _ => _ | None => _ end] => destruct x eqn:?
         | |- context [match ?x with
                       | sessionController.ObjectId _ => _
                       | sessionController.NotAnObjectId => _
                       end] => destruct x eqn:?
         end.

Ltac untouched := handler_cases; cbn [fst snd]; autorewrite with frame; reflexivity.

Lemma serve_sessions_untouched (a : Arrival) (db : DB) :
  match at_call a with
  | PostLogin _ _ _ | PostRefreshToken _
  | DeleteDevice _ _ _ | DeleteDevices _ _ _
  | DeleteSession _ _ _ | DeleteSessions _ _ _ => True
  | _ => sessions (snd (serve a db)) = sessions db
  end.
Proof.
  destruct a as [env hash sec rnd req []]; cbn [at_call]; try exact I;
    unfold serve; cbn [at_call at_env at_req at_bcryptHash at_secretBase32 at_randomBytes].
  - unfold passwordController.forgotPassword. untouched.
  - unfold passwordController.resetPassword. untouched.
  - unfold passwordController.changePassword. untouched.
  - unfold emailVerificationController.resendVerificationEmail. untouched.
  - unfold emailVerificationController.verifyEmail. untouched.
  - unfold deviceController.trustDevice. untouched.
  - unfold twoFactorController.setup2FA. untouched.
  - unfold twoFactorController.verify2FA. untouched.
  - unfold twoFactorController.disable2FA. untouched.
  - unfold twoFactorController.regenerateBackupCodes. untouched.
Qed.

(** ** Sessions are kept *)

Lemma sessionKept_refl (s : Session.ISession) : sessionKept s s.
Proof. unfold sessionKept. auto 10. Qed.

Lemma sessionKept_trans (a b c : Session.ISession) :
  sessionKept a b -> sessionKept b c -> sessionKept a c.
Proof.
  unfold sessionKept.
  intros (A1 & A2 & A3 & A4 & A5 & A6) (B1 & B2 & B3 & B4 & B5 & B6).
  repeat split; try congruence; auto.
  intros Ha. rewrite B6, A6; auto.
  destruct (Session.isActive b) eqn:E; [| reflexivity].
  rewrite A5 in Ha by reflexivity. discriminate.
Qed.

Lemma sessionKept_revoked (s : Session.ISession) :
  sessionKept s (Session.setIsActive false s).
Proof. unfold sessionKept. cbn. repeat split; auto. discriminate. Qed.

Lemma Forall2_refl_gen {A : Type} (R : A -> A -> Prop) (l : list A) :
  (forall a, R a a) -> Forall2 R l l.
Proof. intros H. induction l; constructor; auto. Qed.

Lemma Forall2_trans_gen {A : Type} (R : A -> A -> Prop) (l1 l2 l3 : list A) :
  (forall a b c, R a b -> R b c -> R a c) ->
  Forall2 R l1 l2 -> Forall2 R l2 l3 -> Forall2 R l1 l3.
Proof.
  intros HR H. revert l3. induction H; intros l3 H3; inversion H3; subst;
    constructor; eauto.
Qed.

Lemma sessionsGrow_refl (l : list Session.ISession) : sessionsGrow l l.
Proof.
  exists l, []. rewrite app_nil_r. split; [reflexivity |].
  apply Forall2_refl_gen, sessionKept_refl.
Qed.

Lemma sessionsGrow_same (l l' : list Session.ISession) :
  Forall2 sessionKept l l' -> sessionsGrow l l'.
Proof. intros H. exists l', []. now rewrite app_nil_r. Qed.

Lemma sessionsGrow_trans (l1 l2 l3 : list Session.ISession) :
  sessionsGrow l1 l2 -> sessionsGrow l2 l3 -> sessionsGrow l1 l3.
Proof.
  intros (f1 & t1 & -> & H1) (f2 & t2 & -> & H2).
  apply Forall2_app_inv_l in H2. destruct H2 as (f2a & f2b & Ha & Hb & ->).
  exists f2a, (f2b ++ t2). split; [now rewrite app_assoc |].
  eapply Forall2_trans_gen; [apply sessionKept_trans | exact H1 | exact Ha].
Qed.

Lemma map_revoke_kept (g : Session.ISession -> Session.ISession)
    (l : list Session.ISession) :
  (forall s, g s = s \/ g s = Session.setIsActive false s) ->
  Forall2 sessionKept l (map g l)
  /\ map Session.refreshToken (map g l) = map Session.refreshToken l.
Proof.
  intros Hg. induction l as [| s l [IH1 IH2]]; cbn; [split; [constructor | reflexivity] |].
  split.
  - constructor; [| exact IH1].
    destruct (Hg s) as [-> | ->]; [apply sessionKept_refl | apply sessionKept_revoked].
  - rewrite IH2. f_equal. destruct (Hg s) as [-> | ->]; reflexivity.
Qed.

Lemma deactivateAt_kept (i : nat) (l : list Session.ISession) :
  Forall2 sessionKept l (sessionController.deactivateAt i l)
  /\ map Session.refreshToken (sessionController.deactivateAt i l)
     = map Session.refreshToken l.
Proof.
  revert i. induction l as [| s l IH]; intros i; cbn.
  - destruct i; split; constructor.
  - destruct i as [| i]; cbn.
    + split; [| reflexivity].
      constructor; [apply sessionKept_revoked | apply Forall2_refl_gen, sessionKept_refl].
    + destruct (IH i) as [IH1 IH2]. split.
      * constructor; [apply sessionKept_refl | exact IH1].
      * now rewrite IH2.
Qed.

Lemma saveRotated_kept (i : nat) (tok : string) (t : Time)
    (l l' : list Session.ISession) :
  authController.saveRotated i tok t l = Some l' ->
  (forall s, nth_error l i = Some s -> Session.isActive s = true) ->
  Forall2 sessionKept l l'.
Proof.
  revert i l'. induction l as [| s l IH]; intros i l' H Hact.
  - destruct i; cbn in H; injection H as <-; constructor.
  - destruct i as [| i]; cbn in H.
    + destruct (existsb _ l); [discriminate |]. injection H as <-.
      constructor; [| apply Forall2_refl_gen, sessionKept_refl].
      specialize (Hact s eq_refl). unfold sessionKept. cbn.
      repeat split; auto. intros E. congruence.
    + destruct (streq _ tok); [discriminate |].
      destruct (authController.saveRotated i tok t l) as [l1 |] eqn:E; [| discriminate].
      injection H as <-. constructor; [apply sessionKept_refl |].
      apply (IH i); [exact E | exact Hact].
Qed.

Lemma serve_sessions (a : Arrival) (db : DB) :
  sessionsGrow (sessions db) (sessions (snd (serve a db)))
  /\ (uniqueTokens db -> uniqueTokens (snd (serve a db))).
Proof.
  pose proof (serve_sessions_untouched a db) as Hsame.
  destruct a as [env hash sec rnd req call].
  destruct call; cbn [at_call] in Hsame;
    try (unfold uniqueTokens; rewrite Hsame; split; [apply sessionsGrow_refl | tauto]);
    clear Hsame;
    unfold serve; cbn [at_call at_env at_req at_bcryptHash at_secretBase32 at_randomBytes].
  - (* login *)
    split.
    + unfold authController.login. cbn [snd].
      destruct (loginRun_sessions env email password twoFactorToken req db)
        as [[_ ->] | [_ (user & _ & ->)]]; [apply sessionsGrow_refl |].
      eexists _, _. split; [reflexivity |]. apply Forall2_refl_gen, sessionKept_refl.
    + apply loginRun_keeps_uniqueTokens.
  - (* refresh *)
    split; [| apply refreshToken_keeps_uniqueTokens].
    destruct (refreshToken_effect env refreshToken db)
      as [[_ ->] | (old & i & s & user & _ & _ & Hn & Ha & Hs & _)];
      [apply sessionsGrow_refl |].
    apply sessionsGrow_same. eapply saveRotated_kept; [exact Hs |].
    intros s' Hs'. rewrite Hn in Hs'. injection Hs' as <-.
    apply activeWithToken_spec in Ha. tauto.
  - (* revokeDevice *)
    unfold deviceController.revokeDevice.
    destruct (present userId) as [uid |]; [| split; [apply sessionsGrow_refl | tauto]].
    destruct (find _ (devices db)) as [device |];
      [| split; [apply sessionsGrow_refl | tauto]].
    cbn [snd]. unfold uniqueTokens. autorewrite with frame.
    match goal with
    | |- context [map ?g (sessions db)] =>
        destruct (map_revoke_kept g (sessions db)) as [H1 H2]
    end.
    { intros s. destruct (deviceController.sessionOfDevice uid device s); auto. }
    rewrite H2. split; [now apply sessionsGrow_same | tauto].
  - (* revokeAllDevices *)
    unfold deviceController.revokeAllDevices.
    destruct (present userId) as [uid |]; [| split; [apply sessionsGrow_refl | tauto]].
    cbn [snd]. unfold uniqueTokens. autorewrite with frame.
    match goal with
    | |- context [map ?g (sessions db)] =>
        destruct (map_revoke_kept g (sessions db)) as [H1 H2]
    end.
    { intros s. destruct (_ && _); auto. }
    rewrite H2. split; [now apply sessionsGrow_same | tauto].
  - (* revokeSession *)
    unfold sessionController.revokeSession.
    destruct (present userId) as [uid |]; [| split; [apply sessionsGrow_refl | tauto]].
    destruct sessionId as [position |]; [| split; [apply sessionsGrow_refl | tauto]].
    destruct (nth_error (sessions db) position) as [s |];
      [| split; [apply sessionsGrow_refl | tauto]].
    destruct (streq _ uid); [| split; [apply sessionsGrow_refl | tauto]].
    cbn [snd]. unfold uniqueTokens. autorewrite with frame.
    destruct (deactivateAt_kept position (sessions db)) as [H1 H2].
    rewrite H2. split; [now apply sessionsGrow_same | tauto].
  - (* revokeAllSessions *)
    unfold sessionController.revokeAllSessions.
    destruct (present userId) as [uid |]; [| split; [apply sessionsGrow_refl | tauto]].
    cbn [snd]. unfold uniqueTokens. autorewrite with frame.
    match goal with
    | |- context [map ?g (sessions db)] =>
        destruct (map_revoke_kept g (sessions db)) as [H1 H2]
    end.
    { intros s. destruct (_ && _); auto. }
    rewrite H2. split; [now apply sessionsGrow_same | tauto].
Qed.

Lemma serveAll_sessions (arrivals : list Arrival) (db : DB) :
  sessionsGrow (sessions db) (sessions (serveAll arrivals db))
  /\ (uniqueTokens db -> uniqueTokens (serveAll arrivals db)).
Proof.
  revert db. induction arrivals as [| a rest IH]; intros db; cbn [serveAll].
  - split; [apply sessionsGrow_refl | tauto].
  - destruct (serve_sessions a db) as [H1 H2].
    destruct (IH (snd (serve a db))) as [H3 H4].
    split; [eapply sessionsGrow_trans; eassumption | auto].
Qed.

Lemma sessionsGrow_nth (l l' : list Session.ISession) (i : nat) (s : Session.ISession) :
  sessionsGrow l l' -> nth_error l i = Some s ->
  exists s', nth_error l' i = Some s' /\ sessionKept s s'.
Proof.
  intros (front & tail & -> & HF) Hn.
  destruct (Forall2_nth _ _ _ i s HF Hn) as (s' & Hs' & Hk).
  exists s'. split; [| exact Hk].
  rewrite nth_error_app1; [exact Hs' |].
  apply nth_error_Some. congruence.
Qed.

(** X14. Whatever calls are served, in whatever order, no stored session
    is deleted or moved, none changes its owner, device, expiry or creation
    time, and none that is not active becomes active again: a session ends
    at the expiry that login gave it, or earlier. *)
Theorem sessions_are_only_added_or_revoked (arrivals : list Arrival) (db : DB)
    (i : nat) (s : Session.ISession) :
  nth_error (sessions db) i = Some s ->
  exists s',
    nth_error (sessions (serveAll arrivals db)) i = Some s'
    /\ Session.userId s' = Session.userId s
    /\ Session.deviceInfo s' = Session.deviceInfo s
    /\ Session.expiresAt s' = Session.expiresAt s
    /\ Session.createdAt s' = Session.createdAt s
    /\ (Session.isActive s = false -> Session.isActive s' = false).
Proof.
  intros Hn.
  destruct (serveAll_sessions arrivals db) as [Hg _].
  destruct (sessionsGrow_nth _ _ i s Hg Hn) as (s' & Hs' & K1 & K2 & K3 & K4 & K5 & _).
  exists s'. repeat split; try assumption.
  intros Hi. destruct (Session.isActive s') eqn:E; [| reflexivity].
  rewrite K5 in Hi by reflexivity. discriminate.
Qed.

Lemma inactive_token_refused (env : Env) (tok : string) (db : DB) :
  (forall s, In s (sessions db) -> Session.refreshToken s = tok ->
             Session.isActive s = false) ->
  success (fst (authController.refreshToken env (Some tok) db)) = false
  /\ snd (authController.refreshToken env (Some tok) db) = db.
Proof.
  intros Hin.
  destruct (refreshToken_effect env (Some tok) db)
    as [H | (old & i & s & user & Hp & _ & Hn & Ha & _)]; [exact H |].
  exfalso. apply activeWithToken_spec in Ha. destruct Ha as (Ht & Hact & _).
  assert (old = tok) as ->.
  { cbn in Hp. destruct (truthy tok); congruence. }
  apply nth_error_In in Hn. rewrite (Hin s Hn Ht) in Hact. discriminate.
Qed.

(** X15. Revocation is permanent.  Under the unique index on the refresh
    token, the token of a session that is not active is refused by the
    refresh handler after any sequence of calls, at any time: no login,
    refresh or other call brings the token back into use. *)
Theorem revocation_is_permanent (arrivals : list Arrival) (db : DB) (i : nat)
    (s : Session.ISession) (env : Env) :
  uniqueTokens db ->
  nth_error (sessions db) i = Some s ->
  Session.isActive s = false ->
  let db' := serveAll arrivals db in
  success (fst (authController.refreshToken env (Some (Session.refreshToken s)) db'))
  = false
  /\ snd (authController.refreshToken env (Some (Session.refreshToken s)) db') = db'.
Proof.
  intros Hu Hn Hi. cbv zeta.
  destruct (serveAll_sessions arrivals db) as [Hg Hu'].
  specialize (Hu' Hu).
  destruct (sessionsGrow_nth _ _ i s Hg Hn) as (s' & Hs' & _ & _ & _ & _ & K5 & K6).
  apply inactive_token_refused. intros s2 Hin Htok.
  apply In_nth_error in Hin. destruct Hin as (j & Hj).
  assert (j = i) as ->.
  { eapply unique_token_index; [exact Hu' | exact Hj | exact Hs' |].
    rewrite Htok. symmetry. now apply K6. }
  assert (s2 = s') as -> by congruence.
  destruct (Session.isActive s') eqn:E; [| reflexivity].
  rewrite K5 in Hi by reflexivity. discriminate.
Qed.

(** ** Stored users stay well-formed *)

Lemma userKept_refl (u : User.IUser) : userKept u u.
Proof. unfold userKept. auto. Qed.

Lemma userKept_trans (a b c : User.IUser) :
  userKept a b -> userKept b c -> userKept a c.
Proof.
  unfold userKept. intros (A1 & A2 & A3 & A4) (B1 & B2 & B3 & B4).
  split; [congruence |]. split; [congruence |]. split; [congruence |]. auto.
Qed.

(** A write that leaves the lockout, two-factor and verification fields
    as they are. *)
Lemma userKept_same_fields (u u' : User.IUser) :
  User._id u' = User._id u -> User.email u' = User.email u ->
  User.role u' = User.role u ->
  lockoutState u' = lockoutState u ->
  User.twoFactorEnabled u' = User.twoFactorEnabled u ->
  User.twoFactorSecret u' = User.twoFactorSecret u ->
  User.isEmailVerified u' = User.isEmailVerified u ->
  User.emailVerificationToken u' = User.emailVerificationToken u ->
  userKept u u'.
Proof.
  intros H1 H2 H3 H4 H5 H6 H7 H8. unfold userKept.
  split; [exact H1 |]. split; [exact H2 |]. split; [exact H3 |].
  unfold lockoutState in H4. injection H4 as E1 E2 E3.
  unfold wellFormed, lockoutConsistent.
  rewrite E1, E2, E3, H5, H6, H7, H8. tauto.
Qed.

Lemma userKept_setLastLogin t ip u : userKept u (User.setLastLogin t ip u).
Proof. apply userKept_same_fields; reflexivity. Qed.

Lemma userKept_setBackupCodes codes u : userKept u (User.setBackupCodes codes u).
Proof. apply userKept_same_fields; reflexivity. Qed.

Lemma userKept_setPasswordReset tok exp u : userKept u (User.setPasswordReset tok exp u).
Proof. apply userKept_same_fields; reflexivity. Qed.

Lemma userKept_setPassword h u : userKept u (User.setPassword h u).
Proof. apply userKept_same_fields; reflexivity. Qed.

Lemma userKept_savePassword hash p this u :
  userKept u (passwordController.savePassword hash p this u).
Proof.
  unfold passwordController.savePassword.
  destruct (passwordController.passwordModified p this);
    [apply userKept_setPassword | apply userKept_refl].
Qed.

Ltac kept_fields :=
  unfold userKept, wellFormed, lockoutConsistent; cbn;
  intuition (try congruence; try discriminate; try lia).

Lemma userKept_resetLoginAttempts u : userKept u (User.resetLoginAttempts u).
Proof. kept_fields. Qed.

Lemma recordFailure_fields (t : Time) (u : User.IUser) :
  User._id (User.recordFailure t u) = User._id u
  /\ User.email (User.recordFailure t u) = User.email u
  /\ User.role (User.recordFailure t u) = User.role u
  /\ User.twoFactorEnabled (User.recordFailure t u) = User.twoFactorEnabled u
  /\ User.twoFactorSecret (User.recordFailure t u) = User.twoFactorSecret u
  /\ User.isEmailVerified (User.recordFailure t u) = User.isEmailVerified u
  /\ User.emailVerificationToken (User.recordFailure t u)
     = User.emailVerificationToken u.
Proof.
  unfold User.recordFailure, User.incrementLoginAttempts,
    User.incrementLoginAttemptsWith.
  destruct (User.lockExpired t u); [| destruct (_ && _)]; cbn; auto 10.
Qed.

Lemma userKept_recordFailure t u : userKept u (User.recordFailure t u).
Proof.
  destruct (recordFailure_fields t u) as (H1 & H2 & H3 & H4 & H5 & H6 & H7).
  unfold userKept. split; [exact H1 |]. split; [exact H2 |]. split; [exact H3 |].
  intros (Hl & H2f & Hv). unfold wellFormed.
  split; [now apply recordFailure_consistent |].
  rewrite H4, H5, H6, H7. auto.
Qed.

Lemma userKept_setVerified u : userKept u (User.setVerified u).
Proof. kept_fields. Qed.

Lemma userKept_newToken tok exp u :
  User.isEmailVerified u = false ->
  userKept u (User.setEmailVerification tok exp u).
Proof. intros Hv. kept_fields. Qed.

Lemma userKept_setup secret codes u :
  userKept u (User.setTwoFactor (User.twoFactorEnabled u) (Some secret) codes u).
Proof. kept_fields. Qed.

Lemma userKept_enable u :
  User.twoFactorSecret u <> None ->
  userKept u (User.setTwoFactor true (User.twoFactorSecret u) (User.backupCodes u) u).
Proof. intros Hs. kept_fields. Qed.

Lemma userKept_disable u : userKept u (User.setTwoFactor false None None u).
Proof. kept_fields. Qed.

Lemma userKept_regenerate codes u :
  userKept u (User.setTwoFactor (User.twoFactorEnabled u) (User.twoFactorSecret u)
                codes u).
Proof. apply userKept_same_fields; reflexivity. Qed.

Lemma updateUser_kept (id : string) (f : User.IUser -> User.IUser) (db : DB) :
  (forall u, In u (users db) -> User._id u = id -> userKept u (f u)) ->
  Forall2 userKept (users db) (users (updateUser id f db)).
Proof.
  unfold updateUser. cbn [users withUsers].
  induction (users db) as [| u l IH]; intros H; cbn; constructor.
  - destruct (streq (User._id u) id) eqn:E; [| apply userKept_refl].
    apply H; [now left | now apply streq_eq].
  - apply IH. intros u' Hin. apply H. now right.
Qed.

Lemma updateUser_kept_always (id : string) (f : User.IUser -> User.IUser) (db : DB) :
  (forall u, userKept u (f u)) ->
  Forall2 userKept (users db) (users (updateUser id f db)).
Proof. intros H. apply updateUser_kept. auto. Qed.

Lemma Forall2_userKept_refl (l : list User.IUser) : Forall2 userKept l l.
Proof. apply Forall2_refl_gen, userKept_refl. Qed.

Lemma Forall2_userKept_trans (l1 l2 l3 : list User.IUser) :
  Forall2 userKept l1 l2 -> Forall2 userKept l2 l3 -> Forall2 userKept l1 l3.
Proof. apply Forall2_trans_gen, userKept_trans. Qed.

Lemma Forall2_userKept_ids (l l' : list User.IUser) :
  Forall2 userKept l l' ->
  map User._id l' = map User._id l
  /\ map User.email l' = map User.email l
  /\ map User.role l' = map User.role l
  /\ (Forall wellFormed l -> Forall wellFormed l').
Proof.
  induction 1 as [| u u' l l' (H1 & H2 & H3 & H4) _ (I1 & I2 & I3 & I4)]; cbn.
  - repeat split; auto.
  - rewrite H1, H2, H3, I1, I2, I3. repeat split.
    intros HF. inversion HF; subst. constructor; auto.
Qed.

Lemma unique_id (db : DB) (u v : User.IUser) :
  uniqueIds db -> In u (users db) -> In v (users db) ->
  User._id u = User._id v -> u = v.
Proof.
  unfold uniqueIds. induction (users db) as [| x l IH]; cbn; [tauto |].
  intros Hn Hu Hv E. inversion Hn as [| ? ? Hx Hl]; subst.
  destruct Hu as [-> | Hu]; destruct Hv as [-> | Hv].
  - reflexivity.
  - exfalso. apply Hx. rewrite E. now apply in_map.
  - exfalso. apply Hx. rewrite <- E. now apply in_map.
  - now apply IH.
Qed.

Lemma findUserById_In (id : string) (db : DB) (u : User.IUser) :
  findUserById id db = Some u -> In u (users db) /\ User._id u = id.
Proof.
  unfold findUserById. intros H. apply find_some in H.
  destruct H as [H1 H2]. apply streq_eq in H2. auto.
Qed.

Lemma findUserByEmail_In (e : string) (db : DB) (u : User.IUser) :
  findUserByEmail e db = Some u -> In u (users db) /\ User.email u = e.
Proof.
  unfold findUserByEmail. intros H. apply find_some in H.
  destruct H as [H1 H2]. apply streq_eq in H2. auto.
Qed.

Lemma completeLogin_users_kept (env : Env) (user : User.IUser)
    (req : deviceParser.Request) (b : bool) (db : DB) :
  Forall2 userKept (users db)
    (users (authController.database (authController.completeLogin env user req b db))).
Proof.
  destruct (completeLogin_effect env user req b db) as [_ [-> _]].
  eapply Forall2_userKept_trans.
  - apply (updateUser_kept_always (User._id user) User.resetLoginAttempts).
    apply userKept_resetLoginAttempts.
  - apply updateUser_kept_always. intros u. apply userKept_setLastLogin.
Qed.

Ltac users_same :=
  cbn [fst snd twoFactorController.response]; autorewrite with frame;
  apply Forall2_userKept_refl.

Lemma serve_users (a : Arrival) (db : DB) :
  uniqueIds db ->
  Forall2 userKept (users db) (users (snd (serve a db))).
Proof.
  intros Hids.
  destruct a as [env hash sec rnd req call].
  destruct call;
    unfold serve; cbn [at_call at_env at_req at_bcryptHash at_secretBase32 at_randomBytes].
  - (* login *)
    unfold authController.login. cbn [snd].
    destruct (loginRun_outcome env email password twoFactorToken req db)
      as [Hn | user Hu Hl | user Hu Hl Hp | user Hu Hl Hp H2 Ht
          | user token Hu Hl Hp H2 Ht Hv | user Hu Hl Hp H2];
      cbn [authController.database]; autorewrite with frame;
      try apply Forall2_userKept_refl.
    + apply updateUser_kept. intros u Hin Hid.
      apply findUserByEmail_In in Hu. destruct Hu as [Hu _].
      assert (u = user) as -> by (eapply unique_id; eauto).
      apply userKept_recordFailure.
    + apply completeLogin_users_kept.
  - (* refresh *)
    destruct (refreshToken_frame env refreshToken db) as [-> _].
    apply Forall2_userKept_refl.
  - (* forgotPassword *)
    unfold passwordController.forgotPassword. handler_cases; try users_same;
      cbn [snd]; autorewrite with frame;
      apply updateUser_kept_always; intros u; apply userKept_setPasswordReset.
  - (* resetPassword *)
    unfold passwordController.resetPassword. handler_cases; try users_same;
      cbn [snd]; autorewrite with frame.
    + apply updateUser_kept_always. apply userKept_resetLoginAttempts.
    + eapply Forall2_userKept_trans.
      * apply (updateUser_kept_always (User._id i) User.resetLoginAttempts db).
        apply userKept_resetLoginAttempts.
      * apply updateUser_kept_always. intros u.
        eapply userKept_trans; [apply userKept_savePassword |].
        apply userKept_setPasswordReset.
  - (* changePassword *)
    unfold passwordController.changePassword. handler_cases; try users_same;
      cbn [snd]; autorewrite with frame.
    match goal with
    | |- Forall2 userKept _ (users (updateUser ?i ?f ?d)) =>
        eapply Forall2_userKept_trans;
        [| apply (updateUser_kept_always i f d); intros u; apply userKept_savePassword]
    end.
    autorewrite with frame. apply Forall2_userKept_refl.
  - (* resendVerificationEmail *)
    unfold emailVerificationController.resendVerificationEmail.
    destruct (findUserByEmail _ db) as [user |] eqn:Hu; [| users_same].
    destruct (User.isEmailVerified user) eqn:Hv; [users_same |].
    apply findUserByEmail_In in Hu. destruct Hu as [Hu _].
    destruct (negb (mailDelivered env)); cbn [snd]; autorewrite with frame;
      apply updateUser_kept; intros u Hin Hid;
      (assert (u = user) as -> by (eapply unique_id; eauto));
      now apply userKept_newToken.
  - (* verifyEmail *)
    unfold emailVerificationController.verifyEmail. handler_cases; try users_same;
      cbn [snd]; autorewrite with frame;
      apply updateUser_kept_always; apply userKept_setVerified.
  - (* trustDevice *)
    unfold deviceController.trustDevice. handler_cases; users_same.
  - (* revokeDevice *)
    unfold deviceController.revokeDevice. handler_cases; users_same.
  - (* revokeAllDevices *)
    unfold deviceController.revokeAllDevices. handler_cases; users_same.
  - (* revokeSession *)
    unfold sessionController.revokeSession. handler_cases; users_same.
  - (* revokeAllSessions *)
    unfold sessionController.revokeAllSessions. handler_cases; users_same.
  - (* setup2FA *)
    unfold twoFactorController.setup2FA. handler_cases; try users_same;
      cbn [fst snd]; autorewrite with frame;
      apply updateUser_kept_always; intros u; apply userKept_setup.
  - (* verify2FA *)
    unfold twoFactorController.verify2FA.
    destruct (present userId) as [uid |]; [| users_same].
    destruct (findUserById uid db) as [user |] eqn:Hu; [| users_same].
    destruct (present (User.twoFactorSecret user)) as [secret |] eqn:Hs; [| users_same].
    handler_cases; try users_same.
    cbn [fst snd]. autorewrite with frame.
    apply findUserById_In in Hu. destruct Hu as [Hu _].
    apply updateUser_kept. intros u Hin Hid.
    assert (u = user) as -> by (eapply unique_id; eauto).
    apply userKept_enable. intros E. rewrite E in Hs. discriminate.
  - (* disable2FA *)
    unfold twoFactorController.disable2FA. handler_cases; try users_same;
      cbn [fst snd]; autorewrite with frame;
      apply updateUser_kept_always; apply userKept_disable.
  - (* regenerateBackupCodes *)
    unfold twoFactorController.regenerateBackupCodes. handler_cases; try users_same;
      cbn [fst snd]; autorewrite with frame;
      apply updateUser_kept_always; intros u; apply userKept_regenerate.
Qed.

Lemma serveAll_users (arrivals : list Arrival) (db : DB) :
  uniqueIds db ->
  Forall2 userKept (users db) (users (serveAll arrivals db)).
Proof.
  revert db. induction arrivals as [| a rest IH]; intros db Hids; cbn [serveAll].
  - apply Forall2_userKept_refl.
  - pose proof (serve_users a db Hids) as H1.
    eapply Forall2_userKept_trans; [exact H1 |]. apply IH.
    unfold uniqueIds in *. destruct (Forall2_userKept_ids _ _ H1) as [-> _]. exact Hids.
Qed.

(** X16. Whatever calls are served, in whatever order, every stored user
    that was well-formed stays so: consistent lockout fields, two-factor
    authentication enabled only with a secret, no pending verification token
    on a verified address.  No call adds or removes a user or changes an id,
    an address or a role. *)
Theorem stored_users_stay_well_formed (arrivals : list Arrival) (db : DB) :
  uniqueIds db ->
  Forall wellFormed (users db) ->
  let db' := serveAll arrivals db in
  Forall wellFormed (users db')
  /\ map User._id (users db') = map User._id (users db)
  /\ map User.email (users db') = map User.email (users db)
  /\ map User.role (users db') = map User.role (users db).
Proof.
  intros Hids Hwf. cbv zeta.
  destruct (Forall2_userKept_ids _ _ (serveAll_users arrivals db Hids))
    as (H1 & H2 & H3 & H4).
  auto.
Qed.

Lemma sessions_are_only_added_or_revoked_witness :
  exists s',
    nth_error
      (sessions
         (serveAll
            [ arrival 6000
                (DeleteSession (Some Fixtures.aliceId) (sessionController.ObjectId 0)
                   (Some "alice@example.com"));
              arrival 7000 (PostLogin "alice@example.com" "correct horse" None) ]
            Scenario.loggedIn)) 0 = Some s'
    /\ Session.userId s' = Session.userId firstSession
    /\ Session.deviceInfo s' = Session.deviceInfo firstSession
    /\ Session.expiresAt s' = Session.expiresAt firstSession
    /\ Session.createdAt s' = Session.createdAt firstSession
    /\ (Session.isActive firstSession = false -> Session.isActive s' = false).
Proof.
  apply (sessions_are_only_added_or_revoked
           [ arrival 6000
               (DeleteSession (Some Fixtures.aliceId) (sessionController.ObjectId 0)
                   (Some "alice@example.com"));
             arrival 7000 (PostLogin "alice@example.com" "correct horse" None) ]
           Scenario.loggedIn 0 firstSession).
  vm_compute. reflexivity.
Defined.

Lemma revocation_is_permanent_witness :
  success
    (fst (authController.refreshToken (Fixtures.envAt 9000 true)
            (Some (Session.refreshToken (Session.setIsActive false firstSession)))
            (serveAll
               [ arrival 7000 (PostLogin "alice@example.com" "correct horse" None);
                 arrival 8000 (PostRefreshToken (Some Scenario.firstToken)) ]
               revokedFirst))) = false.
Proof.
  apply (revocation_is_permanent
           [ arrival 7000 (PostLogin "alice@example.com" "correct horse" None);
             arrival 8000 (PostRefreshToken (Some Scenario.firstToken)) ]
           revokedFirst 0 (Session.setIsActive false firstSession)
           (Fixtures.envAt 9000 true)).
  - unfold uniqueTokens. vm_compute. constructor; [intros [] | constructor].
  - vm_compute. reflexivity.
  - reflexivity.
Defined.

Lemma stored_users_stay_well_formed_witness :
  Forall wellFormed
    (users
       (serveAll
          [ arrival 1000 (PostLogin "alice@example.com" "guess" None);
            arrival 2000 (PostResendVerification "bob@example.com");
            arrival 3000 (PostSetup2FA (Some Fixtures.aliceId)) ]
          (Fixtures.dbOf [Fixtures.alice; Fixtures.bob]))).
Proof.
  apply (stored_users_stay_well_formed
           [ arrival 1000 (PostLogin "alice@example.com" "guess" None);
             arrival 2000 (PostResendVerification "bob@example.com");
             arrival 3000 (PostSetup2FA (Some Fixtures.aliceId)) ]
           (Fixtures.dbOf [Fixtures.alice; Fixtures.bob])).
  - unfold uniqueIds. cbn.
    constructor; [intros [E | []]; discriminate E |].
    constructor; [intros [] | constructor].
  - repeat constructor; cbn; try lia; try discriminate; intros H; try discriminate H;
      now contradiction H.
Defined.

(** ** Verification of the address *)

Lemma find_unique {A : Type} (p : A -> bool) (l : list A) (x : A) :
  In x l -> p x = true -> (forall y, In y l -> p y = true -> y = x) ->
  find p l = Some x.
Proof.
  induction l as [| a l IH]; cbn; [tauto |].
  intros Hin Hp Hu. destruct (p a) eqn:Ea.
  - f_equal. apply Hu; auto.
  - apply IH; auto. destruct Hin as [-> | Hin]; [congruence | exact Hin].
Qed.

Lemma find_all_false {A : Type} (p : A -> bool) (l : list A) :
  (forall y, In y l -> p y = false) -> find p l = None.
Proof.
  induction l as [| a l IH]; cbn; [reflexivity |].
  intros H. rewrite (H a) by now left. apply IH. intros y Hy. apply H. now right.
Qed.

Lemma holdsVerificationToken_token (token : string) (t : Time) (u : User.IUser) :
  emailVerificationController.holdsVerificationToken token t u = true ->
  User.emailVerificationToken u = Some token.
Proof.
  unfold emailVerificationController.holdsVerificationToken.
  destruct (User.emailVerificationToken u) as [tok |]; [| discriminate].
  destruct (User.emailVerificationExpires u); [| discriminate].
  intros H. apply andb_true_iff in H. destruct H as [H _].
  apply streq_eq in H. now subst.
Qed.

(** X17. While no verified account holds a verification token, the
    verification handler never gives the answer that the address is already
    verified.  A verification link works once: after a request that is
    answered with a successful verification, every later request with the
    same token is answered 400 as an invalid or expired token and writes
    nothing, provided the token was stored for one account only. *)
Theorem verifyEmail_never_reports_already_verified (env : Env)
    (token : option string) (req : deviceParser.Request) (db : DB) :
  (forall u, In u (users db) -> User.isEmailVerified u = true ->
             User.emailVerificationToken u = None) ->
  let out := emailVerificationController.verifyEmail env token req db in
  fst out <> reply 200 true "Email already verified"
  /\ (fst out = reply 200 true "Email verified successfully" ->
      (forall u v, In u (users db) -> In v (users db) ->
                   User.emailVerificationToken u = token ->
                   User.emailVerificationToken v = token ->
                   User._id u = User._id v) ->
      forall (env' : Env) (req' : deviceParser.Request),
        emailVerificationController.verifyEmail env' token req' (snd out)
        = (reply 400 false "Invalid or expired verification token", snd out)).
Proof.
  intros Hv. cbv zeta.
  remember (emailVerificationController.verifyEmail env token req db) as out eqn:Hout.
  unfold emailVerificationController.verifyEmail in Hout.
  destruct (present token) as [tok |] eqn:Hp; [| subst out; split; cbn; discriminate].
  assert (token = Some tok) as ->.
  { destruct token as [x |]; cbn in Hp; [| discriminate].
    destruct (truthy x); congruence. }
  destruct (find _ (users db)) as [user |] eqn:Hf;
    [| subst out; split; cbn; discriminate].
  apply find_some in Hf. destruct Hf as [Hin Hh].
  destruct (User.isEmailVerified user) eqn:Hver.
  { apply holdsVerificationToken_token in Hh. rewrite (Hv user Hin Hver) in Hh.
    discriminate. }
  subst out. split; [cbn; discriminate |].
  intros _ Huniq env' req'. cbn [snd].
  unfold emailVerificationController.verifyEmail. rewrite Hp.
  rewrite users_logSecurityEvent.
  rewrite find_all_false; [reflexivity |].
  intros y Hy. apply In_updateUser in Hy. destruct Hy as (u & Hu & ->).
  destruct (streq (User._id u) (User._id user)) eqn:E; [reflexivity |].
  destruct (emailVerificationController.holdsVerificationToken tok (now env') u)
    eqn:Hhu; [| reflexivity].
  apply holdsVerificationToken_token in Hhu, Hh.
  rewrite (Huniq u user Hu Hin Hhu Hh), streq_refl in E. discriminate.
Qed.

(** Witness: Bob follows his verification link, twice. *)
Lemma verifyEmail_never_reports_already_verified_witness :
  let db := Fixtures.dbOf [Fixtures.alice; Fixtures.bob] in
  let first := emailVerificationController.verifyEmail (Fixtures.envAt 500 true)
                 (Some "a1b2") Fixtures.chromeDesktop db in
  fst first = reply 200 true "Email verified successfully"
  /\ fst first <> reply 200 true "Email already verified"
  /\ emailVerificationController.verifyEmail (Fixtures.envAt 600 true)
       (Some "a1b2") Fixtures.chromeDesktop (snd first)
     = (reply 400 false "Invalid or expired verification token", snd first).
Proof.
  cbv zeta.
  destruct (verifyEmail_never_reports_already_verified (Fixtures.envAt 500 true)
              (Some "a1b2") Fixtures.chromeDesktop
              (Fixtures.dbOf [Fixtures.alice; Fixtures.bob])) as [Hne Hsecond].
  - intros u [<- | [<- | []]] H; [reflexivity | discriminate H].
  - split; [vm_compute; reflexivity |]. split; [exact Hne |].
    apply Hsecond; [vm_compute; reflexivity |].
    intros u v [<- | [<- | []]] [<- | [<- | []]] Hu Hw;
      try reflexivity; discriminate.
Defined.

(** ** Password reset: the life of a reset token *)

Lemma forgotPassword_users (env : Env) (email : string) (req : deviceParser.Request)
    (db : DB) (user : User.IUser) :
  findUserByEmail (toLowerCase env email) db = Some user ->
  users (snd (passwordController.forgotPassword env email req db))
  = users (updateUser (User._id user)
             (User.setPasswordReset (Some (randomBytesHex env))
                                    (Some (now env + 60 * 60 * 1000))) db).
Proof.
  intros Hu. unfold passwordController.forgotPassword. rewrite Hu.
  destruct (negb (mailDelivered env)); cbn [snd]; autorewrite with frame; reflexivity.
Qed.

Lemma holdsResetToken_other (token : string) (t : Time) (u : User.IUser) :
  User.passwordResetToken u <> Some token ->
  passwordController.holdsResetToken token t u = false.
Proof.
  unfold passwordController.holdsResetToken. intros H.
  destruct (User.passwordResetToken u) as [tok |]; [| reflexivity].
  destruct (User.passwordResetExpires u); [| reflexivity].
  destruct (streq tok token) eqn:E; [| reflexivity].
  apply streq_eq in E. subst. now contradiction H.
Qed.

Lemma issued_reset_token_holder (db : DB) (user : User.IUser) (token : string)
    (expires t : Time) :
  uniqueIds db ->
  In user (users db) ->
  (forall u, In u (users db) -> User.passwordResetToken u <> Some token) ->
  find (passwordController.holdsResetToken token t)
       (users (updateUser (User._id user)
                 (User.setPasswordReset (Some token) (Some expires)) db))
  = if t <? expires
    then Some (User.setPasswordReset (Some token) (Some expires) user)
    else None.
Proof.
  intros Hids Hin Hfresh.
  destruct (t <? expires) eqn:Et.
  - apply find_unique.
    + unfold updateUser. cbn [users withUsers]. apply in_map_iff.
      exists user. split; [now rewrite streq_refl | exact Hin].
    + unfold passwordController.holdsResetToken. cbn. now rewrite streq_refl, Et.
    + intros y Hy Hp. apply In_updateUser in Hy. destruct Hy as (u & Hu & ->).
      destruct (streq (User._id u) (User._id user)) eqn:E.
      * apply streq_eq in E. f_equal. eapply unique_id; eauto.
      * rewrite holdsResetToken_other in Hp by auto. discriminate.
  - apply find_all_false. intros y Hy.
    apply In_updateUser in Hy. destruct Hy as (u & Hu & ->).
    destruct (streq (User._id u) (User._id user)) eqn:E.
    + unfold passwordController.holdsResetToken. cbn. now rewrite streq_refl, Et.
    + apply holdsResetToken_other. auto.
Qed.

(** X18. The token that the forgot-password handler stores (whether or
    not its mail could be sent) opens the reset handler for one hour.  From
    one hour after the request on, the token is refused and nothing changes.
    Before, a password that is not weak, differs from the current one and has
    at least 8 characters is accepted: the stored password becomes its hash,
    the lockout is cleared, and the token is gone, so a second reset with the
    same token is refused. *)
Theorem reset_token_lives_one_hour
    (env1 env2 : Env) (email password : string) (hash : string -> string)
    (req1 req2 : deviceParser.Request) (db : DB) (user : User.IUser) :
  uniqueIds db ->
  findUserByEmail (toLowerCase env1 email) db = Some user ->
  (forall u, In u (users db) ->
             User.passwordResetToken u <> Some (randomBytesHex env1)) ->
  let db1 := snd (passwordController.forgotPassword env1 email req1 db) in
  let out :=
    passwordController.resetPassword env2 hash (randomBytesHex env1) password req2 db1 in
  (now env1 + 3600000 <= now env2 ->
   out = (reply 400 false "Invalid or expired reset token", db1))
  /\ (now env2 < now env1 + 3600000 ->
      passwordController.isWeak
        (passwordStrength.checkPasswordStrength (JS.units password)) = false ->
      bcryptCompare env2 password (User.password user) = false ->
      8 <= Z.of_nat (String.length password) ->
      fst out = reply 200 true "Password reset successfully"
      /\ (forall u, In u (users (snd out)) -> User._id u = User._id user ->
            User.passwordResetToken u = None
            /\ lockoutState u = (0, None, false)
            /\ (password <> User.password user -> User.password u = hash password))
      /\ forall env3 password3 req3,
           fst (passwordController.resetPassword env3 hash (randomBytesHex env1)
                  password3 req3 (snd out))
           = reply 400 false "Invalid or expired reset token").
Proof.
  intros Hids Hu Hfresh. cbv zeta.
  pose proof (forgotPassword_users env1 email req1 db user Hu) as Husers.
  destruct (findUserByEmail_In _ _ _ Hu) as [Hin _].
  set (db1 := snd (passwordController.forgotPassword env1 email req1 db)) in *.
  set (tok := randomBytesHex env1) in *.
  assert (Hfind : forall t,
    find (passwordController.holdsResetToken tok t) (users db1)
    = if t <? now env1 + 60 * 60 * 1000
      then Some (User.setPasswordReset (Some tok) (Some (now env1 + 60 * 60 * 1000)) user)
      else None).
  { intros t. rewrite Husers. now apply issued_reset_token_holder. }
  split.
  - intros Hlate. unfold passwordController.resetPassword. rewrite Hfind.
    replace (now env2 <? now env1 + 60 * 60 * 1000) with false
      by (symmetry; apply Z.ltb_ge; lia).
    reflexivity.
  - intros Hearly Hweak Hsame Hlen.
    unfold passwordController.resetPassword. rewrite Hfind.
    replace (now env2 <? now env1 + 60 * 60 * 1000) with true
      by (symmetry; apply Z.ltb_lt; lia).
    rewrite Hweak.
    cbn [User.password User.setPasswordReset User._id].
    rewrite Hsame.
    assert (Hval : passwordController.passwordValidates password
                     (User.setPasswordReset (Some tok)
                        (Some (now env1 + 60 * 60 * 1000)) user) = true).
    { unfold passwordController.passwordValidates.
      replace (8 <=? Z.of_nat (String.length password)) with true
        by (symmetry; apply Z.leb_le; lia).
      apply orb_true_r. }
    rewrite Hval. cbn [negb fst snd].
    split; [reflexivity |].
    assert (Hstored : forall u,
      In u (users (auth.logSecurityEvent env2 (Some (User._id user))
                     (Some (User.email user)) "password_reset" req2
                     SecurityLog.success (Some "Password reset successfully")
                     (updateUser (User._id user)
                        (fun u0 => User.setPasswordReset None None
                           (passwordController.savePassword hash password
                              (User.setPasswordReset (Some tok)
                                 (Some (now env1 + 60 * 60 * 1000)) user) u0))
                        (updateUser (User._id user) User.resetLoginAttempts db1)))) ->
      exists u0, In u0 (users db)
        /\ ((User._id u0 = User._id user
             /\ u = User.setPasswordReset None None
                      (passwordController.savePassword hash password
                         (User.setPasswordReset (Some tok)
                            (Some (now env1 + 60 * 60 * 1000)) user)
                         (User.resetLoginAttempts
                            (User.setPasswordReset (Some tok)
                               (Some (now env1 + 60 * 60 * 1000)) u0))))
            \/ (User._id u0 <> User._id user /\ u = u0))).
    { intros u Hu'. rewrite users_logSecurityEvent in Hu'.
      apply In_updateUser in Hu'. destruct Hu' as (u2 & Hu2 & ->).
      apply In_updateUser in Hu2. destruct Hu2 as (u1 & Hu1 & ->).
      rewrite Husers in Hu1.
      apply In_updateUser in Hu1. destruct Hu1 as (u0 & Hu0 & ->).
      exists u0. split; [exact Hu0 |].
      destruct (streq (User._id u0) (User._id user)) eqn:E.
      - left. split; [now apply streq_eq |].
        repeat (cbn [User._id User.setPasswordReset User.resetLoginAttempts
                     User.setLockout];
                rewrite E).
        reflexivity.
      - right. repeat rewrite E. split; [| reflexivity].
        intros C. rewrite C, streq_refl in E. discriminate. }
    split.
    + intros u Hu' Hid.
      destruct (Hstored u Hu') as (u0 & Hu0 & [[_ ->] | [Hne ->]]);
        [| now contradiction Hne].
      unfold passwordController.savePassword, passwordController.passwordModified.
      cbn [User.password User.setPasswordReset].
      destruct (streq password (User.password user)) eqn:Ep; cbn.
      * repeat split. intros Hne. apply streq_eq in Ep. now contradiction Hne.
      * repeat split.
    + intros env3 password3 req3.
      unfold passwordController.resetPassword.
      rewrite find_all_false; [reflexivity |].
      intros u Hu'.
      destruct (Hstored u Hu') as (u0 & Hu0 & [[_ ->] | [Hne ->]]).
      * reflexivity.
      * apply holdsResetToken_other. now apply Hfresh.
Qed.

Lemma reset_token_lives_one_hour_witness :
  fst (passwordController.resetPassword (Fixtures.envAt 3601000 true)
         (fun p => String.append "bcrypt:" p) "9f8e7d6c" "Sunny-Day-42"
         Fixtures.chromeDesktop
         (snd (passwordController.forgotPassword (Fixtures.envAt 1000 false)
                 "alice@example.com" Fixtures.chromeDesktop
                 (Fixtures.dbOf [Fixtures.alice]))))
  = reply 400 false "Invalid or expired reset token"
  /\ fst (passwordController.resetPassword (Fixtures.envAt 3600999 true)
            (fun p => String.append "bcrypt:" p) "9f8e7d6c" "Sunny-Day-42"
            Fixtures.chromeDesktop
            (snd (passwordController.forgotPassword (Fixtures.envAt 1000 false)
                    "alice@example.com" Fixtures.chromeDesktop
                    (Fixtures.dbOf [Fixtures.alice]))))
     = reply 200 true "Password reset successfully".
Proof.
  split.
  - destruct (reset_token_lives_one_hour (Fixtures.envAt 1000 false)
                (Fixtures.envAt 3601000 true) "alice@example.com" "Sunny-Day-42"
                (fun p => String.append "bcrypt:" p)
                Fixtures.chromeDesktop Fixtures.chromeDesktop
                (Fixtures.dbOf [Fixtures.alice]) Fixtures.alice) as [Hlate _].
    + unfold uniqueIds. cbn. constructor; [intros [] | constructor].
    + reflexivity.
    + intros u [<- | []]. cbn. discriminate.
    + cbv zeta in Hlate.
      assert (Ht : now (Fixtures.envAt 1000 false) + 3600000
                   <= now (Fixtures.envAt 3601000 true)) by (cbn; lia).
      exact (f_equal fst (Hlate Ht)).
  - destruct (reset_token_lives_one_hour (Fixtures.envAt 1000 false)
                (Fixtures.envAt 3600999 true) "alice@example.com" "Sunny-Day-42"
                (fun p => String.append "bcrypt:" p)
                Fixtures.chromeDesktop Fixtures.chromeDesktop
                (Fixtures.dbOf [Fixtures.alice]) Fixtures.alice) as [_ Hearly].
    + unfold uniqueIds. cbn. constructor; [intros [] | constructor].
    + reflexivity.
    + intros u [<- | []]. cbn. discriminate.
    + cbv zeta in Hearly.
      assert (Ht : now (Fixtures.envAt 3600999 true)
                   < now (Fixtures.envAt 1000 false) + 3600000) by (cbn; lia).
      assert (Hw : passwordController.isWeak
                     (passwordStrength.checkPasswordStrength (JS.units "Sunny-Day-42"))
                   = false) by (vm_compute; reflexivity).
      assert (Hc : bcryptCompare (Fixtures.envAt 3600999 true) "Sunny-Day-42"
                     (User.password Fixtures.alice) = false) by reflexivity.
      assert (Hl : 8 <= Z.of_nat (String.length "Sunny-Day-42")) by (cbn; lia).
      exact (proj1 (Hearly Ht Hw Hc Hl)).
Defined.

(** ** What a call does to a stored user *)

Lemma updateUser_steps (R : User.IUser -> User.IUser -> Prop) (id : string)
    (f : User.IUser -> User.IUser) (db : DB) :
  (forall u, R u u) ->
  (forall u, In u (users db) -> User._id u = id -> R u (f u)) ->
  Forall2 R (users db) (users (updateUser id f db)).
Proof.
  unfold updateUser. cbn [users withUsers]. intros Hr.
  induction (users db) as [| u l IH]; intros H; cbn; constructor.
  - destruct (streq (User._id u) id) eqn:E; [| apply Hr].
    apply H; [now left | now apply streq_eq].
  - apply IH. intros u' Hin. apply H. now right.
Qed.

Lemma updateUser_compose (id : string) (f g : User.IUser -> User.IUser) (db : DB) :
  (forall u, User._id (f u) = User._id u) ->
  users (updateUser id g (updateUser id f db))
  = users (updateUser id (fun u => g (f u)) db).
Proof.
  intros Hf. unfold updateUser. cbn [users withUsers]. rewrite map_map.
  apply map_ext. intros u.
  destruct (streq (User._id u) id) eqn:E; [| now rewrite E].
  now rewrite Hf, E.
Qed.

Lemma completeLogin_users (env : Env) (user : User.IUser)
    (req : deviceParser.Request) (b : bool) (db : DB) :
  users (authController.database (authController.completeLogin env user req b db))
  = users (updateUser (User._id user)
             (fun u => User.setLastLogin (Some (now env))
                         (Some (deviceParser.req_ipAddress req))
                         (User.resetLoginAttempts u)) db).
Proof.
  destruct (completeLogin_effect env user req b db) as [_ [-> _]].
  now rewrite updateUser_compose.
Qed.

Ltac no_step :=
  cbn [fst snd twoFactorController.response]; autorewrite with frame;
  apply Forall2_refl_gen; intros; apply step_none.

Lemma serve_user_steps (a : Arrival) (db : DB) :
  uniqueIds db ->
  Forall2 (UserStep a) (users db) (users (snd (serve a db))).
Proof.
  intros Hids.
  assert (Hsame : forall user u, In user (users db) -> In u (users db) ->
                                 User._id u = User._id user -> u = user).
  { intros user u H1 H2 E. eapply unique_id; eauto. }
  destruct a as [env hash sec rnd req call].
  destruct call;
    unfold serve; cbn [at_call at_env at_req at_bcryptHash at_secretBase32 at_randomBytes].
  - (* login *)
    unfold authController.login. cbn [snd].
    destruct (loginRun_outcome env email password twoFactorToken req db)
      as [Hn | user Hu Hl | user Hu Hl Hp | user Hu Hl Hp H2 Ht
          | user token Hu Hl Hp H2 Ht Hv | user Hu Hl Hp H2];
      try (apply findUserByEmail_In in Hu; destruct Hu as [Hu _]);
      cbn [authController.database]; autorewrite with frame;
      try (apply Forall2_refl_gen; intros; apply step_none).
    + apply updateUser_steps; [intros; apply step_none |].
      intros u Hin Hid. rewrite (Hsame user u Hu Hin Hid).
      eapply step_failed_login; [reflexivity | exact Hl | exact Hp].
    + rewrite completeLogin_users.
      apply updateUser_steps; [intros; apply step_none |].
      intros u Hin Hid. rewrite (Hsame user u Hu Hin Hid).
      eapply step_login; [reflexivity | exact Hl | exact Hp].
  - (* refresh *)
    destruct (refreshToken_frame env refreshToken db) as [-> _].
    apply Forall2_refl_gen; intros; apply step_none.
  - (* forgotPassword *)
    unfold passwordController.forgotPassword. handler_cases; try no_step;
      cbn [snd]; autorewrite with frame;
      (apply updateUser_steps; [intros; apply step_none |]);
      intros u _ _; eapply step_forgot_password; reflexivity.
  - (* resetPassword *)
    unfold passwordController.resetPassword.
    destruct (find _ (users db)) as [user |] eqn:Hf; [| no_step].
    apply find_some in Hf. destruct Hf as [Hu Hh].
    destruct (passwordController.isWeak _) eqn:Hw; [no_step |].
    destruct (bcryptCompare env password (User.password user)) eqn:Hc; [no_step |].
    destruct (passwordController.passwordValidates password user) eqn:Hv;
      cbn [negb fst snd]; autorewrite with frame.
    + rewrite updateUser_compose by reflexivity.
      apply updateUser_steps; [intros; apply step_none |].
      intros u Hin Hid. rewrite (Hsame user u Hu Hin Hid).
      eapply step_reset_password; try eassumption. reflexivity.
    + apply updateUser_steps; [intros; apply step_none |].
      intros u Hin Hid. rewrite (Hsame user u Hu Hin Hid).
      eapply step_reset_refused_on_save; try eassumption. reflexivity.
  - (* changePassword *)
    unfold passwordController.changePassword.
    destruct (present userId) as [uid |] eqn:Hp; [| no_step].
    destruct (findUserById uid db) as [user |] eqn:Hf; [| no_step].
    apply findUserById_In in Hf. destruct Hf as [Hu Hid'].
    destruct (bcryptCompare env currentPassword (User.password user)) eqn:Hc;
      cbn [negb]; [| no_step].
    destruct (passwordController.isWeak _) eqn:Hw; [no_step |].
    destruct (bcryptCompare env newPassword (User.password user)) eqn:Hn; [no_step |].
    destruct (passwordController.passwordValidates newPassword user) eqn:Hv;
      cbn [negb fst snd]; autorewrite with frame; [| no_step].
    match goal with
    | |- Forall2 _ _ (users (updateUser ?i ?f ?d)) =>
        replace (users (updateUser i f d)) with (users (updateUser i f db))
    end.
    2:{ unfold updateUser. cbn [users withUsers]. now autorewrite with frame. }
    apply updateUser_steps; [intros; apply step_none |].
    intros u Hin Hid. rewrite (Hsame user u Hu Hin Hid).
    eapply step_change_password; try eassumption; [reflexivity |].
    now rewrite Hid'.
  - (* resendVerificationEmail *)
    unfold emailVerificationController.resendVerificationEmail.
    destruct (findUserByEmail _ db) as [user |] eqn:Hu; [| no_step].
    destruct (User.isEmailVerified user) eqn:Hv; [no_step |].
    apply findUserByEmail_In in Hu. destruct Hu as [Hu _].
    destruct (negb (mailDelivered env)); cbn [snd]; autorewrite with frame;
      (apply updateUser_steps; [intros; apply step_none |]);
      intros u Hin Hid; rewrite (Hsame user u Hu Hin Hid);
      eapply step_new_verification_token; try eassumption; reflexivity.
  - (* verifyEmail *)
    unfold emailVerificationController.verifyEmail.
    destruct (present token) as [tok |] eqn:Hp; [| no_step].
    destruct (find _ (users db)) as [user |] eqn:Hf; [| no_step].
    apply find_some in Hf. destruct Hf as [Hu Hh].
    destruct (User.isEmailVerified user) eqn:Hv; [no_step |].
    cbn [snd]. autorewrite with frame.
    apply updateUser_steps; [intros; apply step_none |].
    intros u Hin Hid. rewrite (Hsame user u Hu Hin Hid).
    assert (token = Some tok) as ->.
    { destruct token as [x |]; cbn in Hp; [| discriminate].
      destruct (truthy x); congruence. }
    eapply step_verify_email; try eassumption. reflexivity.
  - unfold deviceController.trustDevice. handler_cases; no_step.
  - unfold deviceController.revokeDevice. handler_cases; no_step.
  - unfold deviceController.revokeAllDevices. handler_cases; no_step.
  - unfold sessionController.revokeSession. handler_cases; no_step.
  - unfold sessionController.revokeAllSessions. handler_cases; no_step.
  - (* setup2FA *)
    unfold twoFactorController.setup2FA.
    destruct (present userId) as [uid |] eqn:Hp; [| no_step].
    destruct (findUserById uid db) as [user |] eqn:Hf; [| no_step].
    apply findUserById_In in Hf. destruct Hf as [Hu Hid'].
    destruct (User.twoFactorEnabled user) eqn:He; [no_step |].
    cbn [fst snd twoFactorController.response]. autorewrite with frame.
    apply updateUser_steps; [intros; apply step_none |].
    intros u Hin Hid. rewrite (Hsame user u Hu Hin Hid).
    eapply step_setup_2fa; try eassumption; [reflexivity | now rewrite Hid'].
  - (* verify2FA *)
    unfold twoFactorController.verify2FA.
    destruct (present userId) as [uid |] eqn:Hp; [| no_step].
    destruct (findUserById uid db) as [user |] eqn:Hf; [| no_step].
    apply findUserById_In in Hf. destruct Hf as [Hu Hid'].
    destruct (present (User.twoFactorSecret user)) as [secret |] eqn:Hs; [| no_step].
    destruct (User.twoFactorEnabled user) eqn:He; [no_step |].
    destruct (totpVerify env (Some secret) token (now env)) eqn:Hv;
      cbn [negb]; [| no_step].
    cbn [fst snd twoFactorController.response]. autorewrite with frame.
    apply updateUser_steps; [intros; apply step_none |].
    intros u Hin Hid. rewrite (Hsame user u Hu Hin Hid).
    assert (Hsec : User.twoFactorSecret user = Some secret).
    { destruct (User.twoFactorSecret user) as [x |]; cbn in Hs; [| discriminate].
      destruct (truthy x); congruence. }
    eapply step_enable_2fa; try eassumption; try reflexivity.
    + now rewrite Hid'.
    + rewrite Hsec. discriminate.
    + rewrite Hsec. exact Hv.
  - (* disable2FA *)
    unfold twoFactorController.disable2FA.
    destruct (present userId) as [uid |] eqn:Hp; [| no_step].
    destruct (findUserById uid db) as [user |] eqn:Hf; [| no_step].
    apply findUserById_In in Hf. destruct Hf as [Hu Hid'].
    destruct (User.twoFactorEnabled user) eqn:He; cbn [negb]; [| no_step].
    destruct (bcryptCompare env password (User.password user)) eqn:Hc;
      cbn [negb]; [| no_step].
    destruct (totpVerify env (User.twoFactorSecret user) token (now env)) eqn:Hv;
      cbn [negb]; [| no_step].
    cbn [fst snd twoFactorController.response]. autorewrite with frame.
    apply updateUser_steps; [intros; apply step_none |].
    intros u Hin Hid. rewrite (Hsame user u Hu Hin Hid).
    eapply step_disable_2fa; try eassumption; [reflexivity | now rewrite Hid'].
  - (* regenerateBackupCodes *)
    unfold twoFactorController.regenerateBackupCodes.
    destruct (present userId) as [uid |] eqn:Hp; [| no_step].
    destruct (findUserById uid db) as [user |] eqn:Hf; [| no_step].
    apply findUserById_In in Hf. destruct Hf as [Hu Hid'].
    destruct (User.twoFactorEnabled user) eqn:He; cbn [negb]; [| no_step].
    destruct (bcryptCompare env password (User.password user)) eqn:Hc;
      cbn [negb]; [| no_step].
    cbn [fst snd twoFactorController.response]. autorewrite with frame.
    apply updateUser_steps; [intros; apply step_none |].
    intros u Hin Hid. rewrite (Hsame user u Hu Hin Hid).
    eapply step_regenerate_codes; try eassumption; [reflexivity | now rewrite Hid'].
Qed.

Lemma UserStep_id (a : Arrival) (u u' : User.IUser) :
  UserStep a u u' -> User._id u' = User._id u.
Proof.
  destruct 1; try reflexivity.
  - apply recordFailure_fields.
  - unfold passwordController.savePassword.
    destruct (passwordController.passwordModified _ _); reflexivity.
  - unfold passwordController.savePassword.
    destruct (passwordController.passwordModified _ _); reflexivity.
Qed.

Lemma find_by_id_step (R : User.IUser -> User.IUser -> Prop) (id : string)
    (l l' : list User.IUser) (u : User.IUser) :
  (forall x x', R x x' -> User._id x' = User._id x) ->
  Forall2 R l l' ->
  find (fun x => streq (User._id x) id) l = Some u ->
  exists u', find (fun x => streq (User._id x) id) l' = Some u' /\ R u u'.
Proof.
  intros Hid. induction 1 as [| x x' l l' Hx _ IH]; cbn; [discriminate |].
  rewrite (Hid x x' Hx).
  destruct (streq (User._id x) id).
  - intros E. injection E as <-. exists x'. auto.
  - exact IH.
Qed.

Lemma stored_user_step (a : Arrival) (db : DB) (id : string) (u u' : User.IUser) :
  uniqueIds db ->
  findUserById id db = Some u ->
  findUserById id (snd (serve a db)) = Some u' ->
  UserStep a u u'.
Proof.
  intros Hids Hu Hu'.
  destruct (find_by_id_step (UserStep a) id _ _ u (UserStep_id a)
              (serve_user_steps a db Hids) Hu) as (u2 & H2 & Hs).
  unfold findUserById in Hu'. congruence.
Qed.

(** ** What never happens to a stored user *)

(** X19. Two-factor authentication is switched only with a valid
    time-based code.  If a served call changes [twoFactorEnabled] of a stored
    user, the call is that user's own verification or disabling call, its
    code is accepted for the stored secret, and disabling in addition carries
    the user's password; backup codes switch nothing. *)
Theorem two_factor_switches_only_with_a_valid_code
    (a : Arrival) (db : DB) (id : string) (u u' : User.IUser) :
  uniqueIds db ->
  findUserById id db = Some u ->
  findUserById id (snd (serve a db)) = Some u' ->
  User.twoFactorEnabled u' <> User.twoFactorEnabled u ->
  exists userId token,
    present userId = Some (User._id u)
    /\ totpVerify (at_env a) (User.twoFactorSecret u) token (now (at_env a)) = true
    /\ ((User.twoFactorEnabled u' = true
         /\ at_call a = PostVerify2FA userId token
         /\ User.twoFactorSecret u <> None
         /\ User.twoFactorSecret u' = User.twoFactorSecret u)
        \/ (User.twoFactorEnabled u' = false
            /\ User.twoFactorSecret u' = None
            /\ User.backupCodes u' = None
            /\ exists password,
                 at_call a = PostDisable2FA userId password token
                 /\ bcryptCompare (at_env a) password (User.password u) = true)).
Proof.
  intros Hids Hu Hu' Hne.
  pose proof (stored_user_step a db id u u' Hids Hu Hu') as Hs.
  destruct Hs;
    try (exfalso; apply Hne; reflexivity);
    try (exfalso; apply Hne; apply recordFailure_fields);
    try (exfalso; apply Hne; unfold passwordController.savePassword;
         destruct (passwordController.passwordModified _ _); reflexivity).
  - exists userId, token. split; [assumption |]. split; [assumption |].
    left. repeat split; assumption.
  - exists userId, token. split; [assumption |]. split; [assumption |].
    right. repeat split. exists password. split; assumption.
Qed.

Lemma two_factor_switches_only_with_a_valid_code_witness :
  exists userId token,
    present userId = Some Fixtures.aliceId
    /\ totpVerify (Fixtures.envAt 1000 true) (Some "JBSWY3DPEHPK3PXP") token 1000 = true
    /\ at_call (arrival 1000 (PostVerify2FA (Some Fixtures.aliceId) "000000"))
       = PostVerify2FA userId token.
Proof.
  destruct (two_factor_switches_only_with_a_valid_code
              (arrival 1000 (PostVerify2FA (Some Fixtures.aliceId) "000000"))
              (Fixtures.dbOf [aliceSetUp]) Fixtures.aliceId aliceSetUp
              (User.setTwoFactor true (Some "JBSWY3DPEHPK3PXP") (Some ["DEADBEEF"])
                 aliceSetUp))
    as (userId & token & Hp & Hv & [(_ & Hc & _) | (He & _)]).
  - unfold uniqueIds. cbn. constructor; [intros [] | constructor].
  - reflexivity.
  - vm_compute. reflexivity.
  - cbn. discriminate.
  - exists userId, token. repeat split; assumption.
  - cbn in He. discriminate He.
Defined.

(** X20. The stored password of a user changes only through that user's
    reset with a reset token that the user holds and that has not expired, or
    through that user's password change with the current password; the new
    value is the hash of a password that is not weak, has at least 8
    characters and is not accepted as the current one. *)
Theorem password_changes_only_by_reset_or_change
    (a : Arrival) (db : DB) (id : string) (u u' : User.IUser) :
  uniqueIds db ->
  findUserById id db = Some u ->
  findUserById id (snd (serve a db)) = Some u' ->
  User.password u' <> User.password u ->
  exists new,
    User.password u' = at_bcryptHash a new
    /\ passwordController.isWeak
         (passwordStrength.checkPasswordStrength (JS.units new)) = false
    /\ bcryptCompare (at_env a) new (User.password u) = false
    /\ 8 <= Z.of_nat (String.length new)
    /\ ((exists token,
           at_call a = PostResetPassword token new
           /\ passwordController.holdsResetToken token (now (at_env a)) u = true)
        \/ (exists userId current,
              at_call a = PostChangePassword userId current new
              /\ present userId = Some (User._id u)
              /\ bcryptCompare (at_env a) current (User.password u) = true)).
Proof.
  intros Hids Hu Hu' Hne.
  pose proof (stored_user_step a db id u u' Hids Hu Hu') as Hs.
  assert (Hlen : forall p,
    passwordController.passwordValidates p u = true ->
    passwordController.passwordModified p u = true ->
    8 <= Z.of_nat (String.length p)).
  { intros p Hv Hm. unfold passwordController.passwordValidates in Hv.
    rewrite Hm in Hv. cbn in Hv. now apply Z.leb_le. }
  destruct Hs;
    try (exfalso; apply Hne; reflexivity);
    try (exfalso; apply Hne;
         unfold User.recordFailure, User.incrementLoginAttempts,
           User.incrementLoginAttemptsWith;
         destruct (User.lockExpired _ _); [| destruct (_ && _)]; reflexivity).
  - exists password.
    unfold passwordController.savePassword in *.
    destruct (passwordController.passwordModified password u) eqn:Hm;
      [| exfalso; apply Hne; reflexivity].
    split; [reflexivity |]. split; [assumption |]. split; [assumption |].
    split; [now apply Hlen |]. left. exists token. split; assumption.
  - exists newPassword.
    unfold passwordController.savePassword in *.
    destruct (passwordController.passwordModified newPassword u) eqn:Hm;
      [| exfalso; apply Hne; reflexivity].
    split; [reflexivity |]. split; [assumption |]. split; [assumption |].
    split; [now apply Hlen |]. right. exists userId, currentPassword.
    repeat split; assumption.
Qed.

Lemma password_changes_only_by_reset_or_change_witness :
  exists new,
    "bcrypt:Sunny-Day-42" = String.append "bcrypt:" new
    /\ 8 <= Z.of_nat (String.length new).
Proof.
  destruct (password_changes_only_by_reset_or_change
              (arrival 1000
                 (PostChangePassword (Some Fixtures.aliceId) "correct horse"
                    "Sunny-Day-42"))
              (Fixtures.dbOf [Fixtures.alice]) Fixtures.aliceId Fixtures.alice
              (User.setPassword "bcrypt:Sunny-Day-42" Fixtures.alice))
    as (new & Hp & _ & _ & Hl & _).
  - unfold uniqueIds. cbn. constructor; [intros [] | constructor].
  - reflexivity.
  - vm_compute. reflexivity.
  - cbn. discriminate.
  - exists new. split; [exact Hp | exact Hl].
Defined.

(** X21. A verified address stays verified, and an address becomes
    verified only when a call presents the verification token that the user
    holds, before its expiry. *)
Theorem address_is_verified_only_with_the_held_token
    (a : Arrival) (db : DB) (id : string) (u u' : User.IUser) :
  uniqueIds db ->
  findUserById id db = Some u ->
  findUserById id (snd (serve a db)) = Some u' ->
  User.isEmailVerified u' <> User.isEmailVerified u ->
  User.isEmailVerified u = false
  /\ User.isEmailVerified u' = true
  /\ exists token expires,
       at_call a = GetVerifyEmail (Some token)
       /\ User.emailVerificationToken u = Some token
       /\ User.emailVerificationExpires u = Some expires
       /\ now (at_env a) < expires.
Proof.
  intros Hids Hu Hu' Hne.
  pose proof (stored_user_step a db id u u' Hids Hu Hu') as Hs.
  destruct Hs;
    try (exfalso; apply Hne; reflexivity);
    try (exfalso; apply Hne; apply recordFailure_fields);
    try (exfalso; apply Hne; unfold passwordController.savePassword;
         destruct (passwordController.passwordModified _ _); reflexivity).
  split; [assumption |]. split; [reflexivity |].
  match goal with
  | H : emailVerificationController.holdsVerificationToken _ _ _ = true |- _ =>
      revert H
  end.
  unfold emailVerificationController.holdsVerificationToken.
  destruct (User.emailVerificationToken u) as [tok |]; [| discriminate].
  destruct (User.emailVerificationExpires u) as [expires |]; [| discriminate].
  intros Hheld. apply andb_true_iff in Hheld. destruct Hheld as [K1 K2].
  apply streq_eq in K1. apply Z.ltb_lt in K2.
  exists token, expires. subst. repeat split; assumption.
Qed.

Lemma address_is_verified_only_with_the_held_token_witness :
  User.isEmailVerified Fixtures.bob = false
  /\ User.isEmailVerified (User.setVerified Fixtures.bob) = true.
Proof.
  destruct (address_is_verified_only_with_the_held_token
              (arrival 500 (GetVerifyEmail (Some "a1b2")))
              (Fixtures.dbOf [Fixtures.alice; Fixtures.bob]) Fixtures.bobId
              Fixtures.bob (User.setVerified Fixtures.bob))
    as (H1 & H2 & _).
  - unfold uniqueIds. cbn.
    constructor; [intros [E | []]; discriminate E |].
    constructor; [intros [] | constructor].
  - reflexivity.
  - vm_compute. reflexivity.
  - cbn. discriminate.
  - split; [exact H1 | exact H2].
Defined.

(** X22. A lock is set only by a login with a wrong password, and it
    always ends 30 minutes after that request: if a served call leaves a
    stored user with a [lockUntil] that the user did not have before, the
    call is a login whose password does not match, the user was not locked at
    that time, the failure is at least the fifth counted one, and the new
    [lockUntil] is the time of the call plus 1,800,000 ms. *)
Theorem lock_is_set_only_by_a_failed_login
    (a : Arrival) (db : DB) (id : string) (u u' : User.IUser) (l : Time) :
  uniqueIds db ->
  findUserById id db = Some u ->
  findUserById id (snd (serve a db)) = Some u' ->
  User.lockUntil u' = Some l ->
  User.lockUntil u <> Some l ->
  l = now (at_env a) + 1800000
  /\ User.isLocked u' = true
  /\ 5 <= User.loginAttempts u'
  /\ User.isAccountLocked (now (at_env a)) u = false
  /\ exists email password twoFactorToken,
       at_call a = PostLogin email password twoFactorToken
       /\ bcryptCompare (at_env a) password (User.password u) = false.
Proof.
  intros Hids Hu Hu' Hl Hne.
  pose proof (stored_user_step a db id u u' Hids Hu Hu') as Hs.
  destruct Hs;
    try (exfalso; apply Hne; exact Hl);
    try (cbn in Hl; discriminate Hl);
    try (exfalso; apply Hne; revert Hl; unfold passwordController.savePassword;
         destruct (passwordController.passwordModified _ _); cbn; congruence).
  revert Hl. unfold User.recordFailure, User.incrementLoginAttempts,
    User.incrementLoginAttemptsWith, User.defaultMaxAttempts,
    User.defaultLockoutMinutes.
  destruct (User.lockExpired _ u); [cbn; discriminate |].
  destruct (Z.leb_spec 5 (User.loginAttempts u + 1)); cbn [andb];
    [destruct (negb (User.isLocked u)) |]; cbn; intros Hl;
    try (exfalso; apply Hne; exact Hl).
  injection Hl as <-. split; [lia |]. split; [reflexivity |]. split; [assumption |].
  split; [assumption |]. exists email, password, twoFactorToken. split; auto.
Qed.

Lemma lock_is_set_only_by_a_failed_login_witness :
  1801000 = now (Fixtures.envAt 1000 true) + 1800000.
Proof.
  apply (lock_is_set_only_by_a_failed_login
           (arrival 1000 (PostLogin "alice@example.com" "guess" None))
           (Fixtures.dbOf [aliceFourFailures]) Fixtures.aliceId aliceFourFailures
           (User.setLockout 5 (Some 1801000) true Fixtures.alice) 1801000).
  - unfold uniqueIds. cbn. constructor; [intros [] | constructor].
  - reflexivity.
  - vm_compute. reflexivity.
  - reflexivity.
  - cbn. discriminate.
Defined.

(** ** The audit log: events that are not recorded *)

Lemma logSecurityEvent_unlisted (env : Env) (userId email : option string)
    (action : string) (req : deviceParser.Request) (st : SecurityLog.Status)
    (details : option string) (db : DB) :
  has SecurityLog.actionEnum action = false ->
  auth.logSecurityEvent env userId email action req st details db = db.
Proof. intros H. unfold auth.logSecurityEvent. now rewrite H. Qed.

(** X23. The actions that the handlers for trusting a device, revoking a
    device, revoking all devices, revoking all sessions and regenerating
    backup codes pass to the audit log are not among the actions that the
    schema of the log admits; the entry is refused and the failure swallowed,
    so none of these five handlers ever adds an entry to the audit log. *)
Theorem unlisted_actions_leave_no_audit_entry
    (env : Env) (userId userEmail : option string) (deviceId token password : string)
    (randomBytes : nat -> twoFactorController.Bytes4)
    (req : deviceParser.Request) (db : DB) :
  securityLogs (snd (deviceController.trustDevice env userId deviceId userEmail req db))
  = securityLogs db
  /\ securityLogs (snd (deviceController.revokeDevice env userId deviceId userEmail
                          req db))
     = securityLogs db
  /\ securityLogs (snd (deviceController.revokeAllDevices env userId token userEmail
                          req db))
     = securityLogs db
  /\ securityLogs (snd (sessionController.revokeAllSessions env userId token userEmail
                          req db))
     = securityLogs db
  /\ securityLogs (snd (twoFactorController.regenerateBackupCodes env randomBytes
                          userId password req db))
     = securityLogs db.
Proof.
  repeat split.
  - unfold deviceController.trustDevice. handler_cases; cbn [snd];
      rewrite ?logSecurityEvent_unlisted by reflexivity; reflexivity.
  - unfold deviceController.revokeDevice. handler_cases; cbn [snd];
      rewrite ?logSecurityEvent_unlisted by reflexivity; reflexivity.
  - unfold deviceController.revokeAllDevices. handler_cases; cbn [snd];
      rewrite ?logSecurityEvent_unlisted by reflexivity; reflexivity.
  - unfold sessionController.revokeAllSessions. handler_cases; cbn [snd];
      rewrite ?logSecurityEvent_unlisted by reflexivity; reflexivity.
  - unfold twoFactorController.regenerateBackupCodes. handler_cases; cbn [snd];
      rewrite ?logSecurityEvent_unlisted by reflexivity; reflexivity.
Qed.

(** ** Backup codes: their format *)

Lemma upper_hexDigit (n : N) :
  In (twoFactorController.upperChar (twoFactorController.hexDigit n)) hexUpper.
Proof.
  unfold twoFactorController.hexDigit.
  generalize (N.to_nat n). intros k.
  do 16 (destruct k as [| k]; [vm_compute; tauto |]).
  destruct k; vm_compute; tauto.
Qed.

(** X24. The set-up and the regeneration of backup codes produce exactly
    ten codes, each of eight characters, each character an upper-case
    hexadecimal digit. *)
Theorem generateBackupCodes_format (randomBytes : nat -> twoFactorController.Bytes4) :
  List.length (twoFactorController.generateBackupCodes randomBytes) = 10%nat
  /\ forall code, In code (twoFactorController.generateBackupCodes randomBytes) ->
       String.length code = 8%nat
       /\ forall c, In c (list_ascii_of_string code) -> In c hexUpper.
Proof.
  unfold twoFactorController.generateBackupCodes. split.
  - now rewrite length_map, length_seq.
  - intros code Hin. apply in_map_iff in Hin. destruct Hin as (i & <- & _).
    destruct (randomBytes i) as [[[b0 b1] b2] b3].
    unfold twoFactorController.toHex, twoFactorController.hexOfByte.
    cbn [String.append twoFactorController.toUpperCase String.length
         list_ascii_of_string].
    split; [reflexivity |].
    intros c Hc. cbn [In] in Hc.
    repeat (destruct Hc as [<- | Hc]; [apply upper_hexDigit |]).
    contradiction.
Qed.

(** ** Device information *)

(** X25. The device type of a request is never ['unknown']: it is
    'tablet', 'mobile' or 'desktop', and a user agent that names a tablet
    without one of the four mobile marks counts as a desktop.  The operating
    system of a user agent that contains "Linux" is never reported as
    Android, which the user agents of Android browsers do. *)
Theorem parseDeviceInfo_classification (req : deviceParser.Request) :
  let info := deviceParser.parseDeviceInfo req in
  let ua := deviceParser.req_userAgent req in
  In (deviceParser.deviceType info) ["tablet"; "mobile"; "desktop"]
  /\ (deviceParser.deviceType info = "tablet" ->
      includes ua "iPad" = true
      \/ (includes ua "Tablet" = true
          /\ (includes ua "Mobile" = true \/ includes ua "Android" = true
              \/ includes ua "iPhone" = true)))
  /\ (includes ua "Linux" = true ->
      In (deviceParser.os info) ["Windows"; "macOS"; "Linux"])
  /\ deviceParser.userAgent info = ua
  /\ deviceParser.ipAddress info = deviceParser.req_ipAddress req.
Proof.
  cbv zeta. unfold deviceParser.parseDeviceInfo.
  cbn [deviceParser.deviceType deviceParser.os deviceParser.userAgent
       deviceParser.ipAddress].
  split; [| split; [| split; [| split; reflexivity]]].
  - destruct (_ || _); [destruct (_ || _) |]; cbn; tauto.
  - destruct (includes _ "Mobile"), (includes _ "Android"), (includes _ "iPhone"),
      (includes _ "iPad"), (includes _ "Tablet"); cbn; intros H;
      try discriminate H; tauto.
  - intros ->. destruct (includes _ "Windows"); [cbn; tauto |].
    destruct (includes _ "Mac OS"); cbn; tauto.
Qed.

Lemma parseDeviceInfo_classification_witness :
  deviceParser.os (deviceParser.parseDeviceInfo chromeAndroid) = "Linux"
  /\ In (deviceParser.os (deviceParser.parseDeviceInfo chromeAndroid))
        ["Windows"; "macOS"; "Linux"].
Proof.
  split; [vm_compute; reflexivity |].
  apply (parseDeviceInfo_classification chromeAndroid).
  vm_compute. reflexivity.
Defined.

(** ** A lock and the protected routes *)

Lemma findUserById_unique (db : DB) (user : User.IUser) :
  uniqueIds db -> In user (users db) ->
  findUserById (User._id user) db = Some user.
Proof.
  intros Hids Hin. unfold findUserById. apply find_unique.
  - exact Hin.
  - apply streq_refl.
  - intros y Hy Hp. apply streq_eq in Hp. eapply unique_id; eauto.
Qed.

Lemma findUserById_updateUser (id : string) (f : User.IUser -> User.IUser)
    (db : DB) (u : User.IUser) :
  (forall x, User._id (f x) = User._id x) ->
  findUserById id db = Some u ->
  findUserById id (updateUser id f db) = Some (f u).
Proof.
  intros Hf. unfold findUserById, updateUser. cbn [users withUsers].
  induction (users db) as [| x l IH]; cbn; [discriminate |].
  destruct (streq (User._id x) id) eqn:E.
  - intros H. injection H as <-. now rewrite Hf, E.
  - rewrite E. exact IH.
Qed.

(** A lock that has not run out stands through every call but a password
    reset. *)
Lemma UserStep_lock_stands (a : Arrival) (u u' : User.IUser) (l : Time) :
  UserStep a u u' ->
  User.lockUntil u = Some l ->
  now (at_env a) < l ->
  (forall token password, at_call a <> PostResetPassword token password) ->
  User.lockUntil u' = Some l.
Proof.
  intros Hs Hl Hnow Hcall.
  assert (Hlocked : User.isAccountLocked (now (at_env a)) u = true).
  { unfold User.isAccountLocked. rewrite Hl. apply Z.ltb_lt. exact Hnow. }
  destruct Hs; try exact Hl; try congruence;
    try (exfalso; eapply Hcall; eassumption).
  unfold passwordController.savePassword.
  destruct (passwordController.passwordModified _ _); exact Hl.
Qed.

Lemma serveAll_lock_stands (arrivals : list Arrival) (db : DB) (id : string)
    (u : User.IUser) (l : Time) :
  uniqueIds db ->
  findUserById id db = Some u ->
  User.lockUntil u = Some l ->
  Forall (fun a => now (at_env a) < l
                   /\ forall token password,
                        at_call a <> PostResetPassword token password) arrivals ->
  exists u', findUserById id (serveAll arrivals db) = Some u'
             /\ User.lockUntil u' = Some l.
Proof.
  revert db u. induction arrivals as [| a rest IH]; intros db u Hids Hu Hl Hall;
    cbn [serveAll].
  - exists u. auto.
  - inversion Hall as [| ? ? [Hnow Hcall] Hrest]; subst.
    destruct (find_by_id_step (UserStep a) id _ _ u (UserStep_id a)
                (serve_user_steps a db Hids) Hu) as (u2 & H2 & Hs).
    apply (IH (snd (serve a db)) u2).
    + unfold uniqueIds in *.
      destruct (Forall2_userKept_ids _ _ (serve_users a db Hids)) as [-> _].
      exact Hids.
    + exact H2.
    + eapply UserStep_lock_stands; eassumption.
    + exact Hrest.
Qed.

(** X26. The fifth counted wrong password locks more than the login.
    Whatever calls are served during the 30 minutes that follow, as long as
    none of them is a password reset (which clears the lock), the
    authentication middleware refuses every access token of that user with
    403 within these 30 minutes, so the protected routes are shut for a
    holder of a valid token as well. *)
Theorem lock_shuts_protected_routes
    (env env' : Env) (email password : string) (twoFactorToken : option string)
    (req : deviceParser.Request) (db : DB) (user : User.IUser)
    (verifyAccessToken : string -> auth.AccessCheck) (authHeader : string)
    (decoded : jwt.TokenPayload) (arrivals : list Arrival) :
  uniqueIds db ->
  findUserByEmail (toLowerCase env email) db = Some user ->
  User.lockUntil user = None ->
  User.isLocked user = false ->
  4 <= User.loginAttempts user ->
  bcryptCompare env password (User.password user) = false ->
  truthy authHeader = true ->
  startsWith authHeader "Bearer " = true ->
  verifyAccessToken
    (String.substring 7 (String.length authHeader - 7) authHeader)
  = auth.TokenValid decoded ->
  jwt.userId decoded = User._id user ->
  Forall (fun a => now (at_env a) < now env + 1800000
                   /\ forall token password,
                        at_call a <> PostResetPassword token password) arrivals ->
  now env' < now env + 1800000 ->
  auth.authenticate env' verifyAccessToken (Some authHeader)
    (serveAll arrivals
       (snd (authController.login env email password twoFactorToken req db)))
  = auth.Stop 403 "Account is locked. Please contact support.".
Proof.
  intros Hids Hu Hl Hk Hn Hp Ht Hs Hv Hid Hall Hnow.
  destruct (findUserByEmail_In _ _ _ Hu) as [Hin _].
  assert (Hlocked : User.isAccountLocked (now env) user = false)
    by (unfold User.isAccountLocked; now rewrite Hl).
  assert (Hexp : User.lockExpired (now env) user = false)
    by (unfold User.lockExpired; now rewrite Hl).
  set (db1 := snd (authController.login env email password twoFactorToken req db)).
  assert (Hids1 : uniqueIds db1).
  { pose proof (serve_users
                  (mkArrival env (fun p => p) EmptyString
                     (fun _ => (Byte.x00, Byte.x00, Byte.x00, Byte.x00)) req
                     (PostLogin email password twoFactorToken)) db Hids) as K.
    unfold uniqueIds in *.
    destruct (Forall2_userKept_ids _ _ K) as [E _].
    unfold serve in E. cbn [at_call at_env at_req] in E. fold db1 in E.
    rewrite E. exact Hids. }
  assert (Hfound : findUserById (User._id user) db1
                   = Some (User.setLockout (User.loginAttempts user + 1)
                             (Some (now env + 30 * 60 * 1000)) true user)).
  { subst db1. unfold authController.login, authController.loginRun.
    rewrite Hu, Hlocked, Hp. cbn [negb authController.database snd].
    unfold findUserById. rewrite users_logSecurityEvent.
    fold (findUserById (User._id user)
            (updateUser (User._id user) (User.incrementLoginAttempts (now env) user) db)).
    rewrite (findUserById_updateUser (User._id user) _ db user).
    - change (User.incrementLoginAttempts (now env) user user)
        with (User.recordFailure (now env) user).
      rewrite recordFailure_locking by (auto; lia). reflexivity.
    - intros x. unfold User.incrementLoginAttempts, User.incrementLoginAttemptsWith.
      destruct (User.lockExpired _ _); [| destruct (_ && _)]; reflexivity.
    - now apply findUserById_unique. }
  destruct (serveAll_lock_stands arrivals db1 (User._id user) _
              (now env + 30 * 60 * 1000) Hids1 Hfound eq_refl)
    as (u' & Hu' & Hl').
  { eapply Forall_impl; [| exact Hall]. cbn beta. intros a [H1 H2]. split; [lia | exact H2]. }
  unfold auth.authenticate. rewrite Ht, Hs, Hv. cbn [negb orb].
  rewrite Hid, Hu'. unfold User.isAccountLocked. rewrite Hl'.
  replace (now env' <? now env + 30 * 60 * 1000) with true
    by (symmetry; apply Z.ltb_lt; lia).
  reflexivity.
Qed.

(** Witness: Alice's fifth failure, then a login with the right password,
    a forgotten-password request and a password change, and her access
    token presented just before the 30 minutes are over. *)
Lemma lock_shuts_protected_routes_witness :
  auth.authenticate (Fixtures.envAt 1800999 true) verifyAlice
    (Some "Bearer alice-access")
    (serveAll
       [arrival 2000 (PostLogin "alice@example.com" "correct horse" None);
        arrival 3000 (PostForgotPassword "alice@example.com");
        arrival 4000 (PostChangePassword (Some Fixtures.aliceId) "correct horse"
                        "Tr0ub4dor&3!XY")]
       (snd (authController.login (Fixtures.envAt 1000 true) "alice@example.com"
               "guess" None Fixtures.chromeDesktop
               (Fixtures.dbOf [aliceFourFailures]))))
  = auth.Stop 403 "Account is locked. Please contact support.".
Proof.
  apply (lock_shuts_protected_routes (Fixtures.envAt 1000 true)
           (Fixtures.envAt 1800999 true) "alice@example.com" "guess" None
           Fixtures.chromeDesktop (Fixtures.dbOf [aliceFourFailures])
           aliceFourFailures verifyAlice "Bearer alice-access"
           (jwt.mkPayload Fixtures.aliceId "alice@example.com" "user")).
  - unfold uniqueIds. cbn. constructor; [intros [] | constructor].
  - reflexivity.
  - reflexivity.
  - reflexivity.
  - cbn. lia.
  - reflexivity.
  - reflexivity.
  - reflexivity.
  - reflexivity.
  - reflexivity.
  - repeat constructor; cbn; try lia; intros; discriminate.
  - cbn. lia.
Defined.

(** A password reset in between lifts the lock: the same access token is
    let through again. *)
Example password_reset_reopens_protected_routes :
  let locked :=
    snd (authController.login (Fixtures.envAt 1000 true) "alice@example.com"
           "guess" None Fixtures.chromeDesktop (Fixtures.dbOf [aliceFourFailures])) in
  let reset :=
    serveAll [arrival 2000 (PostForgotPassword "alice@example.com");
              arrival 3000 (PostResetPassword "9f8e7d6c" "Tr0ub4dor&3!XY")] locked in
  auth.authenticate (Fixtures.envAt 4000 true) verifyAlice
    (Some "Bearer alice-access") locked
  = auth.Stop 403 "Account is locked. Please contact support."
  /\ option_map User.lockUntil (findUserById Fixtures.aliceId reset) = Some None
  /\ auth.authenticate (Fixtures.envAt 4000 true) verifyAlice
       (Some "Bearer alice-access") reset
     <> auth.Stop 403 "Account is locked. Please contact support.".
Proof. cbv zeta. repeat split; vm_compute; try reflexivity; discriminate. Qed.

(** ** Revocation of sessions *)

Lemma nth_error_deactivateAt (i j : nat) (l : list Session.ISession) :
  nth_error (sessionController.deactivateAt i l) j
  = if Nat.eqb j i
    then option_map (Session.setIsActive false) (nth_error l j)
    else nth_error l j.
Proof.
  revert i j. induction l as [| s l IH]; intros i j.
  - destruct i, j; cbn; try reflexivity; now destruct (Nat.eqb _ _).
  - destruct i as [| i], j as [| j]; cbn; try reflexivity. apply IH.
Qed.

(** X27. A session is revoked only by its owner.  The handler answers 200
    exactly when the parameter is an object id, the named session exists
    and belongs to the caller.  A session of another user is answered like
    a missing one, with 404; a parameter that is not a well-formed object
    id makes the query throw and is answered 500; in neither case is
    anything written.  On success the named session is no longer active
    and every other session is as before. *)
Theorem revokeSession_owner_only (env : Env) (userId : string)
    (sessionId : sessionController.SessionIdParam)
    (userEmail : option string) (req : deviceParser.Request) (db : DB) :
  truthy userId = true ->
  let out := sessionController.revokeSession env (Some userId) sessionId userEmail
               req db in
  (statusCode (fst out) = 200 <->
   exists i s, sessionId = sessionController.ObjectId i
               /\ nth_error (sessions db) i = Some s /\ Session.userId s = userId)
  /\ (statusCode (fst out) <> 200 ->
      out = (match sessionId with
             | sessionController.ObjectId _ => reply 404 false "Session not found"
             | sessionController.NotAnObjectId =>
                 reply 500 false "Failed to revoke session"
             end, db))
  /\ (forall i, sessionId = sessionController.ObjectId i ->
                statusCode (fst out) = 200 ->
                exists s, nth_error (sessions db) i = Some s
                          /\ nth_error (sessions (snd out)) i
                             = Some (Session.setIsActive false s))
  /\ (forall j, sessionId <> sessionController.ObjectId j ->
                nth_error (sessions (snd out)) j = nth_error (sessions db) j).
Proof.
  intros Ht. cbv zeta. unfold sessionController.revokeSession, present. rewrite Ht.
  destruct sessionId as [i |].
  - destruct (nth_error (sessions db) i) as [s |] eqn:Hn.
    + destruct (streq (Session.userId s) userId) eqn:E.
      * apply streq_eq in E. cbn [fst snd statusCode reply].
        rewrite sessions_logSecurityEvent. cbn [sessions withSessions].
        split; [split; [intros _; exists i, s; auto | reflexivity] |].
        split; [intros H; now contradiction H |].
        split.
        -- intros i' Hi' _. injection Hi' as <-. exists s. split; [exact Hn |].
           rewrite nth_error_deactivateAt, Nat.eqb_refl, Hn. reflexivity.
        -- intros j Hj. rewrite nth_error_deactivateAt.
           assert (Hne : j <> i) by (intros ->; now apply Hj).
           apply Nat.eqb_neq in Hne. now rewrite Hne.
      * cbn [fst snd statusCode reply].
        split; [split; [discriminate |] |].
        -- intros (i' & s' & Hi' & Hs' & Hid). injection Hi' as <-.
           assert (s' = s) as -> by congruence.
           rewrite Hid, streq_refl in E. discriminate.
        -- split; [reflexivity |]. split; [discriminate | reflexivity].
    + cbn [fst snd statusCode reply].
      split; [split; [discriminate |] |].
      * intros (i' & s' & Hi' & Hs' & _). injection Hi' as <-. congruence.
      * split; [reflexivity |]. split; [discriminate | reflexivity].
  - cbn [fst snd statusCode reply].
    split; [split; [discriminate | intros (i' & s' & Hi' & _); discriminate] |].
    split; [reflexivity |]. split; [discriminate | reflexivity].
Qed.

(** Witness: Bob names the session of Alice, and then a parameter that is
    no object id. *)
Lemma revokeSession_owner_only_witness :
  sessionController.revokeSession (Fixtures.envAt 6000 true)
    (Some Fixtures.bobId) (sessionController.ObjectId 0) (Some "bob@example.com")
    Fixtures.chromeDesktop Scenario.loggedIn
  = (reply 404 false "Session not found", Scenario.loggedIn)
  /\ sessionController.revokeSession (Fixtures.envAt 6000 true)
       (Some Fixtures.bobId) sessionController.NotAnObjectId (Some "bob@example.com")
       Fixtures.chromeDesktop Scenario.loggedIn
     = (reply 500 false "Failed to revoke session", Scenario.loggedIn).
Proof.
  split.
  - apply (revokeSession_owner_only (Fixtures.envAt 6000 true) Fixtures.bobId
             (sessionController.ObjectId 0) (Some "bob@example.com")
             Fixtures.chromeDesktop Scenario.loggedIn).
    + reflexivity.
    + vm_compute. discriminate.
  - apply (revokeSession_owner_only (Fixtures.envAt 6000 true) Fixtures.bobId
             sessionController.NotAnObjectId (Some "bob@example.com")
             Fixtures.chromeDesktop Scenario.loggedIn).
    + reflexivity.
    + vm_compute. discriminate.
Defined.

(** X28. After the revocation of all sessions, the only sessions of the
    caller that are still active carry the refresh token named in the body;
    the sessions of other users are as before, and so is a session of the
    caller with that token.  The handler does not ask whether the named token
    belongs to the caller: with a token that none of the caller's sessions
    carries, every session of the caller is revoked. *)
Theorem revokeAllSessions_keeps_only_the_named_token
    (env : Env) (userId currentRefreshToken : string) (userEmail : option string)
    (req : deviceParser.Request) (db : DB) :
  truthy userId = true ->
  let out := sessionController.revokeAllSessions env (Some userId)
               currentRefreshToken userEmail req db in
  fst out = reply 200 true "All sessions revoked successfully"
  /\ (forall s', In s' (sessions (snd out)) ->
        Session.userId s' = userId -> Session.isActive s' = true ->
        Session.refreshToken s' = currentRefreshToken)
  /\ Forall2 (fun s s' =>
                (Session.userId s <> userId
                 \/ Session.refreshToken s = currentRefreshToken -> s' = s)
                /\ Session.userId s' = Session.userId s
                /\ Session.refreshToken s' = Session.refreshToken s)
             (sessions db) (sessions (snd out))
  /\ ((forall s, In s (sessions db) -> Session.userId s = userId ->
                 Session.refreshToken s <> currentRefreshToken) ->
      forall s', In s' (sessions (snd out)) -> Session.userId s' = userId ->
                 Session.isActive s' = false).
Proof.
  intros Ht. cbv zeta. unfold sessionController.revokeAllSessions, present.
  rewrite Ht. cbn [fst snd]. rewrite sessions_logSecurityEvent.
  cbn [sessions withSessions].
  split; [reflexivity |].
  assert (Hact : forall s', In s' (map (fun s =>
                   if streq (Session.userId s) userId
                      && negb (streq (Session.refreshToken s) currentRefreshToken)
                      && Session.isActive s
                   then Session.setIsActive false s else s) (sessions db)) ->
                 Session.userId s' = userId -> Session.isActive s' = true ->
                 Session.refreshToken s' = currentRefreshToken).
  { intros s' Hin Hu Ha. apply in_map_iff in Hin. destruct Hin as (s & <- & _).
    destruct (streq (Session.userId s) userId) eqn:E1;
      destruct (streq (Session.refreshToken s) currentRefreshToken) eqn:E2;
      destruct (Session.isActive s) eqn:E3; cbn in *;
      try (now apply streq_eq); try congruence.
    rewrite Hu, streq_refl in E1. discriminate. }
  split; [exact Hact |]. split.
  - apply Forall2_map_right. intros s.
    destruct (streq (Session.userId s) userId) eqn:E1;
      destruct (streq (Session.refreshToken s) currentRefreshToken) eqn:E2;
      destruct (Session.isActive s) eqn:E3; cbn; repeat split; auto;
      intros [H | H]; try reflexivity.
    + apply streq_eq in E1. now contradiction H.
    + rewrite H, streq_refl in E2. discriminate.
  - intros Hnone s' Hin Hu.
    destruct (Session.isActive s') eqn:Ha; [| reflexivity].
    exfalso. pose proof (Hact s' Hin Hu Ha) as Htok.
    apply in_map_iff in Hin. destruct Hin as (s & <- & Hs).
    apply (Hnone s Hs).
    + destruct (_ && _) in Hu; exact Hu.
    + destruct (_ && _) in Htok; exact Htok.
Qed.

Lemma revokeAllSessions_keeps_only_the_named_token_witness :
  fst (sessionController.revokeAllSessions (Fixtures.envAt 9500 true)
         (Some Fixtures.aliceId) "not-a-token" (Some "alice@example.com")
         Fixtures.chromeDesktop Scenario.twoBrowsers)
  = reply 200 true "All sessions revoked successfully"
  /\ map Session.isActive
       (sessions
          (snd (sessionController.revokeAllSessions (Fixtures.envAt 9500 true)
                  (Some Fixtures.aliceId) "not-a-token" (Some "alice@example.com")
                  Fixtures.chromeDesktop Scenario.twoBrowsers)))
     = [false; false].
Proof.
  split; [| vm_compute; reflexivity].
  apply (revokeAllSessions_keeps_only_the_named_token (Fixtures.envAt 9500 true)
           Fixtures.aliceId "not-a-token" (Some "alice@example.com")
           Fixtures.chromeDesktop Scenario.twoBrowsers).
  reflexivity.
Defined.

(** ** Password changes *)

(** X29. A password change is marked suspicious exactly when it comes from
    an address that the recent activity does not know: the rule for a recent
    password change adds 30 points and its reason, but never decides.  The
    score is 0, 30, 40 or 70. *)
Theorem checkSuspiciousPasswordChange_decided_by_address
    (env : Env) (userId : string) (req : deviceParser.Request) (db : DB) :
  let r := fst (suspiciousActivity.checkSuspiciousPasswordChange env userId req db) in
  (suspiciousActivity.isSuspicious r = true <->
   In "Password change from new IP address" (suspiciousActivity.reasons r))
  /\ In (suspiciousActivity.riskScore r) [0; 30; 40; 70].
Proof.
  cbv zeta. unfold suspiciousActivity.checkSuspiciousPasswordChange.
  cbn [fst suspiciousActivity.isSuspicious suspiciousActivity.reasons
       suspiciousActivity.riskScore].
  destruct (negb _ && _); destruct (0 <? _); cbn;
    (split; [split; intros H | auto 6]);
    try discriminate H; try reflexivity; auto;
    repeat (destruct H as [H | H]; try discriminate H); contradiction.
Qed.

(** X30. Neither the reset nor the change of a password touches a session
    or a device, whatever the outcome: the sessions that were active before
    a password was replaced are active afterwards, and the refresh handler
    finds them as before. *)
Theorem password_writes_keep_sessions
    (env : Env) (hash : string -> string) (userId : option string)
    (token password currentPassword newPassword : string)
    (req : deviceParser.Request) (db : DB) :
  let reset := snd (passwordController.resetPassword env hash token password req db) in
  let change := snd (passwordController.changePassword env hash userId
                       currentPassword newPassword req db) in
  sessions reset = sessions db /\ devices reset = devices db
  /\ sessions change = sessions db /\ devices change = devices db
  /\ forall tok t,
       authController.findActiveByRefreshToken tok t (sessions reset)
       = authController.findActiveByRefreshToken tok t (sessions db)
       /\ authController.findActiveByRefreshToken tok t (sessions change)
          = authController.findActiveByRefreshToken tok t (sessions db).
Proof.
  cbv zeta.
  assert (H1 : sessions (snd (passwordController.resetPassword env hash token password
                                req db)) = sessions db).
  { unfold passwordController.resetPassword. untouched. }
  assert (H2 : devices (snd (passwordController.resetPassword env hash token password
                               req db)) = devices db).
  { unfold passwordController.resetPassword. untouched. }
  assert (H3 : sessions (snd (passwordController.changePassword env hash userId
                                currentPassword newPassword req db)) = sessions db).
  { unfold passwordController.changePassword. untouched. }
  assert (H4 : devices (snd (passwordController.changePassword env hash userId
                               currentPassword newPassword req db)) = devices db).
  { unfold passwordController.changePassword. untouched. }
  rewrite H1, H2, H3, H4. repeat split.
Qed.
